(** * METAMEDAI RAG backend: retrieval, context composition and generation

    A shallow embedding of the Python sources

    - [retrieval/generator.py]   (class [RAGGenerator]),
    - [retrieval/retriever.py]   (class [HybridRetriever]),
    - [retrieval/rag_service.py] (class [RAGService]),
    - [ingestion/vector_store.py] (class [VectorStore]),
    - [ingestion/document_processor.py] (class [DocumentProcessor]),
    - [config.py] (class [Config]),

    together with the properties of the design document that concern them.

    Conventions.  A Python [str] is a [string] whose characters are the code
    points below 256; [len] is [String.length].  Python integers are [Z].  A
    [dict] used as a result payload is a [gmap string pyval]; a [dict] that is
    iterated in insertion order (document metadata) is an association list.
    Code that calls remote services and may raise runs in the monad [M] below:
    explicit state passing over the object's attributes, the state of the
    outside world and the log of the calls made, with an outcome that is either
    a returned value or a raised exception. *)

From Stdlib Require Import ZArith Lia Ascii String List Bool.
From Stdlib Require Import Numbers.DecimalString Floats.PrimFloat.
From stdpp Require Import base gmap list strings sorting.

Local Open Scope Z_scope.

(** ** Python strings *)

Module Str.

(** The line feed, written ["\n"] in the sources. *)
Definition nl : string := String (ascii_of_nat 10) "".

(** [len(s)] *)
Definition len (s : string) : Z := Z.of_nat (String.length s).

(** [s[:n]]: a negative bound counts from the end of the string. *)
Definition slice_to (n : Z) (s : string) : string :=
  if n <? 0 then String.substring 0 (Z.to_nat (len s + n)) s
  else String.substring 0 (Z.to_nat n) s.

(** [c.isspace()] for a character below 256: the C0 white space and
    separators, the space, NEL and the no-break space. *)
Definition isspace (c : ascii) : bool :=
  let n := nat_of_ascii c in
  ((9 <=? n)%nat && (n <=? 13)%nat) || ((28 <=? n)%nat && (n <=? 32)%nat)
  || (n =? 133)%nat || (n =? 160)%nat.

(** [s.lstrip()] *)
Fixpoint lstrip (s : string) : string :=
  match s with
  | EmptyString => EmptyString
  | String c s' => if isspace c then lstrip s' else s
  end.

(** [s.rstrip()] *)
Fixpoint rstrip (s : string) : string :=
  match s with
  | EmptyString => EmptyString
  | String c s' =>
      match rstrip s' with
      | EmptyString => if isspace c then EmptyString else String c EmptyString
      | r => String c r
      end
  end.

(** [s.strip()] *)
Definition strip (s : string) : string := rstrip (lstrip s).

(** [s.endswith(suffix)] *)
Definition endswith (s suffix : string) : bool :=
  let n := String.length s in
  let k := String.length suffix in
  (k <=? n)%nat && String.eqb (String.substring (n - k) k s) suffix.

(** [sep.join(parts)] *)
Definition join (sep : string) (parts : list string) : string :=
  String.concat sep parts.

(** [str(n)] for a natural number, as an f-string renders it. *)
Definition of_nat (n : nat) : string :=
  NilEmpty.string_of_uint (Nat.to_uint n).

(** [s.split(sep)] for a separator of one character. *)
Fixpoint split (sep : ascii) (s : string) : list string :=
  match s with
  | EmptyString => [EmptyString]
  | String c s' =>
      if Ascii.eqb c sep then EmptyString :: split sep s'
      else match split sep s' with
           | [] => [String c EmptyString]
           | piece :: pieces => String c piece :: pieces
           end
  end.

(** [sub in s] *)
Definition contains (sub s : string) : bool :=
  match String.index 0 sub s with
  | Some _ => true
  | None => false
  end.

(** [c * n]: a character repeated. *)
Fixpoint replicate (n : nat) (c : ascii) : string :=
  match n with
  | O => EmptyString
  | S n' => String c (replicate n' c)
  end.

End Str.

(** ** Documents *)

(** [langchain_core.documents.Document]: the text and its metadata.  The
    metadata is a [dict]; its items are kept in insertion order, each value
    carried by the text that formatting it yields. *)
Record Document := mkDocument {
  page_content : string;
  metadata : list (string * string)
}.

(** ** [RAGGenerator._prepare_context] *)

Module Composer.

Definition max_total_chars : Z := 4000.
Definition per_doc_max : Z := 1200.

Definition sentinel : string := "No relevant context found.".

(** [key not in ['source', 'file_name']] *)
Definition kept_key (key : string) : bool :=
  negb (String.eqb key "source" || String.eqb key "file_name").

(** The [metadata_str] of one document. *)
Definition metadata_str (md : list (string * string)) : string :=
  match md with
  | [] => ""                                   (* falsy metadata *)
  | _ =>
      let metadata_parts :=
        map (fun kv => fst kv +:+ ": " +:+ snd kv)
            (List.filter (fun kv => kept_key (fst kv)) md) in
      match metadata_parts with
      | [] => ""
      | _ => " (Metadata: " +:+ Str.join ", " metadata_parts +:+ ")"
      end
  end.

(** The per-document truncation of the stripped content.  [page_content]
    is a [str], so the fallback of [doc.page_content or ...] is not taken. *)
Definition doc_content (doc : Document) : string :=
  let content := Str.strip (page_content doc) in
  if per_doc_max <? Str.len content
  then Str.slice_to per_doc_max content +:+ "..."
  else content.

(** The block before the total cap is applied. *)
Definition block (i : nat) (doc : Document) : string :=
  "Document " +:+ Str.of_nat i +:+ metadata_str (metadata doc) +:+ ":"
    +:+ Str.nl +:+ doc_content doc +:+ Str.nl.

(** "Trim if exceeding total cap". *)
Definition trim (remaining : Z) (chunk : string) : string :=
  if remaining <? Str.len chunk then
    let chunk := Str.slice_to (Z.max 0 remaining) chunk in
    if Str.endswith chunk "..." then chunk
    else Str.rstrip chunk +:+ "..."
  else chunk.

(** One iteration of the loop body, after the [break] test. *)
Definition chunk_of (i : nat) (doc : Document) (used : Z) : string :=
  trim (max_total_chars - used) (block i doc).

(** The [for] loop over [enumerate(documents, 1)], with its state
    [(used, parts)]; the first branch of the test is the [break]. *)
Fixpoint loop (docs : list Document) (i : nat) (used : Z)
    (parts : list string) : Z * list string :=
  match docs with
  | [] => (used, parts)
  | doc :: rest =>
      if max_total_chars <=? used then (used, parts)
      else
        let chunk := chunk_of i doc used in
        loop rest (S i) (used + Str.len chunk) (parts ++ [chunk])
  end.

Definition _prepare_context (documents : list Document) : string :=
  match documents with
  | [] => sentinel
  | _ => Str.join Str.nl (snd (loop documents 1 0 []))
  end.

End Composer.


(** ** Python values, exceptions and the monad of effectful code *)

Module Py.

(** The values stored in result payloads. *)
#[local] Set Warnings "-register-all".
Inductive pyval :=
| VNone
| VBool (b : bool)
| VInt (n : Z)
| VFloat (x : float)
| VStr (s : string)
| VList (l : list pyval)
| VDict (items : list (string * pyval)).

(** An instance of [Exception]: its class and the text [str(e)]. *)
Record exn := Exception { exn_class : string; exn_msg : string }.

Definition ValueError (msg : string) : exn := Exception "ValueError" msg.

(** How a call ends.  [OutOfFuel] is not a Python outcome: it marks a
    recursion cut by the fuel of the model. *)
Inductive outcome (A : Type) :=
| Returned (a : A)
| Raised (e : exn)
| OutOfFuel.
Global Arguments Returned {A} a.
Global Arguments Raised {A} e.
Global Arguments OutOfFuel {A}.

Definition M (S A : Type) : Type := S -> outcome A * S.

Definition ret {S A} (a : A) : M S A := fun st => (Returned a, st).

Definition bind {S A B} (m : M S A) (k : A -> M S B) : M S B :=
  fun st =>
    match m st with
    | (Returned a, st') => k a st'
    | (Raised e, st') => (Raised e, st')
    | (OutOfFuel, st') => (OutOfFuel, st')
    end.

(** [raise e] *)
Definition raise {S A} (e : exn) : M S A := fun st => (Raised e, st).

(** [try: body except Exception as e: handler(e)] *)
Definition try_except {S A} (body : M S A) (handler : exn -> M S A) : M S A :=
  fun st =>
    match body st with
    | (Raised e, st') => handler e st'
    | r => r
    end.

Definition out_of_fuel {S A} : M S A := fun st => (OutOfFuel, st).

Definition gets {S A} (f : S -> A) : M S A := fun st => (Returned (f st), st).

Definition modify {S} (f : S -> S) : M S unit := fun st => (Returned tt, f st).

(** The truth value of a string that may be [None]: [None] and the empty
    string are falsy. *)
Definition truthy (o : option string) : bool :=
  match o with
  | Some s => negb (String.eqb s "")
  | None => false
  end.

End Py.

Declare Scope py_scope.
Delimit Scope py_scope with py.
Notation "x <- m ;; k" := (Py.bind m (fun x => k))
  (at level 100, m at next level, right associativity) : py_scope.
Notation "m ;; k" := (Py.bind m (fun _ => k))
  (at level 100, right associativity) : py_scope.

(** ** Configuration ([config.py]) *)

(** The class attributes of [Config] that the modelled code reads.  A value
    read with [os.getenv] and no default may be [None]. *)
Module Config.

Record t := mk {
  OPENAI_API_KEY : option string;
  OPENAI_MODEL : string;
  OPENAI_EMBEDDING_MODEL : string;
  PINECONE_API_KEY : option string;
  PINECONE_CLOUD : option string;
  PINECONE_REGION : option string;
  PINECONE_INDEX_NAME : string
}.

(** [a or b] where [a] may be [None]. *)
Definition or_else (a : option string) (b : string) : option string :=
  if Py.truthy a then a else Some b.

(** The body of the class, over the environment that [load_dotenv] has
    filled: the cloud and the region come from their own variables, else
    from a legacy [PINECONE_ENVIRONMENT] of the form [<region>-<cloud>]. *)
Definition load (env : gmap string string) : t :=
  let cloud := env !! "PINECONE_CLOUD" in
  let region := env !! "PINECONE_REGION" in
  let legacy := env !! "PINECONE_ENVIRONMENT" in
  let located :=
    if (negb (Py.truthy cloud) || negb (Py.truthy region)) && Py.truthy legacy then
      let parts := Str.split "-" (default "" legacy) in
      if (2 <=? length parts)%nat then
        (or_else cloud (List.last parts ""),
         or_else region (Str.join "-" (removelast parts)))
      else (cloud, region)
    else (cloud, region) in
  mk (env !! "OPENAI_API_KEY")
     (default "gpt-4o-mini" (env !! "OPENAI_MODEL"))
     (default "text-embedding-3-small" (env !! "OPENAI_EMBEDDING_MODEL"))
     (env !! "PINECONE_API_KEY")
     (fst located) (snd located)
     (default "rag-index" (env !! "PINECONE_INDEX_NAME")).

End Config.

(** ** The outside world: client objects and remote calls *)

Module Ext.

Import Py.

(** Client objects are carried by the arguments they were built from. *)
Record Pinecone := mkPinecone { pc_api_key : option string }.

Record Index := mkIndex { ix_client : Pinecone; ix_name : string }.

Record OpenAIEmbeddings := mkEmbeddings {
  emb_api_key : option string;
  emb_model : string
}.

Record ChatOpenAI := mkChatOpenAI {
  llm_api_key : option string;
  llm_model : string;
  llm_temperature : float;
  llm_max_tokens : Z;
  llm_timeout : Z;
  llm_max_retries : Z
}.

Record ChatPromptTemplate := mkTemplate { template : string }.

(** [PineconeHybridSearchRetriever]; [top_k] and [alpha] are assigned to on
    every hybrid retrieval. *)
Record PineconeHybridSearchRetriever := mkHybrid {
  hs_embeddings : OpenAIEmbeddings;
  hs_index : Index;
  hs_top_k : Z;
  hs_alpha : float;
  hs_namespace : string
}.

(** The dense vector store, [LC_Pinecone]. *)
Record LC_Pinecone := mkDense {
  vs_index_name : string;
  vs_embedding : OpenAIEmbeddings;
  vs_namespace : string
}.

(** [RecursiveCharacterTextSplitter], measuring with [len]. *)
Record RecursiveCharacterTextSplitter := mkSplitter {
  ts_chunk_size : Z;
  ts_chunk_overlap : Z;
  ts_separators : list string
}.

(** Every operation of a library or a remote service that the modelled code
    performs and that may raise.  The three [print]s of the sources are
    among them: writing to the standard output raises when the stream is
    closed or cannot encode the text.  [PrintRetrieval] is the line of
    [retriever.py:92], with the slice of the query and the parameters that
    it shows, [PrintRetrievalError] the line of [retriever.py:95] for the
    exception caught, [PrintGeneration] the line of [generator.py:84], whose
    text holds the character U+2248.  The elapsed times that the lines also
    show come from [time.perf_counter], which takes no argument and does
    not raise: its readings are left out. *)
Inductive call :=
| NewPinecone (api_key : option string)
| GetIndex (pc : Pinecone) (name : string)
| ListIndexes (pc : Pinecone)
| CreateIndex (pc : Pinecone) (name : string) (dimension : Z)
    (metric cloud region : string)
| NewOpenAIEmbeddings (api_key : option string) (model : string)
| NewHybridRetriever (r : PineconeHybridSearchRetriever)
| FromExistingIndex (vs : LC_Pinecone)
| SetAttr (r : PineconeHybridSearchRetriever) (attr : string) (v : pyval)
| GetRelevantDocuments (r : PineconeHybridSearchRetriever) (query : string)
| MaxMarginalRelevanceSearch (vs : LC_Pinecone) (query : string) (k fetch_k : Z)
| SimilaritySearch (vs : LC_Pinecone) (query : string) (k : Z)
| FromTemplate (custom_prompt : string)
| ChainInvoke (prompt : ChatPromptTemplate) (llm : ChatOpenAI)
    (context question : string)
| NewTextSplitter (splitter : RecursiveCharacterTextSplitter)
| SplitDocuments (splitter : RecursiveCharacterTextSplitter)
    (documents : list Document)
| PrintRetrieval (query : string) (top_k : Z) (alpha : float) (fetch_k : Z)
| PrintRetrievalError (e : exn)
| PrintGeneration.

(** What a call returns when it does not raise; [ChainInvoke] returns the
    [content] of the response, [ListIndexes] the names of the indexes. *)
Definition reply (c : call) : Type :=
  match c with
  | ListIndexes _ => list string
  | GetRelevantDocuments _ _
  | MaxMarginalRelevanceSearch _ _ _ _
  | SimilaritySearch _ _ _
  | SplitDocuments _ _ => list Document
  | ChainInvoke _ _ _ _ => string
  | _ => unit
  end.

(** A logged call with what came back. *)
Inductive entry := Called (c : call) (r : exn + reply c).

Definition entry_call (e : entry) : call :=
  match e with Called c _ => c end.

(** The calls of the hybrid code path. *)
Definition is_hybrid_call (c : call) : bool :=
  match c with
  | NewHybridRetriever _ | SetAttr _ _ _ | GetRelevantDocuments _ _ => true
  | _ => false
  end.

Definition is_create_index (c : call) : bool :=
  match c with
  | CreateIndex _ _ _ _ _ _ => true
  | _ => false
  end.

(** The calls made by the generator. *)
Definition is_generator_call (c : call) : bool :=
  match c with
  | FromTemplate _ | ChainInvoke _ _ _ _ | PrintGeneration => true
  | _ => false
  end.

(** The prints. *)
Definition is_print (c : call) : bool :=
  match c with
  | PrintRetrieval _ _ _ _ | PrintRetrievalError _ | PrintGeneration => true
  | _ => false
  end.

(** The print of the error line of [retrieve]. *)
Definition is_print_error (c : call) : bool :=
  match c with
  | PrintRetrievalError _ => true
  | _ => false
  end.

(** The searches. *)
Definition is_search (c : call) : bool :=
  match c with
  | GetRelevantDocuments _ _
  | MaxMarginalRelevanceSearch _ _ _ _
  | SimilaritySearch _ _ _ => true
  | _ => false
  end.

(** The documents that a logged search returned, if the entry is a search
    and it did not raise. *)
Definition returned_documents (e : entry) : option (list Document) :=
  match e with
  | Called c r =>
      match c return exn + reply c -> option (list Document) with
      | GetRelevantDocuments _ _
      | MaxMarginalRelevanceSearch _ _ _ _
      | SimilaritySearch _ _ _ =>
          fun r => match r with inr docs => Some docs | inl _ => None end
      | _ => fun _ => None
      end r
  end.

(** The behaviour of the libraries and services, over a state [W] of the
    world that the modelled code cannot see. *)
Class Outside (W : Type) := respond : forall c : call, W -> (exn + reply c) * W.

(** The state threaded through a method: the attributes of [self], the
    world, and the calls made so far, oldest first. *)
Record state (W O : Type) := State {
  self : O;
  world : W;
  log : list entry
}.
Global Arguments State {W O} self world log.
Global Arguments self {W O} s.
Global Arguments world {W O} s.
Global Arguments log {W O} s.

(** Perform a call: ask the world, log the exchange, return or raise. *)
Definition invoke `{Outside W} {O : Type} (c : call) : M (state W O) (reply c) :=
  fun st =>
    let (r, w') := respond c (world st) in
    let st' := State (self st) w' (log st ++ [Called c r]) in
    match r with
    | inl e => (Raised e, st')
    | inr v => (Returned v, st')
    end.

(** Read and assign attributes of [self]. *)
Definition getattr {W O A} (f : O -> A) : M (state W O) A :=
  gets (fun st => f (self st)).

Definition setattr {W O} (f : O -> O) : M (state W O) unit :=
  modify (fun st => State (f (self st)) (world st) (log st)).

(** Run a method of an attribute object [get self] and store the object
    back: the attribute is a reference to a mutable object. *)
Definition on_attr {W O P A} (get : O -> P) (set : P -> O -> O)
    (m : M (state W P) A) : M (state W O) A :=
  fun st =>
    let (r, st') := m (State (get (self st)) (world st) (log st)) in
    (r, State (set (self st') (self st)) (world st') (log st')).

(** The calls that retrieval may make: none of the generator, and none of
    the hybrid path unless the capability is present. *)
Definition retrieval_call (HAS_HYBRID : bool) (c : call) : bool :=
  negb (is_generator_call c) && (HAS_HYBRID || negb (is_hybrid_call c)).

(** The logged call raised. *)
Definition raised (e : entry) : bool :=
  match e with
  | Called _ (inl _) => true
  | Called _ (inr _) => false
  end.

(** What a retrieval that made the calls [new] returns: nothing, or the
    documents of a search, which is the call logged last before the print
    of the timing line, which returned. *)
Definition answered (docs : list Document) (new : list entry) : Prop :=
  docs = [] \/ exists before e query top_k alpha fetch_k,
      new = before ++ [e; Called (PrintRetrieval query top_k alpha fetch_k)
                            (inr tt)]
      /\ returned_documents e = Some docs.

(** The exception that leaves a retrieval: the print of the error line
    raised it, as the call logged last. *)
Definition print_failed (e : exn) (new : list entry) : Prop :=
  exists before caught,
    new = before ++ [Called (PrintRetrievalError caught) (inl e)].

(** How a retrieval that made the calls [new] ends. *)
Definition ended (r : outcome (list Document)) (new : list entry) : Prop :=
  match r with
  | Returned docs => answered docs new
  | Raised e => print_failed e new
  | OutOfFuel => False
  end.

End Ext.

(** ** [HybridRetriever] ([retrieval/retriever.py]) *)

Module HybridRetriever.

Import Py Ext.
Local Open Scope py_scope.

(** The attributes of an instance; [None] is Python's [None]. *)
Record t := mk {
  namespace : string;
  pc : option Pinecone;
  index : option Index;
  embeddings : option OpenAIEmbeddings;
  retriever : option PineconeHybridSearchRetriever;
  vectorstore : option LC_Pinecone
}.

Definition set_namespace (v : string) (o : t) : t :=
  mk v (pc o) (index o) (embeddings o) (retriever o) (vectorstore o).
Definition set_pc (v : option Pinecone) (o : t) : t :=
  mk (namespace o) v (index o) (embeddings o) (retriever o) (vectorstore o).
Definition set_index (v : option Index) (o : t) : t :=
  mk (namespace o) (pc o) v (embeddings o) (retriever o) (vectorstore o).
Definition set_embeddings (v : option OpenAIEmbeddings) (o : t) : t :=
  mk (namespace o) (pc o) (index o) v (retriever o) (vectorstore o).
Definition set_retriever (v : option PineconeHybridSearchRetriever) (o : t) : t :=
  mk (namespace o) (pc o) (index o) (embeddings o) v (vectorstore o).
Definition set_vectorstore (v : option LC_Pinecone) (o : t) : t :=
  mk (namespace o) (pc o) (index o) (embeddings o) (retriever o) v.

Definition set_top_k (v : Z) (r : PineconeHybridSearchRetriever) :=
  mkHybrid (hs_embeddings r) (hs_index r) v (hs_alpha r) (hs_namespace r).
Definition set_alpha (v : float) (r : PineconeHybridSearchRetriever) :=
  mkHybrid (hs_embeddings r) (hs_index r) (hs_top_k r) v (hs_namespace r).

(** What calling a method on [None] raises. *)
Definition AttributeError : exn :=
  Exception "AttributeError" "'NoneType' object has no attribute".

Section Methods.

Context {W : Type} `{!Outside W}.

(** The module-level flag, resolved once when the module is imported. *)
Variable HAS_HYBRID : bool.
Variable config : Config.t.

Abbreviation St := (state W t).

Definition _initialize_retriever : M St unit :=
  invoke (NewPinecone (Config.PINECONE_API_KEY config)) ;;
  let pc := mkPinecone (Config.PINECONE_API_KEY config) in
  setattr (set_pc (Some pc)) ;;
  invoke (GetIndex pc (Config.PINECONE_INDEX_NAME config)) ;;
  let index := mkIndex pc (Config.PINECONE_INDEX_NAME config) in
  setattr (set_index (Some index)) ;;
  invoke (NewOpenAIEmbeddings (Config.OPENAI_API_KEY config)
            (Config.OPENAI_EMBEDDING_MODEL config)) ;;
  let embeddings := mkEmbeddings (Config.OPENAI_API_KEY config)
                      (Config.OPENAI_EMBEDDING_MODEL config) in
  setattr (set_embeddings (Some embeddings)) ;;
  ns <- getattr namespace ;;
  if HAS_HYBRID then
    let r := mkHybrid embeddings index 5 0.5%float ns in
    invoke (NewHybridRetriever r) ;;
    setattr (set_retriever (Some r)) ;;
    setattr (set_vectorstore None)
  else
    let vs := mkDense (Config.PINECONE_INDEX_NAME config) embeddings ns in
    invoke (FromExistingIndex vs) ;;
    setattr (set_vectorstore (Some vs)) ;;
    setattr (set_retriever None).

Definition __init__ (namespace : string) : M St unit :=
  setattr (set_namespace namespace) ;;
  _initialize_retriever.

(** The hybrid branch: both assignments sit in one [try] whose handler is
    [pass]; the search then runs on the retriever as it stands. *)
Definition hybrid_search (r0 : PineconeHybridSearchRetriever)
    (query : string) (top_k : Z) (alpha : float) : M St (list Document) :=
  try_except
    (invoke (SetAttr r0 "top_k" (VInt top_k)) ;;
     let r1 := set_top_k top_k r0 in
     setattr (set_retriever (Some r1)) ;;
     invoke (SetAttr r1 "alpha" (VFloat alpha)) ;;
     setattr (set_retriever (Some (set_alpha alpha r1))))
    (fun _ => ret tt) ;;
  r <- getattr retriever ;;
  match r with
  | Some r => invoke (GetRelevantDocuments r query)
  | None => raise AttributeError
  end.

(** The dense branch: MMR first, plain similarity search if it raises. *)
Definition dense_search (vs : LC_Pinecone)
    (query : string) (top_k fetch_k : Z) : M St (list Document) :=
  try_except
    (invoke (MaxMarginalRelevanceSearch vs query top_k fetch_k))
    (fun _ => invoke (SimilaritySearch vs query top_k)).

(** The end of the [try] of [retrieve] after a search: the [print] of the
    timing line, then [return documents]. *)
Definition report (query : string) (top_k : Z) (alpha : float) (fetch_k : Z)
    (documents : list Document) : M St (list Document) :=
  invoke (PrintRetrieval (Str.slice_to 40 query) top_k alpha fetch_k) ;;
  ret documents.

(** The handler of [retrieve]: the [print] of the error line, then
    [return []]. *)
Definition recover (e : exn) : M St (list Document) :=
  invoke (PrintRetrievalError e) ;;
  ret [].

(** [retrieve].  [fuel] bounds the depth of the recursive call of the last
    branch, which returns what the call returns, without a print of its
    own. *)
Fixpoint retrieve (fuel : nat) (query : string) (top_k : Z) (alpha : float)
    (fetch_k : Z) : M St (list Document) :=
  match fuel with
  | O => out_of_fuel
  | S fuel' =>
      try_except
        (r <- getattr retriever ;;
         vs <- getattr vectorstore ;;
         match (if HAS_HYBRID then r else None), vs with
         | Some r, _ =>
             documents <- hybrid_search r query top_k alpha ;;
             report query top_k alpha fetch_k documents
         | None, Some vs =>
             documents <- dense_search vs query top_k fetch_k ;;
             report query top_k alpha fetch_k documents
         | None, None =>
             _initialize_retriever ;;
             retrieve fuel' query top_k alpha fetch_k
         end)
        recover
  end.

(** [retrieve_with_metadata]: [getattr(doc, 'score', None)] is [None], a
    [Document] has no [score]. *)
Definition retrieve_with_metadata (fuel : nat) (query : string) (top_k : Z)
    (alpha : float) : M St (list pyval) :=
  documents <- retrieve fuel query top_k alpha 20 ;;
  ret (map (fun doc =>
              VDict [("content", VStr (page_content doc));
                     ("metadata", VDict (map (fun kv => (fst kv, VStr (snd kv)))
                                            (metadata doc)));
                     ("score", VNone)])
           documents).

Definition change_namespace (namespace : string) : M St unit :=
  setattr (set_namespace namespace) ;;
  _initialize_retriever.

End Methods.

(** The attributes before [__init__] has assigned any. *)
Definition blank : t := mk "" None None None None None.

(** A retriever is settled when [retrieve] finds a strategy to run. *)
Definition settled (HAS_HYBRID : bool) (o : t) : Prop :=
  (HAS_HYBRID = true /\ is_Some (retriever o)) \/ is_Some (vectorstore o).

(** The strategies that are set were built for the namespace [ns]. *)
Definition bound (ns : string) (o : t) : Prop :=
  (forall r, retriever o = Some r -> hs_namespace r = ns)
  /\ (forall vs, vectorstore o = Some vs -> vs_namespace vs = ns).

(** Exactly one strategy is set, the one that the flag selects. *)
Definition exactly_one (HAS_HYBRID : bool) (o : t) : Prop :=
  if HAS_HYBRID
  then is_Some (retriever o) /\ vectorstore o = None
  else retriever o = None /\ is_Some (vectorstore o).

End HybridRetriever.

(** ** [RAGGenerator] ([retrieval/generator.py]) *)

Module RAGGenerator.

Import Py Ext.
Local Open Scope py_scope.

Record t := mk {
  llm : ChatOpenAI;
  prompt_template : ChatPromptTemplate
}.

Definition _prepare_context := Composer._prepare_context.

(** [result["status"] == "success"] on a value of the payload. *)
Definition is_success (v : pyval) : bool :=
  match v with
  | VStr s => String.eqb s "success"
  | _ => false
  end.

Definition KeyError (key : string) : exn := Exception "KeyError" key.

(** The preview of a document in [generate_with_sources]. *)
Definition source_info (doc : Document) : pyval :=
  VDict [("content",
          VStr (if 200 <? Str.len (page_content doc)
                then Str.slice_to 200 (page_content doc) +:+ "..."
                else page_content doc));
         ("metadata",
          VDict (map (fun kv => (fst kv, VStr (snd kv))) (metadata doc)))].

Section Methods.

Context {W : Type} `{!Outside W} {O : Type}.

Abbreviation St := (state W O).

(** [generate_response].  The generator only reads its attributes, so it is
    passed as a value. *)
Definition generate_response (self : t) (question : string)
    (context_documents : list Document) (custom_prompt : option string)
    : M St (gmap string pyval) :=
  try_except
    (let context := _prepare_context context_documents in
     prompt <-
       (if truthy custom_prompt then
          let text := default "" custom_prompt in
          invoke (FromTemplate text) ;;
          ret (mkTemplate text)
        else ret (prompt_template self)) ;;
     content <- invoke (ChainInvoke prompt (llm self) context question) ;;
     invoke PrintGeneration ;;
     ret (<["status" := VStr "success"]>
          (<["answer" := VStr content]>
          (<["context_used" := VInt (Z.of_nat (length context_documents))]>
          (<["question" := VStr question]> ∅)))))
    (fun e =>
       ret (<["status" := VStr "error"]>
            (<["message" := VStr (exn_msg e)]>
            (<["answer" := VNone]>
            (<["context_used" := VInt 0]>
            (<["question" := VStr question]> ∅)))))).

Definition generate_with_sources (self : t) (question : string)
    (context_documents : list Document) (custom_prompt : option string)
    : M St (gmap string pyval) :=
  try_except
    (result <- generate_response self question context_documents custom_prompt ;;
     match result !! "status" with
     | None => raise (KeyError "status")
     | Some status =>
         if is_success status then
           ret (<["sources" := VList (map source_info context_documents)]> result)
         else ret result
     end)
    (fun e =>
       ret (<["status" := VStr "error"]>
            (<["message" := VStr (exn_msg e)]>
            (<["answer" := VNone]>
            (<["sources" := VList []]> ∅))))).

(** What [generate_response] did, read from its payload and the log: the
    model answered and the print that follows returned, or the call logged
    last raised. *)
Definition generated (g : t) (question : string) (docs : list Document)
    (result : gmap string pyval) (st' : state W O) : Prop :=
  (exists before prompt content,
      log st' = before
                ++ [Called (ChainInvoke prompt (llm g) (_prepare_context docs) question)
                      (inr content);
                    Called PrintGeneration (inr tt)]
      /\ result !! "status" = Some (VStr "success")
      /\ result !! "answer" = Some (VStr content)
      /\ result !! "context_used" = Some (VInt (Z.of_nat (length docs))))
  \/ (exists before c e,
        log st' = before ++ [Called c (inl e)]
        /\ result !! "status" = Some (VStr "error")
        /\ result !! "message" = Some (VStr (exn_msg e))
        /\ result !! "answer" = Some VNone
        /\ result !! "context_used" = Some (VInt 0)).

End Methods.

(** [__init__]: the attributes of a new generator, for the text of the
    default template that [_setup_prompt_template] installs. *)
#[local] Set Warnings "-inexact-float".
Definition new (config : Config.t) (default_template : string) : t :=
  mk (mkChatOpenAI (Config.OPENAI_API_KEY config) (Config.OPENAI_MODEL config)
        0.3%float 512 20 2)
     (mkTemplate default_template).

End RAGGenerator.

(** ** [RAGService] ([retrieval/rag_service.py]) *)

Module RAGService.

Import Py Ext.
Local Open Scope py_scope.

Record t := mk {
  retriever : HybridRetriever.t;
  generator : RAGGenerator.t;
  namespace : string
}.

Definition set_retriever (v : HybridRetriever.t) (o : t) : t :=
  mk v (generator o) (namespace o).
Definition set_namespace (v : string) (o : t) : t :=
  mk (retriever o) (generator o) v.

(** The payload returned when nothing was retrieved. *)
Definition no_documents : gmap string pyval :=
  <["status" := VStr "warning"]>
  (<["message" := VStr "No relevant documents found"]>
  (<["answer" := VStr "I couldn't find any relevant information to answer your question."]>
  (<["context_used" := VInt 0]>
  (<["sources" := VList []]> ∅)))).

Section Methods.

Context {W : Type} `{!Outside W}.
Variable HAS_HYBRID : bool.
Variable config : Config.t.

Abbreviation St := (state W t).

(** A method of [self.retriever]. *)
Definition with_retriever {A} (m : M (state W HybridRetriever.t) A) : M St A :=
  on_attr retriever set_retriever m.

Definition query (fuel : nat) (question : string) (top_k : Z) (alpha : float)
    (include_sources : bool) (custom_prompt : option string)
    : M St (gmap string pyval) :=
  try_except
    (retrieved_docs <-
       with_retriever
         (HybridRetriever.retrieve HAS_HYBRID config fuel question top_k alpha 20) ;;
     match retrieved_docs with
     | [] => ret no_documents
     | _ =>
         g <- getattr generator ;;
         result <-
           (if include_sources
            then RAGGenerator.generate_with_sources g question retrieved_docs custom_prompt
            else RAGGenerator.generate_response g question retrieved_docs custom_prompt) ;;
         ns <- getattr namespace ;;
         ret (<["namespace" := VStr ns]>
              (<["search_alpha" := VFloat alpha]>
              (<["retrieved_docs_count" := VInt (Z.of_nat (length retrieved_docs))]>
               result)))
     end)
    (fun e =>
       ret (<["status" := VStr "error"]>
            (<["message" := VStr (exn_msg e)]>
            (<["answer" := VNone]>
            (<["context_used" := VInt 0]>
            (<["retrieved_docs_count" := VInt 0]> ∅)))))).

Definition retrieve_only (fuel : nat) (query : string) (top_k : Z) (alpha : float)
    : M St (gmap string pyval) :=
  try_except
    (documents <-
       with_retriever
         (HybridRetriever.retrieve_with_metadata HAS_HYBRID config fuel query top_k alpha) ;;
     ns <- getattr namespace ;;
     ret (<["status" := VStr "success"]>
          (<["documents" := VList documents]>
          (<["count" := VInt (Z.of_nat (length documents))]>
          (<["query" := VStr query]>
          (<["search_alpha" := VFloat alpha]>
          (<["namespace" := VStr ns]> ∅)))))))
    (fun e =>
       ret (<["status" := VStr "error"]>
            (<["message" := VStr (exn_msg e)]>
            (<["documents" := VList []]>
            (<["count" := VInt 0]> ∅))))).

Definition generate_only (question context_text : string)
    (custom_prompt : option string) : M St (gmap string pyval) :=
  try_except
    (let context_doc := mkDocument context_text [] in
     g <- getattr generator ;;
     result <- RAGGenerator.generate_response g question [context_doc] custom_prompt ;;
     ret (<["context_provided" := VBool true]> result))
    (fun e =>
       ret (<["status" := VStr "error"]>
            (<["message" := VStr (exn_msg e)]>
            (<["answer" := VNone]>
            (<["context_provided" := VBool true]> ∅))))).

Definition change_namespace (namespace : string) : M St unit :=
  setattr (set_namespace namespace) ;;
  with_retriever (HybridRetriever.change_namespace HAS_HYBRID config namespace).

End Methods.

(** Service and retriever agree: the retriever carries the namespace of the
    service, and the strategies it holds were built for it.  This is so
    after [__init__], and after a [change_namespace] that returned. *)
Definition aligned (o : t) : Prop :=
  HybridRetriever.namespace (retriever o) = namespace o
  /\ HybridRetriever.bound (namespace o) (retriever o).

End RAGService.

(** ** [VectorStore] ([ingestion/vector_store.py]) *)

Module VectorStore.

Import Py Ext.
Local Open Scope py_scope.

Record t := mk {
  embeddings : option OpenAIEmbeddings;
  pc : option Pinecone;
  index : option Index
}.

Definition set_embeddings (v : option OpenAIEmbeddings) (o : t) : t :=
  mk v (pc o) (index o).
Definition set_pc (v : option Pinecone) (o : t) : t :=
  mk (embeddings o) v (index o).
Definition set_index (v : option Index) (o : t) : t :=
  mk (embeddings o) (pc o) v.

Definition not_configured : exn :=
  ValueError "Pinecone cloud/region not configured. Set PINECONE_CLOUD and PINECONE_REGION in .env or provide legacy PINECONE_ENVIRONMENT that can be parsed.".

Section Methods.

Context {W : Type} `{!Outside W}.
Variable config : Config.t.

Abbreviation St := (state W t).

Definition _initialize_pinecone : M St unit :=
  invoke (NewPinecone (Config.PINECONE_API_KEY config)) ;;
  let pc := mkPinecone (Config.PINECONE_API_KEY config) in
  setattr (set_pc (Some pc)) ;;
  let dim :=
    if Str.contains "3-small" (Config.OPENAI_EMBEDDING_MODEL config)
    then 1536 else 3072 in
  names <- invoke (ListIndexes pc) ;;
  let existing : gset string := list_to_set names in
  (if decide (Config.PINECONE_INDEX_NAME config ∈ existing) then ret tt
   else
     let cloud := Config.PINECONE_CLOUD config in
     let region := Config.PINECONE_REGION config in
     if negb (truthy cloud) || negb (truthy region) then raise not_configured
     else
       invoke (CreateIndex pc (Config.PINECONE_INDEX_NAME config) dim "cosine"
                 (default "" cloud) (default "" region))) ;;
  invoke (GetIndex pc (Config.PINECONE_INDEX_NAME config)) ;;
  setattr (set_index (Some (mkIndex pc (Config.PINECONE_INDEX_NAME config)))).

Definition __init__ : M St unit :=
  invoke (NewOpenAIEmbeddings (Config.OPENAI_API_KEY config)
            (Config.OPENAI_EMBEDDING_MODEL config)) ;;
  setattr (set_embeddings
             (Some (mkEmbeddings (Config.OPENAI_API_KEY config)
                      (Config.OPENAI_EMBEDDING_MODEL config)))) ;;
  _initialize_pinecone.

(** The configured index is listed in a world when every listing that
    returns has it. *)
Definition listed (w : W) : Prop :=
  forall names w',
    respond (ListIndexes (mkPinecone (Config.PINECONE_API_KEY config))) w
    = (inr names, w') ->
    Config.PINECONE_INDEX_NAME config ∈ names.

(** What is assumed of the index service when initialisation is run again:
    an index that is listed stays listed, and is listed once it has been
    created or seen in a listing. *)
Definition service_keeps_indexes : Prop :=
  (forall w c r w', listed w -> respond c w = (r, w') -> listed w')
  /\ (forall w dimension metric cloud region w',
        respond (CreateIndex (mkPinecone (Config.PINECONE_API_KEY config))
                   (Config.PINECONE_INDEX_NAME config) dimension metric cloud region) w
        = (inr tt, w') ->
        listed w')
  /\ (forall w names w',
        respond (ListIndexes (mkPinecone (Config.PINECONE_API_KEY config))) w
        = (inr names, w') ->
        Config.PINECONE_INDEX_NAME config ∈ names -> listed w').

End Methods.

Definition blank : t := mk None None None.

End VectorStore.

(** ** [DocumentProcessor] ([ingestion/document_processor.py]) *)

(** The chunks are cut by the text splitter of the library; the class only
    configures it and hands it the text. *)
Module DocumentProcessor.

Import Py Ext.
Local Open Scope py_scope.

Record t := mk {
  chunk_size : Z;
  chunk_overlap : Z;
  text_splitter : option RecursiveCharacterTextSplitter
}.

Definition blank : t := mk 0 0 None.

Section Methods.

Context {W : Type} `{!Outside W}.

Abbreviation St := (state W t).

Definition __init__ (chunk_size chunk_overlap : Z) : M St unit :=
  let splitter :=
    mkSplitter chunk_size chunk_overlap
      [Str.nl +:+ Str.nl; Str.nl; " "; ""] in
  setattr (fun o => mk chunk_size (DocumentProcessor.chunk_overlap o) (text_splitter o)) ;;
  setattr (fun o => mk (DocumentProcessor.chunk_size o) chunk_overlap (text_splitter o)) ;;
  invoke (NewTextSplitter splitter) ;;
  setattr (fun o => mk (DocumentProcessor.chunk_size o)
                      (DocumentProcessor.chunk_overlap o) (Some splitter)).

Definition process_text (text : string)
    (metadata : option (list (string * string))) : M St (list Document) :=
  let metadata := default [] metadata in
  let doc := mkDocument text metadata in
  splitter <- getattr text_splitter ;;
  match splitter with
  | Some splitter => invoke (SplitDocuments splitter [doc])
  | None => raise (Exception "AttributeError" "'NoneType' object has no attribute")
  end.

End Methods.

End DocumentProcessor.

(** ** Sample inputs *)

Module Sample.

(** A document of 1200 letters: as long as a document may be without being
    cut by the per-document cap. *)
Definition long_doc : Document := mkDocument (Str.replicate 1200 "a"%char) [].

Definition four_docs : list Document := [long_doc; long_doc; long_doc; long_doc].

(** A small world.  Its flags say which services are down, the last one
    whether the standard output refuses what is printed; an index is listed
    once it has been created; every search returns the first [k] stored
    documents. *)
Record world := mkWorld {
  pinecone_down : bool;
  hybrid_down : bool;
  mmr_down : bool;
  similarity_down : bool;
  llm_down : bool;
  indexes : list string;
  stored : list Document;
  stdout_down : bool
}.

Definition unavailable : Py.exn := Py.Exception "ConnectionError" "service unavailable".

Definition unprintable : Py.exn :=
  Py.Exception "UnicodeEncodeError" "'ascii' codec can't encode character".

Definition answer_or_fail {A} (down : bool) (a : A) : Py.exn + A :=
  if down then inl unavailable else inr a.

#[global] Instance sample_outside : Ext.Outside world := fun c w =>
  match c return (Py.exn + Ext.reply c) * world with
  | Ext.NewPinecone _ => (answer_or_fail (pinecone_down w) tt, w)
  | Ext.GetIndex _ _ => (inr tt, w)
  | Ext.ListIndexes _ => (inr (indexes w), w)
  | Ext.CreateIndex _ name _ _ _ _ =>
      (inr tt,
       mkWorld (pinecone_down w) (hybrid_down w) (mmr_down w) (similarity_down w)
         (llm_down w) (name :: indexes w) (stored w) (stdout_down w))
  | Ext.NewOpenAIEmbeddings _ _ => (inr tt, w)
  | Ext.NewHybridRetriever _ => (inr tt, w)
  | Ext.FromExistingIndex _ => (inr tt, w)
  | Ext.SetAttr _ _ _ => (inr tt, w)
  | Ext.GetRelevantDocuments r _ =>
      (answer_or_fail (hybrid_down w) (firstn (Z.to_nat (Ext.hs_top_k r)) (stored w)), w)
  | Ext.MaxMarginalRelevanceSearch _ _ k _ =>
      (answer_or_fail (mmr_down w) (firstn (Z.to_nat k) (stored w)), w)
  | Ext.SimilaritySearch _ _ k =>
      (answer_or_fail (similarity_down w) (firstn (Z.to_nat k) (stored w)), w)
  | Ext.FromTemplate _ => (inr tt, w)
  | Ext.ChainInvoke _ _ _ _ => (answer_or_fail (llm_down w) "An explanation.", w)
  | Ext.NewTextSplitter _ => (inr tt, w)
  | Ext.SplitDocuments _ documents => (inr documents, w)
  | Ext.PrintRetrieval _ _ _ _
  | Ext.PrintRetrievalError _
  | Ext.PrintGeneration =>
      ((if stdout_down w then inl unprintable else inr tt), w)
  end.

Definition config : Config.t :=
  Config.mk (Some "sk-test") "gpt-4o-mini" "text-embedding-3-small"
    (Some "pc-test") (Some "aws") (Some "us-east-1") "rag-index".

(** An environment that yields it, the location given the legacy way. *)
Definition env : gmap string string :=
  <["OPENAI_API_KEY" := "sk-test"]>
  (<["PINECONE_API_KEY" := "pc-test"]>
  (<["PINECONE_ENVIRONMENT" := "us-east-1-aws"]> ∅)).

(** The same configuration with no cloud and no region. *)
Definition config_no_location : Config.t :=
  Config.mk (Some "sk-test") "gpt-4o-mini" "text-embedding-3-small"
    (Some "pc-test") None None "rag-index".

Definition doc1 : Document := mkDocument "Mitochondria produce ATP." [("page", "3")].
Definition doc2 : Document := mkDocument "The cell has a nucleus." [].

(** Every service up, two documents stored, no index yet. *)
Definition up : world := mkWorld false false false false false [] [doc1; doc2] false.

(** MMR down, similarity search up. *)
Definition mmr_broken : world :=
  mkWorld false false true false false [] [doc1; doc2] false.

(** Both dense searches down. *)
Definition dense_broken : world :=
  mkWorld false false true true false [] [doc1; doc2] false.

(** The language model down. *)
Definition llm_broken : world :=
  mkWorld false false false false true [] [doc1; doc2] false.

(** Nothing stored. *)
Definition empty_namespace : world :=
  mkWorld false false false false false ["rag-index"] [] false.

(** Every service up, the standard output down. *)
Definition mute : world := mkWorld false false false false false [] [doc1; doc2] true.

(** Both dense searches and the standard output down. *)
Definition dense_broken_mute : world :=
  mkWorld false false true true false [] [doc1; doc2] true.

Definition embeddings : Ext.OpenAIEmbeddings :=
  Ext.mkEmbeddings (Some "sk-test") "text-embedding-3-small".

Definition dense : Ext.LC_Pinecone := Ext.mkDense "rag-index" embeddings "default".

(** A retriever as [__init__] leaves it when [HAS_HYBRID] is false. *)
Definition dense_retriever : HybridRetriever.t :=
  HybridRetriever.mk "default" (Some (Ext.mkPinecone (Some "pc-test")))
    (Some (Ext.mkIndex (Ext.mkPinecone (Some "pc-test")) "rag-index"))
    (Some embeddings) None (Some dense).

Definition generator : RAGGenerator.t :=
  RAGGenerator.new config "Context: {context} Question: {question}".

Definition service : RAGService.t :=
  RAGService.mk dense_retriever generator "default".

End Sample.

(** ** Vocabulary for the composer *)

Module Rendering.

(** The blocks of the documents, numbered from [i], before any trimming. *)
Fixpoint blocks (i : nat) (docs : list Document) : list string :=
  match docs with
  | [] => []
  | doc :: rest => Composer.block i doc :: blocks (S i) rest
  end.

(** The two keys that name the file a chunk comes from. *)
Definition file_keys : list string := ["source"; "file_name"].

(** A document without the entries of its metadata under these keys. *)
Definition without_file_keys (doc : Document) : Document :=
  mkDocument (page_content doc)
    (List.filter (fun kv => bool_decide (fst kv ∉ file_keys)) (metadata doc)).

End Rendering.

(** ** The ingestion side: the calls it adds *)

(** Ingestion writes to the index, administers it and reads files.  These
    operations stand beside those of [Ext], which reach this layer as
    [Lib]. *)
Module Sys.

Import Py.
Local Open Scope py_scope.

(** A page of an open PDF file. *)
Record PdfPage := mkPage { page_file : string; page_number : nat }.

Inductive call :=
| Lib (c : Ext.call)
| FromDocuments (documents : list Document)
    (embedding : option Ext.OpenAIEmbeddings) (index_name namespace : string)
| Delete (index : Ext.Index) (namespace : string)
| DescribeIndexStats (index : Ext.Index)
| PathExists (path : string)
| ReadText (path : string)
| ImportPypdf
| PdfReader (path : string)
| ExtractText (page : PdfPage)
| ImportDocx
| DocxDocument (path : string)
| Walk (top : string)
| NamedTemporaryFile (suffix : string)
| UploadRead (filename : string)
| TempWrite (path content : string)
| TempClose (path : string)
| Unlink (path : string).

(** What a call returns when it does not raise: [ReadText] the text of the
    file, [PdfReader] the pages of the reader, [ExtractText] a text or
    [None], [DocxDocument] the texts of the paragraphs, [Walk] the triples
    [(root, dirs, files)] that [os.walk] yields, [NamedTemporaryFile] the
    [name] of the file it opens, [UploadRead] the content of the upload. *)
Definition reply (c : call) : Type :=
  match c with
  | Lib c => Ext.reply c
  | DescribeIndexStats _ => pyval
  | PathExists _ => bool
  | ReadText _ => string
  | PdfReader _ => list PdfPage
  | ExtractText _ => option string
  | DocxDocument _ => list string
  | Walk _ => list (string * list string * list string)
  | NamedTemporaryFile _ => string
  | UploadRead _ => string
  | _ => unit
  end.

Inductive entry := Performed (c : call) (r : exn + reply c).

Definition entry_call (e : entry) : call :=
  match e with Performed c _ => c end.

Definition of_lib (e : Ext.entry) : entry :=
  match e with Ext.Called c r => Performed (Lib c) r end.

(** The calls that write vectors to the index. *)
Definition is_write (c : call) : bool :=
  match c with
  | FromDocuments _ _ _ _ => true
  | _ => false
  end.

(** The calls that read the content of a file. *)
Definition is_read (c : call) : bool :=
  match c with
  | ReadText _ | PdfReader _ | ExtractText _ | DocxDocument _ => true
  | _ => false
  end.

(** The logged call returned. *)
Definition succeeded (e : entry) : bool :=
  match e with
  | Performed _ (inr _) => true
  | Performed _ (inl _) => false
  end.

Class Outside (W : Type) := respond : forall c : call, W -> (exn + reply c) * W.

(** The library as retrieval sees it. *)
#[global] Instance library {W : Type} `{Outside W} : Ext.Outside W :=
  fun c w => respond (Lib c) w.

Record state (W O : Type) := State {
  self : O;
  world : W;
  log : list entry
}.
Global Arguments State {W O} self world log.
Global Arguments self {W O} s.
Global Arguments world {W O} s.
Global Arguments log {W O} s.

Definition invoke `{Outside W} {O : Type} (c : call) : M (state W O) (reply c) :=
  fun st =>
    let (r, w') := respond c (world st) in
    let st' := State (self st) w' (log st ++ [Performed c r]) in
    match r with
    | inl e => (Raised e, st')
    | inr v => (Returned v, st')
    end.

Definition getattr {W O A} (f : O -> A) : M (state W O) A :=
  gets (fun st => f (self st)).

Definition setattr {W O} (f : O -> O) : M (state W O) unit :=
  modify (fun st => State (f (self st)) (world st) (log st)).

Definition on_attr {W O P A} (get : O -> P) (set : P -> O -> O)
    (m : M (state W P) A) : M (state W O) A :=
  fun st =>
    let (r, st') := m (State (get (self st)) (world st) (log st)) in
    (r, State (set (self st') (self st)) (world st') (log st')).

(** A method written over [Ext], run here: its calls are logged as [Lib]
    calls after those made so far. *)
Definition lift {W O A} (m : M (Ext.state W O) A) : M (state W O) A :=
  fun st =>
    let (r, st') := m (Ext.State (self st) (world st) []) in
    (r, State (Ext.self st') (Ext.world st')
          (log st ++ map of_lib (Ext.log st'))).

End Sys.

(** ** [VectorStore] after construction ([ingestion/vector_store.py]) *)

Module VectorStoreIO.

Import Py Sys.
Local Open Scope py_scope.

Section Methods.

Context {W : Type} `{!Outside W}.
Variable config : Config.t.

Abbreviation St := (state W VectorStore.t).

(** [add_documents]; the vector store that [from_documents] builds is
    returned and dropped by every caller. *)
Definition add_documents (documents : list Document) (namespace : string)
    : M St unit :=
  embeddings <- getattr VectorStore.embeddings ;;
  invoke (FromDocuments documents embeddings
            (Config.PINECONE_INDEX_NAME config) namespace).

Definition delete_namespace (namespace : string) : M St unit :=
  index <- getattr VectorStore.index ;;
  match index with
  | Some index => invoke (Delete index namespace)
  | None => raise HybridRetriever.AttributeError
  end.

Definition get_stats : M St pyval :=
  index <- getattr VectorStore.index ;;
  match index with
  | Some index => invoke (DescribeIndexStats index)
  | None => raise HybridRetriever.AttributeError
  end.

End Methods.

End VectorStoreIO.

(** ** [DocumentProcessor.process_file] ([ingestion/document_processor.py]) *)

Module DocumentFiles.

Import Py Sys.
Local Open Scope py_scope.

(** [c.lower()] for a character below 256: the letters A to Z and the
    capital letters of Latin-1, which lie 32 below their small forms. *)
Definition lower_char (c : ascii) : ascii :=
  let n := nat_of_ascii c in
  if ((65 <=? n)%nat && (n <=? 90)%nat)
     || ((192 <=? n)%nat && (n <=? 222)%nat && negb (n =? 215)%nat)
  then ascii_of_nat (n + 32) else c.

(** [s.lower()] *)
Fixpoint lower (s : string) : string :=
  match s with
  | EmptyString => EmptyString
  | String c s' => String (lower_char c) (lower s')
  end.

(** [d[key] = value] on a dict held in insertion order: the value of a key
    that is present is replaced in place, a new key goes last. *)
Fixpoint dict_set (key value : string) (d : list (string * string))
    : list (string * string) :=
  match d with
  | [] => [(key, value)]
  | (k, v) :: rest =>
      if String.eqb k key then (k, value) :: rest
      else (k, v) :: dict_set key value rest
  end.

(** [d.get(key)] *)
Fixpoint dict_get (key : string) (d : list (string * string)) : option string :=
  match d with
  | [] => None
  | (k, v) :: rest => if String.eqb k key then Some v else dict_get key rest
  end.

Definition FileNotFoundError (msg : string) : exn :=
  Exception "FileNotFoundError" msg.

Definition ImportError (msg : string) : exn := Exception "ImportError" msg.

(** [isinstance(e, ImportError)], by the classes below [ImportError]. *)
Definition is_import_error (e : exn) : bool :=
  existsb (String.eqb (exn_class e))
    ["ImportError"; "ModuleNotFoundError"; "ZipImportError"].

(** [try: import ... except ImportError as e: raise ImportError(msg) from e] *)
Definition import_or {S : Type} (import : M S unit) (msg : string) : M S unit :=
  try_except import
    (fun e => if is_import_error e then raise (ImportError msg) else raise e).

Section Methods.

Context {W : Type} `{!Outside W}.

(** [os.path.splitext(p)[1]] and [os.path.basename], as the platform has
    them. *)
Variable splitext_ext : string -> string.
Variable basename : string -> string.

Abbreviation St := (state W DocumentProcessor.t).

(** The loop over [reader.pages]: a page whose extraction raises or gives
    nothing counts as the empty text. *)
Fixpoint extract_pages (pages : list PdfPage) (pages_text : list string)
    : M St (list string) :=
  match pages with
  | [] => ret pages_text
  | page :: rest =>
      pages_text <-
        try_except
          (text <- invoke (ExtractText page) ;;
           ret (pages_text ++ [if truthy text then default "" text else ""]))
          (fun _ => ret (pages_text ++ [""])) ;;
      extract_pages rest pages_text
  end.

Definition process_file (file_path : string)
    (metadata : option (list (string * string))) : M St (list Document) :=
  found <- invoke (PathExists file_path) ;;
  if negb found then
    raise (FileNotFoundError ("File not found: " +:+ file_path))
  else
    let ext := lower (splitext_ext file_path) in
    text <-
      (if String.eqb ext ".txt" || String.eqb ext ".md" then
         invoke (ReadText file_path)
       else if String.eqb ext ".pdf" then
         import_or (invoke ImportPypdf)
           "pypdf is required to process PDF files. Please install it." ;;
         pages <- invoke (PdfReader file_path) ;;
         pages_text <- extract_pages pages [] ;;
         ret (Str.join (Str.nl +:+ Str.nl) pages_text)
       else if String.eqb ext ".docx" then
         import_or (invoke ImportDocx)
           "python-docx is required to process DOCX files. Please install it." ;;
         texts <- invoke (DocxDocument file_path) ;;
         let paragraphs := List.filter (fun text => negb (String.eqb text "")) texts in
         ret (Str.join Str.nl paragraphs)
       else raise (ValueError ("Unsupported file extension: " +:+ ext))) ;;
    let metadata := default [] metadata in
    let metadata := dict_set "source" file_path metadata in
    let metadata := dict_set "file_name" (basename file_path) metadata in
    lift (DocumentProcessor.process_text text (Some metadata)).

End Methods.

End DocumentFiles.

(** ** [IngestionService] ([ingestion/ingestion_service.py]) *)

Module IngestionService.

Import Py Sys.
Local Open Scope py_scope.

Record t := mk {
  document_processor : DocumentProcessor.t;
  vector_store : VectorStore.t
}.

Definition set_document_processor (v : DocumentProcessor.t) (o : t) : t :=
  mk v (vector_store o).
Definition set_vector_store (v : VectorStore.t) (o : t) : t :=
  mk (document_processor o) v.

(** The payload of [ingest_directory]: its entries other than
    [file_results], and the payloads under [file_results]. *)
Record report := Report {
  fields : gmap string pyval;
  file_results : list (gmap string pyval)
}.

Definition KeyError (key : string) : exn :=
  Exception "KeyError" ("'" +:+ key +:+ "'").

Definition TypeError : exn :=
  Exception "TypeError" "unsupported operand type(s) for +=".

(** [value == text] for a value of a payload. *)
Definition is_text (text : string) (value : pyval) : bool :=
  match value with
  | VStr s => String.eqb s text
  | _ => false
  end.

(** [any(file.endswith(ext) for ext in file_extensions)] *)
Definition matches (file_extensions : list string) (file : string) : bool :=
  existsb (fun ext => Str.endswith file ext) file_extensions.

Section Methods.

Context {W : Type} `{!Outside W}.
Variable config : Config.t.

(** [os.path.splitext(p)[1]], [os.path.basename] and [os.path.join], as the
    platform has them. *)
Variable splitext_ext : string -> string.
Variable basename : string -> string.
Variable join : string -> string -> string.

Abbreviation St := (state W t).

Definition with_processor {A} (m : M (state W DocumentProcessor.t) A) : M St A :=
  on_attr document_processor set_document_processor m.

Definition with_store {A} (m : M (state W VectorStore.t) A) : M St A :=
  on_attr vector_store set_vector_store m.

Definition ingest_text (text : string)
    (metadata : option (list (string * string))) (namespace : string)
    : M St (gmap string pyval) :=
  try_except
    (documents <-
       with_processor (lift (DocumentProcessor.process_text text metadata)) ;;
     with_store (VectorStoreIO.add_documents config documents namespace) ;;
     ret (<["status" := VStr "success"]>
          (<["message" := VStr ("Successfully ingested "
                                +:+ Str.of_nat (length documents) +:+ " chunks")]>
          (<["chunks_processed" := VInt (Z.of_nat (length documents))]>
          (<["namespace" := VStr namespace]> ∅)))))
    (fun e =>
       ret (<["status" := VStr "error"]>
            (<["message" := VStr (exn_msg e)]>
            (<["chunks_processed" := VInt 0]>
            (<["namespace" := VStr namespace]> ∅))))).

Definition ingest_file (file_path : string)
    (metadata : option (list (string * string))) (namespace : string)
    : M St (gmap string pyval) :=
  try_except
    (documents <-
       with_processor
         (DocumentFiles.process_file splitext_ext basename file_path metadata) ;;
     with_store (VectorStoreIO.add_documents config documents namespace) ;;
     ret (<["status" := VStr "success"]>
          (<["message" := VStr ("Successfully ingested file: " +:+ file_path)]>
          (<["chunks_processed" := VInt (Z.of_nat (length documents))]>
          (<["file_path" := VStr file_path]>
          (<["namespace" := VStr namespace]> ∅))))))
    (fun e =>
       ret (<["status" := VStr "error"]>
            (<["message" := VStr (exn_msg e)]>
            (<["chunks_processed" := VInt 0]>
            (<["file_path" := VStr file_path]>
            (<["namespace" := VStr namespace]> ∅)))))).

(** The local variables [results] and [total_chunks] of
    [ingest_directory]. *)
Abbreviation locals := (list (gmap string pyval) * Z)%type.

(** The body of the inner loop for a file that matches: the locals after
    it, or the exception that leaves it with the locals as they stand.
    [ingest_file] stores an integer under [chunks_processed]; adding any
    other value is taken to raise. *)
Definition ingest_match (root file namespace : string) (vars : locals)
    : M St (option exn * locals) :=
  let (results, total_chunks) := vars in
  let file_path := join root file in
  result <- ingest_file file_path None namespace ;;
  let results := results ++ [result] in
  match result !! "status" with
  | None => ret (Some (KeyError "status"), (results, total_chunks))
  | Some status =>
      if is_text "success" status then
        match result !! "chunks_processed" with
        | None => ret (Some (KeyError "chunks_processed"), (results, total_chunks))
        | Some (VInt n) => ret (None, (results, total_chunks + n))
        | Some _ => ret (Some TypeError, (results, total_chunks))
        end
      else ret (None, (results, total_chunks))
  end.

(** [for file in files: ...] *)
Fixpoint ingest_files (file_extensions : list string) (root : string)
    (files : list string) (namespace : string) (vars : locals)
    : M St (option exn * locals) :=
  match files with
  | [] => ret (None, vars)
  | file :: rest =>
      if matches file_extensions file then
        r <- ingest_match root file namespace vars ;;
        match r with
        | (None, vars) => ingest_files file_extensions root rest namespace vars
        | stopped => ret stopped
        end
      else ingest_files file_extensions root rest namespace vars
  end.

(** [for root, dirs, files in os.walk(directory_path): ...], over the
    triples that the walk yields. *)
Fixpoint ingest_walk (file_extensions : list string)
    (triples : list (string * list string * list string)) (namespace : string)
    (vars : locals) : M St (option exn * locals) :=
  match triples with
  | [] => ret (None, vars)
  | (root, _, files) :: rest =>
      r <- ingest_files file_extensions root files namespace vars ;;
      match r with
      | (None, vars) => ingest_walk file_extensions rest namespace vars
      | stopped => ret stopped
      end
  end.

(** [ingest_directory]; the triples of the walk are taken when the loop
    starts. *)
Definition ingest_directory (directory_path : string)
    (file_extensions : list string) (namespace : string) : M St report :=
  let failed (e : exn) (results : list (gmap string pyval)) :=
    Report (<["status" := VStr "error"]>
            (<["message" := VStr (exn_msg e)]>
            (<["total_chunks" := VInt 0]>
            (<["namespace" := VStr namespace]> ∅))))
           results in
  try_except
    (triples <- invoke (Walk directory_path) ;;
     r <- ingest_walk file_extensions triples namespace ([], 0) ;;
     match r with
     | (None, (results, total_chunks)) =>
         ret (Report
                (<["status" := VStr "success"]>
                 (<["message" := VStr ("Processed "
                                       +:+ Str.of_nat (length results) +:+ " files")]>
                 (<["total_chunks" := VInt total_chunks]>
                 (<["namespace" := VStr namespace]> ∅))))
                results)
     | (Some e, (results, _)) => ret (failed e results)
     end)
    (fun e => ret (failed e [])).

Definition get_vector_store_stats : M St (gmap string pyval) :=
  try_except
    (stats <- with_store VectorStoreIO.get_stats ;;
     ret (<["status" := VStr "success"]> (<["stats" := stats]> ∅)))
    (fun e =>
       ret (<["status" := VStr "error"]>
            (<["message" := VStr (exn_msg e)]> ∅))).

Definition delete_namespace (namespace : string) : M St (gmap string pyval) :=
  try_except
    (with_store (VectorStoreIO.delete_namespace namespace) ;;
     ret (<["status" := VStr "success"]>
          (<["message" := VStr ("Successfully deleted namespace: " +:+ namespace)]>
           ∅)))
    (fun e =>
       ret (<["status" := VStr "error"]>
            (<["message" := VStr (exn_msg e)]> ∅))).

End Methods.

End IngestionService.

(** ** The endpoints of [main.py] *)

Module Main.

Import Py Ext.
Local Open Scope py_scope.

(** [getattr(config, name, None)] for the attributes that hold text. *)
Definition config_attr (config : Config.t) (name : string) : option string :=
  if String.eqb name "OPENAI_API_KEY" then Config.OPENAI_API_KEY config
  else if String.eqb name "OPENAI_MODEL" then Some (Config.OPENAI_MODEL config)
  else if String.eqb name "OPENAI_EMBEDDING_MODEL"
       then Some (Config.OPENAI_EMBEDDING_MODEL config)
  else if String.eqb name "PINECONE_API_KEY" then Config.PINECONE_API_KEY config
  else if String.eqb name "PINECONE_CLOUD" then Config.PINECONE_CLOUD config
  else if String.eqb name "PINECONE_REGION" then Config.PINECONE_REGION config
  else if String.eqb name "PINECONE_INDEX_NAME"
       then Some (Config.PINECONE_INDEX_NAME config)
  else None.

(** [sorted(set(names))] *)
Definition sorted_set (names : list string) : list string :=
  merge_sort String.le (remove_dups names).

(** The list [missing_vars] that [health_check] builds. *)
Definition missing_vars (config : Config.t) : list string :=
  let missing_vars := [] in
  let missing_vars :=
    if negb (truthy (config_attr config "OPENAI_API_KEY"))
    then missing_vars ++ ["OPENAI_API_KEY"] else missing_vars in
  let missing_vars :=
    if negb (truthy (config_attr config "PINECONE_API_KEY"))
    then missing_vars ++ ["PINECONE_API_KEY"] else missing_vars in
  let cloud_ok := truthy (config_attr config "PINECONE_CLOUD") in
  let region_ok := truthy (config_attr config "PINECONE_REGION") in
  if negb (cloud_ok && region_ok) then
    missing_vars
      ++ List.filter (fun v => negb (truthy (config_attr config v)))
           ["PINECONE_CLOUD"; "PINECONE_REGION"]
  else missing_vars.

(** [health_check]; nothing in its [try] raises. *)
Definition health_check (config : Config.t) : gmap string pyval :=
  match missing_vars config with
  | [] =>
      <["status" := VStr "healthy"]>
      (<["message" := VStr "All services are operational"]> ∅)
  | missing =>
      <["status" := VStr "unhealthy"]>
      (<["message" := VStr ("Missing environment variables: "
                            +:+ Str.join ", " (sorted_set missing))]> ∅)
  end.

(** An [HTTPException] that leaves an endpoint: the framework turns it into
    the response.  Other exceptions travel as [Raised]. *)
Record http_error := HTTPException { status_code : Z; detail : pyval }.

(** [str(KeyError(key))] *)
Definition KeyError (key : string) : exn :=
  Exception "KeyError" ("'" +:+ key +:+ "'").

(** [value == text] for a value of a payload. *)
Definition is_text (text : string) (value : pyval) : bool :=
  match value with
  | VStr s => String.eqb s text
  | _ => false
  end.

(** The tail of an endpoint: [return result] when [result["status"]] is one
    of [allowed], else [raise HTTPException(status_code=400,
    detail=result["message"])]. *)
Definition reply_or_400 {S : Type} (allowed : list string)
    (result : gmap string pyval) : M S (http_error + gmap string pyval) :=
  match result !! "status" with
  | None => raise (KeyError "status")
  | Some status =>
      if existsb (fun text => is_text text status) allowed then ret (inr result)
      else
        match result !! "message" with
        | None => raise (KeyError "message")
        | Some detail => ret (inl (HTTPException 400 detail))
        end
  end.

(** [except HTTPException: raise] followed by [except Exception as e: raise
    HTTPException(status_code=500, detail=str(e))]. *)
Definition guarded {S A : Type} (body : M S (http_error + A))
    : M S (http_error + A) :=
  try_except body (fun e => ret (inl (HTTPException 500 (VStr (exn_msg e))))).

(** [try: body finally: cleanup]: the cleanup runs however the body ends,
    and an exception of the cleanup replaces the outcome of the body. *)
Definition try_finally {S A : Type} (body : M S A) (cleanup : M S unit) : M S A :=
  fun st =>
    let (r, st1) := body st in
    match cleanup st1 with
    | (Returned _, st2) => (r, st2)
    | (Raised e, st2) => (Raised e, st2)
    | (OutOfFuel, st2) => (OutOfFuel, st2)
    end.

Section Endpoints.

Context {W : Type} `{!Outside W}.
Variable HAS_HYBRID : bool.
Variable config : Config.t.

(** The state of these endpoints is the module-level [rag_service]. *)
Abbreviation St := (state W RAGService.t).

(** [if namespace != rag_service.namespace: rag_service.change_namespace(namespace)] *)
Definition ensure_namespace (namespace : string) : M St unit :=
  current <- getattr RAGService.namespace ;;
  if negb (String.eqb namespace current)
  then RAGService.change_namespace HAS_HYBRID config namespace
  else ret tt.

(** [POST /query] *)
Definition query (fuel : nat) (question : string)
    : M St (http_error + gmap string pyval) :=
  guarded
    (let namespace := "default" in
     let top_k := 5 in
     let alpha := 0.5%float in
     let include_sources := false in
     let custom_prompt := None in
     ensure_namespace namespace ;;
     result <- RAGService.query HAS_HYBRID config fuel question top_k alpha
                 include_sources custom_prompt ;;
     reply_or_400 ["success"; "warning"] result).

(** [POST /retrieve] *)
Definition retrieve (fuel : nat) (query : string)
    : M St (http_error + gmap string pyval) :=
  guarded
    (let namespace := "default" in
     let top_k := 5 in
     let alpha := 0.5%float in
     ensure_namespace namespace ;;
     result <- RAGService.retrieve_only HAS_HYBRID config fuel query top_k alpha ;;
     reply_or_400 ["success"] result).

(** [POST /generate] *)
Definition generate (question context : string) (custom_prompt : option string)
    : M St (http_error + gmap string pyval) :=
  guarded
    (result <- RAGService.generate_only question context custom_prompt ;;
     reply_or_400 ["success"] result).

End Endpoints.

Section IngestionEndpoints.

Context {W : Type} `{!Sys.Outside W}.
Variable config : Config.t.

(** [os.path.splitext(p)[1]], [os.path.basename] and [os.path.join], as the
    platform has them, and [str(e)] for an [HTTPException], as the framework
    has it. *)
Variable splitext_ext : string -> string.
Variable basename : string -> string.
Variable join : string -> string -> string.
Variable http_str : http_error -> string.

(** The state of these endpoints is the module-level [ingestion_service]. *)
Abbreviation ISt := (Sys.state W IngestionService.t).

(** [except Exception as e: raise HTTPException(status_code=500,
    detail=str(e))] with no clause for [HTTPException] before it: an
    [HTTPException] raised in the body is an [Exception] and is caught too. *)
Definition caught {S A : Type} (body : M S (http_error + A))
    : M S (http_error + A) :=
  fun st =>
    match body st with
    | (Returned (inl e), st') =>
        (Returned (inl (HTTPException 500 (VStr (http_str e)))), st')
    | (Raised e, st') =>
        (Returned (inl (HTTPException 500 (VStr (exn_msg e)))), st')
    | r => r
    end.

(** [POST /ingest/text]; the [metadata] of the request is not read. *)
Definition ingest_text (text namespace : string)
    : M ISt (http_error + gmap string pyval) :=
  caught
    (let metadata := [("source", "api:text")] in
     let namespace := if truthy (Some namespace) then namespace else "default" in
     result <- IngestionService.ingest_text config text (Some metadata) namespace ;;
     reply_or_400 ["success"] result).

(** The tail of [/ingest/directory], on a report. *)
Definition report_or_400 {S : Type} (result : IngestionService.report)
    : M S (http_error + IngestionService.report) :=
  match IngestionService.fields result !! "status" with
  | None => raise (KeyError "status")
  | Some status =>
      if is_text "success" status then ret (inr result)
      else
        match IngestionService.fields result !! "message" with
        | None => raise (KeyError "message")
        | Some detail => ret (inl (HTTPException 400 detail))
        end
  end.

(** [file.filename.endswith(('.txt', '.md', '.pdf', '.docx'))] *)
Definition supported (filename : string) : bool :=
  existsb (Str.endswith filename) [".txt"; ".md"; ".pdf"; ".docx"].

(** [POST /ingest/file]; leaving the [with] block closes the temporary
    file, which [delete=False] keeps on disk. *)
Definition ingest_file (filename : string)
    : M ISt (http_error + gmap string pyval) :=
  guarded
    (if negb (supported filename) then
       ret (inl (HTTPException 400
                   (VStr "Only .txt, .md, .pdf and .docx files are supported")))
     else
       let parsed_metadata := [("title", basename filename)] in
       let namespace := "default" in
       temp_file_path <- Sys.invoke (Sys.NamedTemporaryFile (splitext_ext filename)) ;;
       try_finally
         (content <- Sys.invoke (Sys.UploadRead filename) ;;
          Sys.invoke (Sys.TempWrite temp_file_path content))
         (Sys.invoke (Sys.TempClose temp_file_path)) ;;
       try_finally
         (result <- IngestionService.ingest_file config splitext_ext basename
                      temp_file_path (Some parsed_metadata) namespace ;;
          reply_or_400 ["success"] result)
         (Sys.invoke (Sys.Unlink temp_file_path))).

(** [POST /ingest/directory] *)
Definition ingest_directory (directory_path file_extensions namespace : string)
    : M ISt (http_error + IngestionService.report) :=
  guarded
    (let extensions := map Str.strip (Str.split ","%char file_extensions) in
     found <- Sys.invoke (Sys.PathExists directory_path) ;;
     if negb found then
       ret (inl (HTTPException 400
                   (VStr ("Directory not found: " +:+ directory_path))))
     else
       result <- IngestionService.ingest_directory config splitext_ext basename join
                   directory_path extensions namespace ;;
       report_or_400 result).

(** [GET /stats] *)
Definition get_stats : M ISt (http_error + gmap string pyval) :=
  guarded
    (result <- IngestionService.get_vector_store_stats ;;
     reply_or_400 ["success"] result).

(** [DELETE /namespace/{namespace}] *)
Definition delete_namespace (namespace : string)
    : M ISt (http_error + gmap string pyval) :=
  guarded
    (result <- IngestionService.delete_namespace namespace ;;
     reply_or_400 ["success"] result).

End IngestionEndpoints.

End Main.

(** ** Vocabulary for the log *)

Module Observe.

Import Ext.

(** The namespace that a search call runs in. *)
Definition search_namespace (c : call) : option string :=
  match c with
  | GetRelevantDocuments r _ => Some (hs_namespace r)
  | MaxMarginalRelevanceSearch vs _ _ _
  | SimilaritySearch vs _ _ => Some (vs_namespace vs)
  | _ => None
  end.

(** The number that a payload holds under [chunks_processed]. *)
Definition chunks_processed (payload : gmap string Py.pyval) : Z :=
  match payload !! "chunks_processed" with
  | Some (Py.VInt n) => n
  | _ => 0
  end.

(** The paths of the files of a walk whose name ends with one of the
    extensions, in the order of the walk. *)
Definition matching (join : string -> string -> string)
    (file_extensions : list string)
    (triples : list (string * list string * list string)) : list string :=
  flat_map
    (fun triple =>
       match triple with
       | (root, _, files) =>
           map (join root)
             (List.filter (IngestionService.matches file_extensions) files)
       end)
    triples.

(** The text that the loop over the pages of a PDF keeps for a page, from
    what [extract_text] did: the text it returned, the empty text when it
    returned [None] or raised. *)
Definition page_text (r : Py.exn + option string) : string :=
  match r with
  | inr (Some text) => text
  | _ => ""
  end.

Section Each.

Context {W : Type} `{!Sys.Outside W}.
Variable config : Config.t.
Variable splitext_ext : string -> string.
Variable basename : string -> string.

(** [ingest_file] on each path in turn, with no metadata: the payloads in
    order, and the state after the last. *)
Fixpoint ingest_each (paths : list string) (namespace : string)
    (st : Sys.state W IngestionService.t)
    : list (gmap string Py.pyval) * Sys.state W IngestionService.t :=
  match paths with
  | [] => ([], st)
  | path :: rest =>
      match IngestionService.ingest_file config splitext_ext basename path None
              namespace st with
      | (Py.Returned result, st1) =>
          let (results, st') := ingest_each rest namespace st1 in
          (result :: results, st')
      | (_, st1) => ([], st1)
      end
  end.

End Each.

End Observe.

(** ** Further sample inputs *)

Module Cases.

(** The Pinecone client cannot be built. *)
Definition pinecone_broken : Sample.world :=
  Sample.mkWorld true false false false false [] [Sample.doc1; Sample.doc2] false.

Definition index : Ext.Index :=
  Ext.mkIndex (Ext.mkPinecone (Some "pc-test")) "rag-index".

Definition hybrid : Ext.PineconeHybridSearchRetriever :=
  Ext.mkHybrid Sample.embeddings index 5 0.5%float "default".

(** A retriever as [__init__] leaves it when [HAS_HYBRID] is true. *)
Definition hybrid_retriever : HybridRetriever.t :=
  HybridRetriever.mk "default" (Some (Ext.mkPinecone (Some "pc-test")))
    (Some index) (Some Sample.embeddings) (Some hybrid) None.

(** A document whose content exceeds the per-document cap by one letter. *)
Definition long_doc : Document := mkDocument (Str.replicate 1201 "a"%char) [].

(** An environment with no location at all. *)
Definition env_no_location : gmap string string :=
  delete "PINECONE_ENVIRONMENT" Sample.env.

(** Path functions for the sample inputs: the part of a path after its last
    slash, the part of that from its last dot on, and two parts put
    together with a slash. *)
Definition basename (path : string) : string :=
  List.last (Str.split "/"%char path) "".

Definition splitext_ext (path : string) : string :=
  match Str.split "."%char (basename path) with
  | [] | [_] => ""
  | pieces => "." +:+ List.last pieces ""
  end.

Definition join (root file : string) : string := root +:+ "/" +:+ file.

(** A small site: the sample services, a few text files by their paths and
    the names that a walk lists.  Every write and every deletion is
    accepted; [pypdf] is not installed. *)
Record site := mkSite {
  services : Sample.world;
  texts : list (string * string);
  listing : list string
}.

Definition missing_module : Py.exn :=
  Py.Exception "ModuleNotFoundError" "No module named 'pypdf'".

Definition no_such_file (path : string) : Py.exn :=
  Py.Exception "FileNotFoundError" ("No such file or directory: " +:+ path).

#[global] Instance site_outside : Sys.Outside site := fun c w =>
  match c return (Py.exn + Sys.reply c) * site with
  | Sys.Lib c =>
      let (r, services') := Ext.respond c (services w) in
      (r, mkSite services' (texts w) (listing w))
  | Sys.FromDocuments _ _ _ _ => (inr tt, w)
  | Sys.Delete _ _ => (inr tt, w)
  | Sys.DescribeIndexStats _ => (inr (Py.VDict [("total_vector_count", Py.VInt 2)]), w)
  | Sys.PathExists path =>
      (inr (bool_decide (is_Some (DocumentFiles.dict_get path (texts w)))), w)
  | Sys.ReadText path =>
      (match DocumentFiles.dict_get path (texts w) with
       | Some text => inr text
       | None => inl (no_such_file path)
       end, w)
  | Sys.ImportPypdf => (inl missing_module, w)
  | Sys.PdfReader _ => (inr [], w)
  | Sys.ExtractText _ => (inr None, w)
  | Sys.ImportDocx => (inr tt, w)
  | Sys.DocxDocument _ => (inr [], w)
  | Sys.Walk top => (inr [(top, [], listing w)], w)
  | Sys.NamedTemporaryFile suffix => (inr ("/tmp/upload" +:+ suffix), w)
  | Sys.UploadRead _ => (inr "Cells divide.", w)
  | Sys.TempWrite path content =>
      (inr tt, mkSite (services w) ((path, content) :: texts w) (listing w))
  | Sys.TempClose _ => (inr tt, w)
  | Sys.Unlink _ => (inr tt, w)
  end.

Definition notes : site :=
  mkSite Sample.up [("notes/cell.txt", "Cells divide."); ("notes/data.csv", "a,b")]
    ["cell.txt"; "data.csv"].

Definition splitter : Ext.RecursiveCharacterTextSplitter :=
  Ext.mkSplitter 1000 200 [Str.nl +:+ Str.nl; Str.nl; " "; ""].

(** A processor as [DocumentProcessor(1000, 200)] leaves it. *)
Definition processor : DocumentProcessor.t :=
  DocumentProcessor.mk 1000 200 (Some splitter).

Definition ingestion : IngestionService.t :=
  IngestionService.mk processor
    (VectorStore.mk (Some Sample.embeddings)
       (Some (Ext.mkPinecone (Some "pc-test"))) (Some index)).

End Cases.

(** * Properties *)

(** ** Lengths of Python strings *)

Section StrFacts.

Local Open Scope nat_scope.

Lemma string_length_app (a b : string) :
  String.length (a +:+ b) = String.length a + String.length b.
Proof. induction a as [|c a IH]; simpl; [reflexivity | now rewrite IH]. Qed.

Lemma length_substring_0 (n : nat) (s : string) :
  String.length (String.substring 0 n s) = Nat.min n (String.length s).
Proof.
  revert n; induction s as [|c s IH]; intros [|n]; simpl; try reflexivity.
  now rewrite IH.
Qed.

Lemma substring_0_all (s : string) : String.substring 0 (String.length s) s = s.
Proof. induction s as [|c s IH]; simpl; [reflexivity | now rewrite IH]. Qed.

Lemma substring_app_r (a b : string) :
  String.substring (String.length a) (String.length b) (a +:+ b) = b.
Proof. induction a as [|c a IH]; simpl; [apply substring_0_all | exact IH]. Qed.

Lemma length_rstrip (s : string) :
  String.length (Str.rstrip s) <= String.length s.
Proof.
  induction s as [|c s IH]; simpl; [lia|].
  destruct (Str.rstrip s) as [|d r]; simpl in *.
  - destruct (Str.isspace c); simpl; lia.
  - lia.
Qed.

Lemma endswith_app (a suffix : string) :
  Str.endswith (a +:+ suffix) suffix = true.
Proof.
  unfold Str.endswith. rewrite string_length_app.
  replace (String.length a + String.length suffix - String.length suffix)
    with (String.length a) by lia.
  rewrite substring_app_r, String.eqb_refl, andb_true_r.
  apply Nat.leb_le; lia.
Qed.

Lemma endswith_length (s suffix : string) :
  Str.endswith s suffix = true -> String.length suffix <= String.length s.
Proof.
  unfold Str.endswith. intros H%andb_true_iff. now apply Nat.leb_le.
Qed.

(** The separators of [join] are not part of the joined pieces. *)
Lemma length_join (sep : string) (parts : list string) :
  String.length (Str.join sep parts)
  = list_sum (map String.length parts)
    + String.length sep * (length parts - 1).
Proof.
  unfold Str.join.
  induction parts as [|x [|y parts] IH]; [simpl; lia | simpl; lia |].
  change (String.concat sep (x :: y :: parts))
    with (x +:+ sep +:+ String.concat sep (y :: parts)).
  rewrite !string_length_app, IH. cbn [map list_sum fold_right length].
  replace (S (S (length parts)) - 1) with (S (S (length parts) - 1)) by lia.
  lia.
Qed.

End StrFacts.

(** ** The context composer *)

Section ComposerFacts.

Import Composer.

Lemma len_app (a b : string) : Str.len (a +:+ b) = Str.len a + Str.len b.
Proof. unfold Str.len. rewrite string_length_app. lia. Qed.

Lemma len_nonneg (s : string) : 0 <= Str.len s.
Proof. unfold Str.len. lia. Qed.

Lemma len_slice_to (n : Z) (s : string) :
  0 <= n -> Str.len (Str.slice_to n s) = Z.min n (Str.len s).
Proof.
  intros Hn. unfold Str.slice_to.
  destruct (Z.ltb_spec n 0); [lia|].
  unfold Str.len. rewrite length_substring_0. lia.
Qed.

(** A block is never shorter than its label, colon and two newlines. *)
Lemma len_block (i : nat) (doc : Document) : 12 <= Str.len (block i doc).
Proof.
  unfold block. rewrite !len_app.
  pose proof (len_nonneg (Str.of_nat i)).
  pose proof (len_nonneg (metadata_str (metadata doc))).
  pose proof (len_nonneg (doc_content doc)).
  change (Str.len "Document ") with 9. change (Str.len ":") with 1.
  change (Str.len Str.nl) with 1. lia.
Qed.

(** Trimming to a budget may exceed it by the three characters of the
    marker, which is appended after the cut. *)
Lemma len_trim (remaining : Z) (chunk : string) :
  0 <= remaining -> Str.len (trim remaining chunk) <= remaining + 3.
Proof.
  intros Hr. unfold trim.
  destruct (Z.ltb_spec remaining (Str.len chunk)) as [Hlt|Hge]; [|lia].
  pose proof (len_slice_to (Z.max 0 remaining) chunk ltac:(lia)) as Hs.
  destruct (Str.endswith _ "..."); [lia|].
  rewrite len_app. change (Str.len "...") with 3.
  pose proof (length_rstrip (Str.slice_to (Z.max 0 remaining) chunk)).
  unfold Str.len in *. lia.
Qed.

(** A trimmed chunk ends with the marker. *)
Lemma trim_marker (remaining : Z) (chunk : string) :
  remaining < Str.len chunk -> Str.endswith (trim remaining chunk) "..." = true.
Proof.
  intros Hlt. unfold trim.
  destruct (Z.ltb_spec remaining (Str.len chunk)); [|lia].
  destruct (Str.endswith (Str.slice_to _ chunk) "...") eqn:E; [exact E|].
  apply endswith_app.
Qed.

(** A chunk that fits its budget is the block itself. *)
Lemma trim_fits (remaining : Z) (chunk : string) :
  Str.len chunk <= remaining -> trim remaining chunk = chunk.
Proof.
  intros Hle. unfold trim.
  destruct (Z.ltb_spec remaining (Str.len chunk)); [lia | reflexivity].
Qed.

Lemma rstrip_cons (c : ascii) (s : string) :
  Str.isspace c = false -> Str.rstrip (String c s) = String c (Str.rstrip s).
Proof.
  intros Hc. simpl. destruct (Str.rstrip s); [now rewrite Hc | reflexivity].
Qed.

(** Stripping a cut block on the right leaves the word of its label, or
    all of the cut when it is shorter than the word. *)
Lemma length_rstrip_label (n : nat) (rest : string) :
  (Nat.min n 8
   <= String.length (Str.rstrip (String.substring 0 n ("Document " +:+ rest))))%nat.
Proof.
  change ("Document " +:+ rest)
    with (String "D" (String "o" (String "c" (String "u" (String "m"
            (String "e" (String "n" (String "t" (String " " rest)))))))))%char.
  do 8 (destruct n as [|n]; [simpl; lia|]).
  cbn [String.substring].
  rewrite !rstrip_cons by reflexivity.
  cbn [String.length]. lia.
Qed.

(** A chunk after which the running total is still below the cap has
    eleven characters or more. *)
Lemma len_chunk_of_min (i : nat) (doc : Document) (used : Z) :
  used < max_total_chars ->
  used + Str.len (chunk_of i doc used) < max_total_chars ->
  11 <= Str.len (chunk_of i doc used).
Proof.
  intros Hused. unfold chunk_of, trim.
  pose proof (len_block i doc) as Hblock.
  destruct (Z.ltb_spec (max_total_chars - used) (Str.len (block i doc))) as [Hlt|Hge];
    [|lia].
  pose proof (len_slice_to (Z.max 0 (max_total_chars - used)) (block i doc)
                ltac:(lia)) as Hs.
  destruct (Str.endswith _ "..."); [lia|].
  rewrite len_app. change (Str.len "...") with 3.
  unfold Str.slice_to.
  destruct (Z.ltb_spec (Z.max 0 (max_total_chars - used)) 0); [lia|].
  pose proof (length_rstrip_label
                (Z.to_nat (Z.max 0 (max_total_chars - used)))
                (Str.of_nat i +:+ metadata_str (metadata doc) +:+ ":"
                   +:+ Str.nl +:+ doc_content doc +:+ Str.nl)) as Hlabel.
  fold (block i doc) in Hlabel.
  unfold Str.len. lia.
Qed.

(** The loop keeps [used] equal to the summed lengths of the parts and
    within three characters of the cap; while it is below the cap every
    part has eleven characters or more, so there are never more than 364
    parts. *)
Lemma loop_invariant (docs : list Document) :
  forall (i : nat) (used : Z) (parts : list string),
    used = Z.of_nat (list_sum (map String.length parts)) ->
    used <= max_total_chars + 3 ->
    (used < max_total_chars -> 11 * Z.of_nat (length parts) <= used) ->
    Z.of_nat (length parts) <= 364 ->
    let r := loop docs i used parts in
    fst r = Z.of_nat (list_sum (map String.length (snd r)))
    /\ fst r <= max_total_chars + 3
    /\ Z.of_nat (length (snd r)) <= 364
    /\ (length (snd r) <= length parts + length docs)%nat.
Proof.
  induction docs as [|doc rest IH]; intros i used parts Hsum Hcap Hmin Hcount; simpl.
  - repeat split; try assumption; lia.
  - destruct (Z.leb_spec max_total_chars used) as [Hstop|Hgo]; simpl.
    + repeat split; try assumption; lia.
    + pose proof (len_trim (max_total_chars - used) (block i doc) ltac:(lia)) as Hlen.
      pose proof (len_chunk_of_min i doc used Hgo) as Hlow.
      fold (chunk_of i doc used) in Hlen.
      specialize (Hmin Hgo). unfold max_total_chars in *.
      specialize (IH (S i) (used + Str.len (chunk_of i doc used))
                     (parts ++ [chunk_of i doc used])).
      destruct IH as (H1 & H2 & H3 & H4).
      * rewrite map_app, list_sum_app. simpl. unfold Str.len. lia.
      * lia.
      * intros Hbelow. specialize (Hlow Hbelow). rewrite length_app. simpl. lia.
      * rewrite length_app. simpl. lia.
      * repeat split; try assumption.
        rewrite length_app in H4. simpl in H4. lia.
Qed.

(** Once the running total has reached the cap no document is added. *)
Lemma loop_stops (docs : list Document) (i : nat) (used : Z) (parts : list string) :
  max_total_chars <= used -> loop docs i used parts = (used, parts).
Proof.
  intros Hstop. destruct docs as [|doc rest]; simpl; [reflexivity|].
  destruct (Z.leb_spec max_total_chars used); [reflexivity | lia].
Qed.

Lemma len_prepare_context (d : Document) (ds : list Document) :
  Str.len (_prepare_context (d :: ds))
  = fst (loop (d :: ds) 1 0 [])
    + Z.of_nat (length (snd (loop (d :: ds) 1 0 [])) - 1).
Proof.
  destruct (loop_invariant (d :: ds) 1 0 []) as (H1 & _);
    [reflexivity | unfold max_total_chars; lia | simpl; lia | simpl; lia |].
  unfold _prepare_context. rewrite H1. unfold Str.len at 1.
  rewrite length_join. simpl (String.length Str.nl). lia.
Qed.

End ComposerFacts.

(** ** Claims on the context composer *)

Section ComposerClaims.

Import Composer.

(** C1, as stated, fails: four documents of 1200 letters each compose to a
    context of 4006 characters.  The first three blocks take 1213 characters
    each; the fourth is cut to the 361 that remain and then receives the
    marker, and the three separating newlines are not counted by [used]. *)
Lemma prepare_context_exceeds_cap :
  ~ (Str.len (_prepare_context Sample.four_docs) <= max_total_chars).
Proof. vm_compute. intros H; apply H; reflexivity. Qed.

(** C1 (amended): for every sequence of documents the running total [used]
    is the summed length of the rendered blocks and never exceeds
    [max_total_chars + 3]; the context has at most
    [max_total_chars + 3 + (k - 1)] characters, [k] being the number of
    blocks rendered (at most the number of documents and at most 364), and
    never more than 4366 characters; no document is added once the running total has
    reached the cap; a block that does not fit what remains of the cap is
    cut and ends with the marker, a block that fits is left as it is. *)
Theorem prepare_context_bounded :
  (forall docs : list Document,
     let r := loop docs 1 0 [] in
     fst r = Z.of_nat (list_sum (map String.length (snd r)))
     /\ fst r <= max_total_chars + 3
     /\ (length (snd r) <= length docs)%nat
     /\ (length (snd r) <= 364)%nat
     /\ Str.len (_prepare_context docs)
        <= max_total_chars + 3 + Z.of_nat (length (snd r) - 1)
     /\ Str.len (_prepare_context docs) <= 4366)
  /\ (forall docs i used parts,
        max_total_chars <= used -> loop docs i used parts = (used, parts))
  /\ (forall i doc used,
        used < max_total_chars ->
        max_total_chars - used < Str.len (block i doc) ->
        Str.endswith (chunk_of i doc used) "..." = true
        /\ Str.len (chunk_of i doc used) <= max_total_chars - used + 3)
  /\ (forall i doc used,
        Str.len (block i doc) <= max_total_chars - used ->
        chunk_of i doc used = block i doc).
Proof.
  split; [|split; [|split]].
  - intros [|d ds].
    + repeat split; try reflexivity; try (simpl; lia);
        vm_compute; intros H; discriminate H.
    + intros r.
      destruct (loop_invariant (d :: ds) 1 0 []) as (H1 & H2 & H3 & H4);
        [reflexivity | unfold max_total_chars; lia | simpl; lia | simpl; lia |].
      fold r in H1, H2, H3, H4.
      pose proof (len_prepare_context d ds) as Hlen. fold r in Hlen.
      unfold max_total_chars in *.
      repeat split; try assumption; simpl in H4; lia.
  - apply loop_stops.
  - intros i doc used Hused Hlong. split.
    + now apply trim_marker.
    + apply len_trim. lia.
  - intros i doc used Hfit. now apply trim_fits.
Qed.

Lemma prepare_context_bounded_witness :
  Str.len (_prepare_context Sample.four_docs) <= 4000 + 3 + 3
  /\ Str.endswith (chunk_of 4 Sample.long_doc 3639) "..." = true
  /\ chunk_of 1 Sample.long_doc 0 = block 1 Sample.long_doc.
Proof.
  destruct prepare_context_bounded as (Hall & _ & Hcut & Hfit).
  split; [|split].
  - destruct (Hall Sample.four_docs) as (_ & _ & _ & _ & H & _). exact H.
  - apply (Hcut 4%nat Sample.long_doc 3639); vm_compute; reflexivity.
  - apply (Hfit 1%nat Sample.long_doc 0). vm_compute. intros H; discriminate H.
Defined.

Lemma app_head (c : ascii) (a b : string) : String c a +:+ b = String c (a +:+ b).
Proof. reflexivity. Qed.

Lemma rstrip_head (c : ascii) (s : string) :
  Str.isspace c = false -> exists r, Str.rstrip (String c s) = String c r.
Proof.
  intros Hc. simpl. destruct (Str.rstrip s) as [|d r]; rewrite ?Hc; eauto.
Qed.

(** The first chunk starts with the letter of its label. *)
Lemma chunk_of_first (doc : Document) :
  exists rest, chunk_of 1 doc 0 = String "D"%char rest.
Proof.
  unfold chunk_of, trim.
  change (block 1 doc) with
    (String "D"%char ("ocument " +:+ Str.of_nat 1 +:+ metadata_str (metadata doc)
       +:+ ":" +:+ Str.nl +:+ doc_content doc +:+ Str.nl)).
  destruct (_ <? _); [|eauto].
  change (Str.slice_to (Z.max 0 (max_total_chars - 0)) (String "D"%char ?s))
    with (String "D"%char (String.substring 0 3999 s)).
  destruct (Str.endswith _ "..."); [eauto|].
  destruct (rstrip_head "D"%char
              (String.substring 0 3999
                 ("ocument " +:+ Str.of_nat 1 +:+ metadata_str (metadata doc)
                    +:+ ":" +:+ Str.nl +:+ doc_content doc +:+ Str.nl)))
    as [r ->]; [reflexivity|].
  rewrite app_head. eauto.
Qed.

Lemma loop_extends (docs : list Document) :
  forall i used parts, exists more, snd (loop docs i used parts) = parts ++ more.
Proof.
  induction docs as [|doc rest IH]; intros i used parts; simpl.
  - exists []. now rewrite app_nil_r.
  - destruct (_ <=? _); simpl.
    + exists []. now rewrite app_nil_r.
    + destruct (IH (S i) (used + Str.len (chunk_of i doc used))
                  (parts ++ [chunk_of i doc used])) as [more ->].
      exists (chunk_of i doc used :: more). now rewrite <- app_assoc.
Qed.

Lemma prepare_context_first (d : Document) (ds : list Document) :
  exists rest, _prepare_context (d :: ds) = String "D"%char rest.
Proof.
  unfold _prepare_context.
  change (loop (d :: ds) 1 0 [])
    with (loop ds 2 (0 + Str.len (chunk_of 1 d 0)) ([] ++ [chunk_of 1 d 0])).
  destruct (loop_extends ds 2 (0 + Str.len (chunk_of 1 d 0)) ([] ++ [chunk_of 1 d 0]))
    as [more ->].
  destruct (chunk_of_first d) as [rest ->]. simpl.
  destruct more; [eauto|]. rewrite app_head. eauto.
Qed.

(** C5: for the empty sequence the composer returns the sentinel, which is
    not the empty string; and no non-empty sequence of documents, whatever
    their content, composes to the sentinel or to the empty string. *)
Theorem prepare_context_empty_sentinel :
  _prepare_context [] = "No relevant context found."
  /\ _prepare_context [] <> ""
  /\ (forall d ds, _prepare_context (d :: ds) <> _prepare_context [])
  /\ (forall d ds, _prepare_context (d :: ds) <> "").
Proof.
  split; [reflexivity|]. split; [discriminate|]. split.
  - intros d ds. destruct (prepare_context_first d ds) as [rest ->]. discriminate.
  - intros d ds. destruct (prepare_context_first d ds) as [rest ->]. discriminate.
Qed.

End ComposerClaims.

(** ** Claims on the retriever *)

Section RetrieverClaims.

Import Py Ext HybridRetriever.

Context {W : Type} `{!Outside W}.
Variable config : Config.t.

Ltac unfold_methods :=
  unfold hybrid_search, dense_search, report, recover, _initialize_retriever,
    bind, ret, raise, try_except, invoke, getattr, setattr, gets, modify,
    out_of_fuel.

Ltac ask :=
  match goal with
  | |- context [respond (PrintRetrieval ?q ?k ?a ?f) ?w0] =>
      let e := fresh "e" in let w := fresh "w" in
      destruct (respond (PrintRetrieval q k a f) w0) as [[e|[]] w]; simpl
  | |- context [respond (PrintRetrievalError ?x) ?w0] =>
      let e := fresh "e" in let w := fresh "w" in
      destruct (respond (PrintRetrievalError x) w0) as [[e|[]] w]; simpl
  | |- context [respond ?c ?w0] =>
      let e := fresh "e" in let v := fresh "v" in let w := fresh "w" in
      destruct (respond c w0) as [[e|v] w]; simpl
  end.

Lemma exactly_one_settled (HAS_HYBRID : bool) (o : t) :
  exactly_one HAS_HYBRID o -> settled HAS_HYBRID o.
Proof. unfold exactly_one, settled. destruct HAS_HYBRID; intuition. Qed.

Lemma initialize_returns (HAS_HYBRID : bool) (st st' : state W t) :
  _initialize_retriever HAS_HYBRID config st = (Returned tt, st') ->
  exactly_one HAS_HYBRID (self st').
Proof.
  unfold_methods. simpl. repeat ask; try discriminate.
  destruct HAS_HYBRID; repeat ask; try discriminate;
    intros Heq; inversion Heq; subst; simpl; eauto.
Qed.

Lemma initialize_ends (HAS_HYBRID : bool) (st : state W t) :
  fst (_initialize_retriever HAS_HYBRID config st) <> OutOfFuel.
Proof.
  unfold_methods. simpl. repeat ask; try discriminate.
  destruct HAS_HYBRID; repeat ask; discriminate.
Qed.

Lemma retrieve_hybrid (HAS_HYBRID : bool) (n : nat) (query : string) (top_k : Z)
    (alpha : float) (fetch_k : Z) (st : state W t) (r : PineconeHybridSearchRetriever) :
  HAS_HYBRID = true -> retriever (self st) = Some r ->
  retrieve HAS_HYBRID config (S n) query top_k alpha fetch_k st
  = try_except
      (bind (hybrid_search r query top_k alpha) (report query top_k alpha fetch_k))
      recover st.
Proof.
  intros -> Hr. simpl. unfold try_except, bind, getattr, gets at 1 2. simpl.
  now rewrite Hr.
Qed.

Lemma retrieve_dense (HAS_HYBRID : bool) (n : nat) (query : string) (top_k : Z)
    (alpha : float) (fetch_k : Z) (st : state W t) (vs : LC_Pinecone) :
  (if HAS_HYBRID then retriever (self st) else None) = None ->
  vectorstore (self st) = Some vs ->
  retrieve HAS_HYBRID config (S n) query top_k alpha fetch_k st
  = try_except
      (bind (dense_search vs query top_k fetch_k) (report query top_k alpha fetch_k))
      recover st.
Proof.
  intros Hr Hvs. simpl. unfold try_except, bind, getattr, gets at 1 2. simpl.
  now rewrite Hr, Hvs.
Qed.

Lemma retrieve_fallback (HAS_HYBRID : bool) (n : nat) (query : string) (top_k : Z)
    (alpha : float) (fetch_k : Z) (st : state W t) :
  (if HAS_HYBRID then retriever (self st) else None) = None ->
  vectorstore (self st) = None ->
  retrieve HAS_HYBRID config (S n) query top_k alpha fetch_k st
  = try_except
      (bind (_initialize_retriever HAS_HYBRID config)
         (fun _ => retrieve HAS_HYBRID config n query top_k alpha fetch_k))
      recover st.
Proof.
  intros Hr Hvs. simpl. unfold try_except, bind, getattr, gets at 1 2. simpl.
  now rewrite Hr, Hvs.
Qed.

Lemma app_cons_assoc {A} (l : list A) (a : A) (m : list A) :
  (l ++ [a]) ++ m = l ++ a :: m.
Proof. now rewrite <- app_assoc. Qed.

(** The calls after those of [l] end a retrieval as they do alone. *)
Lemma ended_app (r : outcome (list Document)) (l new : list entry) :
  ended r new -> ended r (l ++ new).
Proof.
  destruct r as [docs|e|]; simpl; [| |auto].
  - intros [->|(before & en & q & k & a & f & -> & Hret)]; [now left|].
    right. exists (l ++ before), en, q, k, a, f. now rewrite app_assoc.
  - intros (before & caught & ->). exists (l ++ before), caught.
    now rewrite app_assoc.
Qed.

Ltac find_tail tac :=
  first [ eexists []; tac | eexists [_]; tac | eexists [_; _]; tac
        | eexists [_; _; _]; tac | eexists [_; _; _; _]; tac ].

Ltac show_ended :=
  first [ now left
        | right; find_tail ltac:(do 5 eexists; split; reflexivity)
        | find_tail ltac:(eexists; reflexivity) ].

Ltac settle_run HAS_HYBRID :=
  do 3 eexists; (split; [reflexivity|]);
  (split; [simpl; rewrite <- ?app_assoc; reflexivity|]); simpl;
  (split; [show_ended|]);
  repeat (constructor; [try reflexivity; now destruct HAS_HYBRID|]); constructor.

(** What the handler does with an exception. *)
Lemma recover_run (HAS_HYBRID : bool) (e : exn) (st : state W t) :
  exists r st' new,
    recover e st = (r, st')
    /\ log st' = log st ++ new
    /\ ended r new
    /\ Forall (fun e => retrieval_call HAS_HYBRID (entry_call e) = true) new.
Proof.
  unfold_methods.
  destruct (respond (PrintRetrievalError e) (world st)) as [[e'|[]] w]; simpl;
    settle_run HAS_HYBRID.
Qed.

Lemma hybrid_run (r0 : PineconeHybridSearchRetriever) (query : string)
    (top_k : Z) (alpha : float) (fetch_k : Z) (st : state W t) :
  exists r st' new,
    try_except
      (bind (hybrid_search r0 query top_k alpha) (report query top_k alpha fetch_k))
      recover st = (r, st')
    /\ log st' = log st ++ new
    /\ ended r new
    /\ Forall (fun e => retrieval_call true (entry_call e) = true) new.
Proof.
  unfold_methods. simpl.
  repeat ask; try destruct (retriever (self st)); simpl; repeat ask;
    settle_run true.
Qed.

Lemma dense_run (HAS_HYBRID : bool) (vs : LC_Pinecone) (query : string)
    (top_k : Z) (alpha : float) (fetch_k : Z) (st : state W t) :
  exists r st' new,
    try_except
      (bind (dense_search vs query top_k fetch_k) (report query top_k alpha fetch_k))
      recover st = (r, st')
    /\ log st' = log st ++ new
    /\ ended r new
    /\ Forall (fun e => retrieval_call HAS_HYBRID (entry_call e) = true) new.
Proof.
  unfold_methods. simpl.
  repeat ask; settle_run HAS_HYBRID.
Qed.

(** On a settled retriever [retrieve] does not reach its recursive call. *)
Lemma retrieve_settled (HAS_HYBRID : bool) (n : nat) (query : string) (top_k : Z)
    (alpha : float) (fetch_k : Z) (st : state W t) :
  settled HAS_HYBRID (self st) ->
  retrieve HAS_HYBRID config (S n) query top_k alpha fetch_k st
  = retrieve HAS_HYBRID config 1 query top_k alpha fetch_k st
  /\ exists r st' new,
      retrieve HAS_HYBRID config 1 query top_k alpha fetch_k st = (r, st')
      /\ log st' = log st ++ new
      /\ ended r new
      /\ Forall (fun e => retrieval_call HAS_HYBRID (entry_call e) = true) new.
Proof.
  intros Hs.
  destruct (if HAS_HYBRID then retriever (self st) else None) as [r|] eqn:Hr.
  - destruct HAS_HYBRID; [|discriminate].
    rewrite !(retrieve_hybrid true _ _ _ _ _ _ r) by auto.
    split; [reflexivity | apply hybrid_run].
  - destruct (vectorstore (self st)) as [vs|] eqn:Hvs.
    + rewrite !(retrieve_dense _ _ _ _ _ _ _ vs) by auto.
      split; [reflexivity | apply dense_run].
    + exfalso. destruct Hs as [[-> [r Hr']]|[vs Hvs']]; congruence.
Qed.

Lemma initialize_log (HAS_HYBRID : bool) (st : state W t) :
  exists new,
    log (snd (_initialize_retriever HAS_HYBRID config st)) = log st ++ new
    /\ Forall (fun e => retrieval_call HAS_HYBRID (entry_call e) = true) new.
Proof.
  destruct HAS_HYBRID; unfold_methods; simpl; repeat ask;
    rewrite ?app_cons_assoc; eexists; (split; [reflexivity|]);
    repeat constructor.
Qed.

(** Two levels are enough from any state: the retry runs on a retriever that
    [_initialize_retriever] has just settled. *)
Lemma retrieve_two_levels (HAS_HYBRID : bool) (n : nat) (query : string) (top_k : Z)
    (alpha : float) (fetch_k : Z) (st : state W t) :
  retrieve HAS_HYBRID config (2 + n) query top_k alpha fetch_k st
  = retrieve HAS_HYBRID config 2 query top_k alpha fetch_k st
  /\ exists r st' new,
      retrieve HAS_HYBRID config 2 query top_k alpha fetch_k st = (r, st')
      /\ log st' = log st ++ new
      /\ ended r new
      /\ Forall (fun e => retrieval_call HAS_HYBRID (entry_call e) = true) new.
Proof.
  destruct (if HAS_HYBRID then retriever (self st) else None) as [r|] eqn:Hr;
    [|destruct (vectorstore (self st)) as [vs|] eqn:Hvs].
  - assert (settled HAS_HYBRID (self st)) as Hs.
    { destruct HAS_HYBRID; [left; eauto | discriminate]. }
    destruct (retrieve_settled HAS_HYBRID (S n) query top_k alpha fetch_k st Hs) as [E1 _].
    destruct (retrieve_settled HAS_HYBRID 1 query top_k alpha fetch_k st Hs) as [E2 Hex].
    change (2 + n)%nat with (S (S n)). rewrite E1, E2. split; [reflexivity | exact Hex].
  - assert (settled HAS_HYBRID (self st)) as Hs by (right; eauto).
    destruct (retrieve_settled HAS_HYBRID (S n) query top_k alpha fetch_k st Hs) as [E1 _].
    destruct (retrieve_settled HAS_HYBRID 1 query top_k alpha fetch_k st Hs) as [E2 Hex].
    change (2 + n)%nat with (S (S n)). rewrite E1, E2. split; [reflexivity | exact Hex].
  - change (2 + n)%nat with (S (S n)).
    rewrite !retrieve_fallback by assumption.
    unfold try_except, bind.
    destruct (initialize_log HAS_HYBRID st) as (init & Hlog0 & Hinit0).
    destruct (_initialize_retriever HAS_HYBRID config st) as [[[]|e|] st1] eqn:Hinit;
      simpl in Hlog0.
    + apply initialize_returns, exactly_one_settled in Hinit.
      destruct (retrieve_settled HAS_HYBRID n query top_k alpha fetch_k st1 Hinit)
        as [E (r & st2 & new & E1 & Hlog1 & Hend1 & Hnew1)].
      rewrite E, E1. split; [reflexivity|].
      destruct r as [docs|e|]; [| |contradiction].
      * exists (Returned docs), st2, (init ++ new).
        split; [reflexivity|]. rewrite Hlog1, Hlog0, <- app_assoc.
        split; [reflexivity|]. split; [now apply ended_app | now apply Forall_app].
      * destruct (recover_run HAS_HYBRID e st2)
          as (r & st3 & new' & -> & Hlog2 & Hend2 & Hnew2).
        exists r, st3, (init ++ new ++ new').
        split; [reflexivity|]. rewrite Hlog2, Hlog1, Hlog0, <- !app_assoc.
        split; [reflexivity|]. split.
        -- rewrite app_assoc. now apply ended_app.
        -- rewrite !Forall_app. auto.
    + split; [reflexivity|].
      destruct (recover_run HAS_HYBRID e st1)
        as (r & st3 & new' & -> & Hlog2 & Hend2 & Hnew2).
      exists r, st3, (init ++ new'). split; [reflexivity|].
      rewrite Hlog2, Hlog0, <- app_assoc. split; [reflexivity|].
      split; [now apply ended_app | now apply Forall_app].
    + exfalso. apply (initialize_ends HAS_HYBRID st). now rewrite Hinit.
Qed.

(** The calls of a retrieval, whatever the fuel. *)
Lemma retrieve_log (HAS_HYBRID : bool) (fuel : nat) (query : string) (top_k : Z)
    (alpha : float) (fetch_k : Z) :
  forall st : state W t,
  exists new,
    log (snd (retrieve HAS_HYBRID config fuel query top_k alpha fetch_k st))
    = log st ++ new
    /\ Forall (fun e => retrieval_call HAS_HYBRID (entry_call e) = true) new.
Proof.
  induction fuel as [|fuel IH]; intros st.
  - exists []. split; [now rewrite app_nil_r | constructor].
  - destruct (if HAS_HYBRID then retriever (self st) else None) as [r|] eqn:Hr;
      [|destruct (vectorstore (self st)) as [vs|] eqn:Hvs].
    + destruct HAS_HYBRID; [|discriminate].
      rewrite (retrieve_hybrid true _ _ _ _ _ _ r) by auto.
      destruct (hybrid_run r query top_k alpha fetch_k st)
        as (r1 & st' & new & -> & Hlog & _ & Hnew). eauto.
    + rewrite (retrieve_dense _ _ _ _ _ _ _ vs) by auto.
      destruct (dense_run HAS_HYBRID vs query top_k alpha fetch_k st)
        as (r1 & st' & new & -> & Hlog & _ & Hnew). eauto.
    + rewrite retrieve_fallback by auto.
      unfold try_except, bind.
      destruct (initialize_log HAS_HYBRID st) as (init & Hlog0 & Hinit0).
      destruct (_initialize_retriever HAS_HYBRID config st) as [[[]|e|] st1];
        simpl in Hlog0.
      * destruct (IH st1) as (new & Hlog & Hnew).
        destruct (retrieve HAS_HYBRID config fuel query top_k alpha fetch_k st1)
          as [[docs|e|] st2]; simpl in Hlog.
        -- exists (init ++ new). simpl. rewrite Hlog, Hlog0, <- app_assoc.
           split; [reflexivity | now apply Forall_app].
        -- destruct (recover_run HAS_HYBRID e st2)
             as (r & st3 & new' & -> & Hlog2 & _ & Hnew2).
           exists (init ++ new ++ new'). simpl.
           rewrite Hlog2, Hlog, Hlog0, <- !app_assoc.
           split; [reflexivity|]. rewrite !Forall_app. auto.
        -- exists (init ++ new). simpl. rewrite Hlog, Hlog0, <- app_assoc.
           split; [reflexivity | now apply Forall_app].
      * destruct (recover_run HAS_HYBRID e st1)
          as (r & st3 & new' & -> & Hlog2 & _ & Hnew2).
        exists (init ++ new'). simpl. rewrite Hlog2, Hlog0, <- app_assoc.
        split; [reflexivity | now apply Forall_app].
      * exists init. simpl. auto.
Qed.

(** C2: from every state of the retriever and of the world, for every
    query and parameters, [retrieve] ends, and an exception leaves it only
    when the print of the error line in its handler raised it, as the call
    made last.  An exception of a search, of the re-initialisation or of
    the print of the timing line is caught: when the print of the error
    line then returns, [retrieve] returns no document.  When [retrieve]
    returns documents, they are those of the search that was called last,
    before the print of the timing line. *)
Theorem retrieve_raises_only_from_print (HAS_HYBRID : bool) (n : nat)
    (query : string) (top_k : Z) (alpha : float) (fetch_k : Z) (st : state W t) :
  exists r st' new,
    retrieve HAS_HYBRID config (2 + n) query top_k alpha fetch_k st = (r, st')
    /\ log st' = log st ++ new
    /\ match r with
       | Returned docs =>
           docs = [] \/ exists before e query top_k alpha fetch_k,
             new = before
                   ++ [e; Called (PrintRetrieval query top_k alpha fetch_k) (inr tt)]
             /\ returned_documents e = Some docs
       | Raised e =>
           exists before caught,
             new = before ++ [Called (PrintRetrievalError caught) (inl e)]
       | OutOfFuel => False
       end
    /\ (forall before caught,
          new = before ++ [Called (PrintRetrievalError caught) (inr tt)] ->
          r = Returned [])
    /\ (Forall (fun e => is_print_error (entry_call e) && raised e = false) new ->
        exists docs, r = Returned docs).
Proof.
  destruct (retrieve_two_levels HAS_HYBRID n query top_k alpha fetch_k st)
    as [E (r & st' & new & E2 & Hlog & Hend & _)].
  exists r, st', new. rewrite E. split; [exact E2|]. split; [exact Hlog|].
  split; [exact Hend|]. split.
  - intros before caught Hnew.
    destruct r as [docs|e|]; simpl in Hend; [| |contradiction].
    + destruct Hend as [->|(b & en & q & k & a & f & Hnew' & _)]; [reflexivity|].
      rewrite Hnew' in Hnew.
      change [en; Called (PrintRetrieval q k a f) (inr tt)]
        with ([en] ++ [Called (PrintRetrieval q k a f) (inr tt)]) in Hnew.
      rewrite app_assoc in Hnew. apply app_inj_tail in Hnew as [_ Hlast].
      apply (f_equal entry_call) in Hlast. discriminate Hlast.
    + destruct Hend as (b & c & Hnew'). rewrite Hnew' in Hnew.
      apply app_inj_tail in Hnew as [_ Hlast].
      apply (f_equal raised) in Hlast. discriminate Hlast.
  - intros Hquiet.
    destruct r as [docs|e|]; simpl in Hend; [eauto| |contradiction].
    destruct Hend as (b & c & ->). apply Forall_app in Hquiet as [_ Hlast].
    inversion Hlast as [|? ? Hp _]; subst. discriminate Hp.
Qed.

(** C10: [_initialize_retriever] always ends, and when it returns exactly
    one of [retriever] and [vectorstore] is set, the one that [HAS_HYBRID]
    selects.  Hence [retrieve] ends from every state: with fuel for one
    recursive call it never runs out, and more fuel changes nothing. *)
Theorem retrieve_recurses_at_most_once (HAS_HYBRID : bool) :
  (forall st : state W t,
      fst (_initialize_retriever HAS_HYBRID config st) <> OutOfFuel)
  /\ (forall st st' : state W t,
        _initialize_retriever HAS_HYBRID config st = (Returned tt, st') ->
        if HAS_HYBRID
        then is_Some (retriever (self st')) /\ vectorstore (self st') = None
        else retriever (self st') = None /\ is_Some (vectorstore (self st')))
  /\ (forall (n : nat) query top_k alpha fetch_k (st : state W t),
        retrieve HAS_HYBRID config (2 + n) query top_k alpha fetch_k st
        = retrieve HAS_HYBRID config 2 query top_k alpha fetch_k st
        /\ fst (retrieve HAS_HYBRID config 2 query top_k alpha fetch_k st) <> OutOfFuel).
Proof.
  split; [|split].
  - apply initialize_ends.
  - intros st st' Hinit. exact (initialize_returns _ _ _ Hinit).
  - intros n query top_k alpha fetch_k st.
    destruct (retrieve_two_levels HAS_HYBRID n query top_k alpha fetch_k st)
      as [E (r & st' & new & E2 & _ & Hend & _)].
    split; [exact E|]. rewrite E2. simpl. intros ->. exact Hend.
Qed.

(** C7: with [HAS_HYBRID] false, whatever [alpha] and whatever the state,
    [retrieve] makes no call of the hybrid path.  On a retriever holding its
    dense vector store, its first call is an MMR search with [k = top_k] and
    [fetch_k]; if that search returns, no other search is made; if it
    raises, the next call is a similarity search with the same [top_k], and
    no other search is made.  The documents of the search that returned are
    handed to the print of the timing line and returned when it returns;
    the exception of the similarity search, or of that print, goes to the
    handler. *)
Theorem retrieve_dense_only (fuel : nat) (query : string) (top_k : Z)
    (alpha : float) (fetch_k : Z) (st : state W t) :
  (exists new,
      log (snd (retrieve false config fuel query top_k alpha fetch_k st))
      = log st ++ new
      /\ Forall (fun e => is_hybrid_call (entry_call e) = false) new)
  /\ (forall vs, vectorstore (self st) = Some vs ->
      let mmr := MaxMarginalRelevanceSearch vs query top_k fetch_k in
      let plain := SimilaritySearch vs query top_k in
      let finish docs :=
        try_except (report query top_k alpha fetch_k docs) recover in
      retrieve false config (S fuel) query top_k alpha fetch_k st
      = (let (r1, w1) := respond mmr (world st) in
         match r1 with
         | inr docs =>
             finish docs (State (self st) w1 (log st ++ [Called mmr r1]))
         | inl _ =>
             let (r2, w2) := respond plain w1 in
             let st2 :=
               State (self st) w2 (log st ++ [Called mmr r1; Called plain r2]) in
             match r2 with
             | inr docs => finish docs st2
             | inl e => recover e st2
             end
         end)
      /\ exists r1 rest,
          log (snd (retrieve false config (S fuel) query top_k alpha fetch_k st))
          = log st ++ Called mmr r1 :: rest
          /\ match r1 with
             | inr _ => Forall (fun e => is_search (entry_call e) = false) rest
             | inl _ =>
                 exists r2 rest',
                   rest = Called plain r2 :: rest'
                   /\ Forall (fun e => is_search (entry_call e) = false) rest'
             end).
Proof.
  split.
  - destruct (retrieve_log false fuel query top_k alpha fetch_k st) as (new & Hlog & Hnew).
    exists new. split; [exact Hlog|].
    eapply Forall_impl; [exact Hnew|]. intros e. unfold retrieval_call.
    destruct (is_hybrid_call (entry_call e)); [|reflexivity].
    rewrite andb_false_r. discriminate.
  - intros vs Hvs mmr plain finish. subst mmr plain finish.
    rewrite (retrieve_dense false _ _ _ _ _ _ vs) by auto.
    split.
    + unfold_methods. simpl. repeat ask; rewrite <- ?app_assoc; reflexivity.
    + unfold_methods. simpl.
      repeat ask; rewrite <- ?app_assoc; simpl; do 2 eexists;
        (split; [reflexivity|]); simpl;
        try (do 2 eexists; split; [reflexivity|]); repeat constructor.
Qed.

End RetrieverClaims.

(** ** Claims on the generator *)

Section GeneratorClaims.

Import Py Ext RAGGenerator.

Context {W : Type} `{!Outside W} {O : Type}.

Ltac unfold_methods :=
  unfold generate_with_sources, generate_response, bind, ret, raise,
    try_except, invoke, getattr, setattr, gets, modify.

Ltac ask :=
  match goal with
  | |- context [respond PrintGeneration ?w0] =>
      let e := fresh "e" in let w := fresh "w" in
      destruct (respond PrintGeneration w0) as [[e|[]] w] eqn:?; simpl
  | |- context [respond ?c ?w0] =>
      let e := fresh "e" in let v := fresh "v" in let w := fresh "w" in
      destruct (respond c w0) as [[e|v] w] eqn:?; simpl
  end.

Lemma generate_response_outcome (g : t) (question : string)
    (docs : list Document) (custom_prompt : option string) (st : state W O) :
  exists result st',
    generate_response g question docs custom_prompt st = (Returned result, st')
    /\ generated g question docs result st'.
Proof.
  unfold generated. unfold_methods.
  destruct (truthy custom_prompt); simpl; repeat ask;
    do 2 eexists; (split; [reflexivity|]); simpl;
    lazymatch goal with
    | |- context [?l ++ [Called ?c (inl ?e)]] =>
        right; exists l, c, e; repeat split; reflexivity
    | |- context [(?l ++ [Called (ChainInvoke ?p _ _ _) (inr ?v)]) ++ _] =>
        left; exists l, p, v; rewrite app_cons_assoc; repeat split; reflexivity
    end.
Qed.

Lemma generate_with_sources_returns (g : t) (question : string)
    (docs : list Document) (custom_prompt : option string) (st : state W O) :
  exists result st',
    generate_with_sources g question docs custom_prompt st = (Returned result, st').
Proof.
  unfold generate_with_sources, try_except, bind.
  destruct (generate_response_outcome g question docs custom_prompt st)
    as (result & st' & -> & [(? & ? & ? & _ & -> & _)|(? & ? & ? & _ & -> & _)]);
    simpl; unfold ret; eauto.
Qed.

(** With the default prompt, the payload follows what the model invocation
    and the print after it give back. *)
Lemma generate_response_default (g : t) (question : string)
    (docs : list Document) (custom_prompt : option string) (st : state W O)
    (r : exn + string) (w1 : W) (p : exn + unit) (w2 : W) :
  truthy custom_prompt = false ->
  respond (ChainInvoke (prompt_template g) (llm g) (_prepare_context docs) question)
    (world st) = (r, w1) ->
  respond PrintGeneration w1 = (p, w2) ->
  exists result st',
    generate_response g question docs custom_prompt st = (Returned result, st')
    /\ match r, p with
       | inr content, inr _ =>
           result !! "status" = Some (VStr "success")
           /\ result !! "answer" = Some (VStr content)
           /\ result !! "context_used" = Some (VInt (Z.of_nat (length docs)))
       | inr _, inl e | inl e, _ =>
           result !! "status" = Some (VStr "error")
           /\ result !! "message" = Some (VStr (exn_msg e))
           /\ result !! "answer" = Some VNone
           /\ result !! "context_used" = Some (VInt 0)
       end.
Proof.
  intros Hprompt Hanswer Hprint. unfold_methods. rewrite Hprompt.
  set (context := _prepare_context docs) in *. clearbody context.
  simpl. rewrite Hanswer.
  destruct r as [e|content]; simpl; [|rewrite Hprint; destruct p as [e|[]]; simpl];
    do 2 eexists; (split; [reflexivity|]); repeat split; reflexivity.
Qed.

(** C3: [generate_response] always returns a payload and never raises.
    Either every call it made returned, the last two being the model
    invocation on the composed context and the question and the print of
    the timing line, and the payload has status [success], the content of
    the response as answer and the number of input documents as
    [context_used]; or the last call it made raised [e], and the payload has
    status [error], the message [str(e)], answer [None] and [context_used]
    0.  In particular, with the default prompt: if the model invocation
    raises [e] the payload is the error payload of [e]; if it returns and
    the print returns, the payload is the success payload; if it returns
    and the print raises [e], the payload is the error payload of [e]. *)
Theorem generate_response_outcomes (g : t) (question : string)
    (docs : list Document) (custom_prompt : option string) (st : state W O) :
  (exists result st',
      generate_response g question docs custom_prompt st = (Returned result, st')
      /\ ((exists before prompt content,
              log st' = before
                        ++ [Called (ChainInvoke prompt (llm g) (_prepare_context docs) question)
                              (inr content);
                            Called PrintGeneration (inr tt)]
              /\ result !! "status" = Some (VStr "success")
              /\ result !! "answer" = Some (VStr content)
              /\ result !! "context_used" = Some (VInt (Z.of_nat (length docs))))
          \/ (exists before c e,
                log st' = before ++ [Called c (inl e)]
                /\ result !! "status" = Some (VStr "error")
                /\ result !! "message" = Some (VStr (exn_msg e))
                /\ result !! "answer" = Some VNone
                /\ result !! "context_used" = Some (VInt 0))))
  /\ (forall e w',
        truthy custom_prompt = false ->
        respond (ChainInvoke (prompt_template g) (llm g) (_prepare_context docs) question)
          (world st) = (inl e, w') ->
        exists result st',
          generate_response g question docs custom_prompt st = (Returned result, st')
          /\ result !! "status" = Some (VStr "error")
          /\ result !! "message" = Some (VStr (exn_msg e))
          /\ result !! "answer" = Some VNone
          /\ result !! "context_used" = Some (VInt 0))
  /\ (forall content w1 w2,
        truthy custom_prompt = false ->
        respond (ChainInvoke (prompt_template g) (llm g) (_prepare_context docs) question)
          (world st) = (inr content, w1) ->
        respond PrintGeneration w1 = (inr tt, w2) ->
        exists result st',
          generate_response g question docs custom_prompt st = (Returned result, st')
          /\ result !! "status" = Some (VStr "success")
          /\ result !! "answer" = Some (VStr content)
          /\ result !! "context_used" = Some (VInt (Z.of_nat (length docs))))
  /\ (forall content e w1 w2,
        truthy custom_prompt = false ->
        respond (ChainInvoke (prompt_template g) (llm g) (_prepare_context docs) question)
          (world st) = (inr content, w1) ->
        respond PrintGeneration w1 = (inl e, w2) ->
        exists result st',
          generate_response g question docs custom_prompt st = (Returned result, st')
          /\ result !! "status" = Some (VStr "error")
          /\ result !! "message" = Some (VStr (exn_msg e))
          /\ result !! "answer" = Some VNone
          /\ result !! "context_used" = Some (VInt 0)).
Proof.
  split; [|split; [|split]].
  - exact (generate_response_outcome g question docs custom_prompt st).
  - intros e w' Hprompt Hraise.
    destruct (respond PrintGeneration w') as [p w2] eqn:Hprint.
    exact (generate_response_default g question docs custom_prompt st
             (inl e) w' p w2 Hprompt Hraise Hprint).
  - intros content w1 w2 Hprompt Hreturn Hprint.
    exact (generate_response_default g question docs custom_prompt st
             (inr content) w1 (inr tt) w2 Hprompt Hreturn Hprint).
  - intros content e w1 w2 Hprompt Hreturn Hprint.
    exact (generate_response_default g question docs custom_prompt st
             (inr content) w1 (inl e) w2 Hprompt Hreturn Hprint).
Qed.

End GeneratorClaims.

(** ** Namespaces of the searches *)

Section NamespaceFacts.

Import Py Ext HybridRetriever.

Context {W : Type} `{!Outside W}.
Variable config : Config.t.

Ltac unfold_methods :=
  unfold hybrid_search, dense_search, report, recover, _initialize_retriever,
    bind, ret, raise, try_except, invoke, getattr, setattr, gets, modify,
    out_of_fuel.

Ltac ask :=
  match goal with
  | |- context [respond ?c ?w0] =>
      let e := fresh "e" in let v := fresh "v" in let w := fresh "w" in
      destruct (respond c w0) as [[e|v] w]; simpl
  end.

(** The searches among the calls [new] ran in the namespace [ns]. *)
Local Abbreviation searched_in ns new :=
  (Forall (fun e => forall x,
             Observe.search_namespace (entry_call e) = Some x -> x = ns) new).

Ltac in_namespace :=
  rewrite <- ?app_assoc; simpl; eexists; (split; [reflexivity|]);
  repeat (constructor; [simpl; intros ? ?; simplify_eq; auto|]);
  constructor.

(** On a settled retriever, every search runs on a strategy that it holds. *)
Lemma settled_in_namespace (HAS_HYBRID : bool) (n : nat) (query : string)
    (top_k : Z) (alpha : float) (fetch_k : Z) (st : state W t) (ns : string) :
  settled HAS_HYBRID (self st) ->
  bound ns (self st) ->
  exists new,
    log (snd (retrieve HAS_HYBRID config (S n) query top_k alpha fetch_k st))
    = log st ++ new
    /\ searched_in ns new.
Proof.
  intros Hs [Hhybrid Hdense].
  destruct (if HAS_HYBRID then retriever (self st) else None) as [r|] eqn:Hr.
  - destruct HAS_HYBRID; [|discriminate].
    rewrite (retrieve_hybrid config true n query top_k alpha fetch_k st r) by auto.
    specialize (Hhybrid r Hr).
    unfold_methods. simpl. repeat ask; rewrite ?Hr; simpl; repeat ask; in_namespace.
  - destruct (vectorstore (self st)) as [vs|] eqn:Hvs.
    + rewrite (retrieve_dense config _ n query top_k alpha fetch_k st vs) by auto.
      specialize (Hdense vs eq_refl).
      unfold_methods. simpl. repeat ask; in_namespace.
    + exfalso. destruct Hs as [[-> [r Hr']]|[vs Hvs']]; congruence.
Qed.

(** [_initialize_retriever] makes no search, and the strategy it sets is
    built for the namespace that the retriever carries. *)
Lemma initialize_bound (HAS_HYBRID : bool) (st : state W t) :
  exists new,
    log (snd (_initialize_retriever HAS_HYBRID config st)) = log st ++ new
    /\ Forall (fun e => is_search (entry_call e) = false) new
    /\ (fst (_initialize_retriever HAS_HYBRID config st) = Returned tt ->
        bound (namespace (self st))
          (self (snd (_initialize_retriever HAS_HYBRID config st)))).
Proof.
  unfold bound.
  destruct HAS_HYBRID; unfold_methods; simpl; repeat ask;
    rewrite <- ?app_assoc; simpl; eexists; (split; [reflexivity|]);
    (split; [repeat constructor|]); try discriminate;
    intros _; split; intros ? Heq; simplify_eq; reflexivity.
Qed.

Lemma not_search_in (ns : string) (new : list entry) :
  Forall (fun e => is_search (entry_call e) = false) new -> searched_in ns new.
Proof.
  intros H. eapply Forall_impl; [exact H|].
  intros [c r] Hc x. destruct c; simpl in *; discriminate.
Qed.

(** From a retriever whose strategies, if any, were built for the namespace
    it carries, every search of [retrieve] runs in that namespace. *)
Lemma retrieve_in_namespace (HAS_HYBRID : bool) (n : nat) (query : string)
    (top_k : Z) (alpha : float) (fetch_k : Z) (st : state W t) :
  bound (namespace (self st)) (self st) ->
  exists new,
    log (snd (retrieve HAS_HYBRID config (2 + n) query top_k alpha fetch_k st))
    = log st ++ new
    /\ searched_in (namespace (self st)) new.
Proof.
  intros Hbound. change (2 + n)%nat with (S (S n)).
  destruct (if HAS_HYBRID then retriever (self st) else None) as [r|] eqn:Hr;
    [|destruct (vectorstore (self st)) as [vs|] eqn:Hvs].
  - apply settled_in_namespace; [|exact Hbound].
    destruct HAS_HYBRID; [left; eauto | discriminate].
  - apply settled_in_namespace; [right; eauto | exact Hbound].
  - rewrite retrieve_fallback by assumption.
    unfold try_except, bind.
    destruct (initialize_bound HAS_HYBRID st) as (init & Hlog0 & Hinit0 & Hb).
    destruct (_initialize_retriever HAS_HYBRID config st) as [[[]|e|] st1] eqn:Hinit;
      simpl in Hlog0, Hb.
    + pose proof (initialize_returns config HAS_HYBRID st st1 Hinit) as Hone.
      apply exactly_one_settled in Hone.
      destruct (settled_in_namespace HAS_HYBRID n query top_k alpha fetch_k st1
                  (namespace (self st)) Hone (Hb eq_refl))
        as (new & Hlog1 & Hnew1).
      destruct (retrieve HAS_HYBRID config (S n) query top_k alpha fetch_k st1)
        as [[docs|e|] st2]; simpl in Hlog1.
      * exists (init ++ new). simpl. rewrite Hlog1, Hlog0, <- app_assoc.
        split; [reflexivity|]. apply Forall_app. split; [|exact Hnew1].
        now apply not_search_in.
      * unfold recover, bind, invoke, ret.
        destruct (respond (PrintRetrievalError e) (world st2)) as [[e'|[]] w];
          simpl; rewrite Hlog1, Hlog0, <- !app_assoc; eexists;
          (split; [reflexivity|]); rewrite !Forall_app;
          (split; [now apply not_search_in|]); (split; [exact Hnew1|]);
          repeat constructor; discriminate.
      * exists (init ++ new). simpl. rewrite Hlog1, Hlog0, <- app_assoc.
        split; [reflexivity|]. apply Forall_app. split; [|exact Hnew1].
        now apply not_search_in.
    + unfold recover, bind, invoke, ret.
      destruct (respond (PrintRetrievalError e) (world st1)) as [[e'|[]] w];
        simpl; rewrite Hlog0, <- !app_assoc; eexists;
        (split; [reflexivity|]); rewrite !Forall_app;
        (split; [now apply not_search_in|]);
        repeat constructor; discriminate.
    + exists init. simpl. split; [exact Hlog0 | now apply not_search_in].
Qed.

End NamespaceFacts.

(** ** Claims on the service *)

Section ServiceClaims.

Import Py Ext RAGService.

Context {W : Type} `{!Outside W}.
Variable HAS_HYBRID : bool.
Variable config : Config.t.

Lemma generate_only_outcome (question context_text : string)
    (custom_prompt : option string) (st : state W t) :
  exists result st',
    generate_only question context_text custom_prompt st
    = (Returned (<["context_provided" := VBool true]> result), st')
    /\ RAGGenerator.generate_response (generator (self st)) question
         [mkDocument context_text []] custom_prompt st = (Returned result, st').
Proof.
  unfold generate_only, try_except, bind, getattr, gets. simpl.
  destruct (generate_response_outcome (generator (self st)) question
              [mkDocument context_text []] custom_prompt st)
    as (result & st' & E & _).
  rewrite E. unfold ret. eauto.
Qed.

Lemma generate_only_answers (question context_text : string)
    (custom_prompt : option string) (st : state W t) (content : string)
    (w1 w2 : W) :
  truthy custom_prompt = false ->
  respond (ChainInvoke (RAGGenerator.prompt_template (generator (self st)))
             (RAGGenerator.llm (generator (self st)))
             (RAGGenerator._prepare_context [mkDocument context_text []]) question)
    (world st) = (inr content, w1) ->
  respond PrintGeneration w1 = (inr tt, w2) ->
  exists result st',
    generate_only question context_text custom_prompt st = (Returned result, st')
    /\ result !! "status" = Some (VStr "success")
    /\ result !! "answer" = Some (VStr content).
Proof.
  intros Hprompt Hanswer Hprint.
  unfold generate_only, RAGGenerator.generate_response, try_except, bind,
    getattr, gets, invoke, ret.
  cbv zeta. rewrite Hprompt.
  set (context := RAGGenerator._prepare_context [mkDocument context_text []]) in *.
  clearbody context. simpl. rewrite Hanswer. simpl. rewrite Hprint. simpl.
  do 2 eexists. split; [reflexivity|]. split; reflexivity.
Qed.

(** C9: [generate_only] on the empty context text composes the context
    ["Document 1:\n\n"], the block of one empty document, which is neither
    the sentinel nor the empty string, and returns a payload marked
    [context_provided].  The payload has status [success], with
    [context_used] 1, whenever the calls made return, the last two being the
    model invocation on that context and the print of the timing line; it
    has status [error] only if a call raised.  In particular, with the
    default prompt, if the model answers and the print returns, the status
    is [success]. *)
Theorem generate_only_empty_context (question : string)
    (custom_prompt : option string) (st : state W t) :
  let context := "Document 1:" +:+ Str.nl +:+ Str.nl in
  let g := generator (self st) in
  RAGGenerator._prepare_context [mkDocument "" []] = context
  /\ context <> Composer.sentinel
  /\ context <> ""
  /\ (exists result st',
        generate_only question "" custom_prompt st = (Returned result, st')
        /\ result !! "context_provided" = Some (VBool true)
        /\ ((exists before prompt content,
                log st' = before
                          ++ [Called (ChainInvoke prompt (RAGGenerator.llm g) context question)
                                (inr content);
                              Called PrintGeneration (inr tt)]
                /\ result !! "status" = Some (VStr "success")
                /\ result !! "answer" = Some (VStr content)
                /\ result !! "context_used" = Some (VInt 1))
            \/ (exists before c e,
                  log st' = before ++ [Called c (inl e)]
                  /\ result !! "status" = Some (VStr "error")
                  /\ result !! "message" = Some (VStr (exn_msg e)))))
  /\ (forall content w1 w2,
        truthy custom_prompt = false ->
        respond (ChainInvoke (RAGGenerator.prompt_template g) (RAGGenerator.llm g)
                   context question) (world st) = (inr content, w1) ->
        respond PrintGeneration w1 = (inr tt, w2) ->
        exists result st',
          generate_only question "" custom_prompt st = (Returned result, st')
          /\ result !! "status" = Some (VStr "success")
          /\ result !! "answer" = Some (VStr content)).
Proof.
  intros context g.
  split; [reflexivity|]. split; [discriminate|]. split; [discriminate|]. split.
  - destruct (generate_only_outcome question "" custom_prompt st)
      as (result & st' & E & Egen).
    destruct (generate_response_outcome g question [mkDocument "" []] custom_prompt st)
      as (result' & st'' & Egen' & Hgen).
    fold g in Egen. rewrite Egen in Egen'. inversion Egen'; subst result' st''.
    exists (<["context_provided" := VBool true]> result), st'.
    split; [exact E|]. split; [apply lookup_insert_eq|].
    destruct Hgen as [(before & prompt & content & Hlog & Hs & Ha & Hc)
                     |(before & c & e & Hlog & Hs & Hm & _)].
    + left. exists before, prompt, content.
      rewrite !lookup_insert_ne by discriminate. auto.
    + right. exists before, c, e.
      rewrite !lookup_insert_ne by discriminate. auto.
  - intros content w1 w2 Hprompt Hanswer Hprint.
    exact (generate_only_answers question "" custom_prompt st content w1 w2
             Hprompt Hanswer Hprint).
Qed.

(** Retrieval as run by the service: it ends, leaves the generator and the
    namespace of the service as they are, and logs no call of the
    generator. *)
Lemma service_retrieve (n : nat) (question : string) (top_k : Z) (alpha : float)
    (st : state W t) :
  exists r st1 new,
    with_retriever
      (HybridRetriever.retrieve HAS_HYBRID config (2 + n) question top_k alpha 20) st
    = (r, st1)
    /\ generator (self st1) = generator (self st)
    /\ namespace (self st1) = namespace (self st)
    /\ log st1 = log st ++ new
    /\ ended r new
    /\ Forall (fun e => is_generator_call (entry_call e) = false) new.
Proof.
  unfold with_retriever, on_attr.
  set (st0 := State (retriever (self st)) (world st) (log st)).
  destruct (retrieve_two_levels config HAS_HYBRID n question top_k alpha 20 st0)
    as [E (r & st' & new & E2 & Hlog & Hend & Hnew)].
  rewrite E, E2.
  exists r. do 2 eexists. split; [reflexivity|]. simpl.
  split; [reflexivity|]. split; [reflexivity|].
  split; [exact Hlog|]. split; [exact Hend|].
  eapply Forall_impl; [exact Hnew|]. intros e. unfold retrieval_call.
  destruct (is_generator_call (entry_call e)); [discriminate | reflexivity].
Qed.

(** The searches of a retrieval run by an aligned service. *)
Lemma service_searches (n : nat) (question : string) (top_k : Z) (alpha : float)
    (st : state W t) :
  aligned (self st) ->
  exists new,
    log (snd (with_retriever
                (HybridRetriever.retrieve HAS_HYBRID config (2 + n) question
                   top_k alpha 20) st))
    = log st ++ new
    /\ Forall (fun e => forall x,
                 Observe.search_namespace (entry_call e) = Some x ->
                 x = namespace (self st)) new.
Proof.
  intros [Hns Hbound]. unfold with_retriever, on_attr.
  set (st0 := State (retriever (self st)) (world st) (log st)).
  destruct (retrieve_in_namespace config HAS_HYBRID n question top_k alpha 20 st0)
    as (new & Hlog & Hnew).
  { simpl. now rewrite Hns. }
  destruct (HybridRetriever.retrieve HAS_HYBRID config (2 + n) question top_k
              alpha 20 st0) as [r st']. simpl in *.
  exists new. split; [exact Hlog|]. now rewrite <- Hns.
Qed.

(** The generator leaves the service as it is. *)
Lemma generate_response_self (g : RAGGenerator.t) (question : string)
    (docs : list Document) (custom_prompt : option string) (st : state W t) :
  self (snd (RAGGenerator.generate_response g question docs custom_prompt st))
  = self st.
Proof.
  unfold RAGGenerator.generate_response, try_except, bind, invoke, ret.
  destruct (truthy custom_prompt); simpl;
    repeat (match goal with
            | |- context [respond ?c ?w0] =>
                destruct (respond c w0) as [[?|?] ?]; simpl
            end); reflexivity.
Qed.

(** What either way of generating gives back. *)
Lemma generate_either (include_sources : bool) (g : RAGGenerator.t)
    (question : string) (docs : list Document) (custom_prompt : option string)
    (st : state W t) :
  exists result st',
    (if include_sources
     then RAGGenerator.generate_with_sources g question docs custom_prompt
     else RAGGenerator.generate_response g question docs custom_prompt) st
    = (Returned result, st')
    /\ self st' = self st
    /\ is_Some (result !! "answer")
    /\ is_Some (result !! "context_used")
    /\ (result !! "status" = Some (VStr "success")
        \/ (result !! "status" = Some (VStr "error")
            /\ exists message, result !! "message" = Some (VStr message))).
Proof.
  pose proof (generate_response_self g question docs custom_prompt st) as Hself.
  destruct (generate_response_outcome g question docs custom_prompt st)
    as (result & st' & E & Hgen).
  rewrite E in Hself. simpl in Hself.
  destruct include_sources.
  - unfold RAGGenerator.generate_with_sources, try_except, bind. rewrite E.
    destruct Hgen as [(? & ? & ? & _ & Hs & Ha & Hc)|(? & ? & ? & _ & Hs & Hm & Ha & Hc)];
      rewrite Hs; simpl; unfold ret; do 2 eexists; (split; [reflexivity|]);
      (split; [exact Hself|]).
    + rewrite !lookup_insert_ne by discriminate. rewrite Ha, Hc, Hs. eauto.
    + rewrite Ha, Hc, Hs, Hm. eauto 6.
  - exists result, st'. split; [exact E|]. split; [exact Hself|].
    destruct Hgen as [(? & ? & ? & _ & Hs & Ha & Hc)|(? & ? & ? & _ & Hs & Hm & Ha & Hc)];
      rewrite Ha, Hc, Hs, ?Hm; eauto 6.
Qed.

(** C4: [query] first retrieves, which makes no call of the generator; when
    service and retriever agree, every search that this makes runs in the
    namespace of the service.  If no document comes back, [query] returns at
    once, in the state that retrieval left, the payload with status
    [warning] (which is not [error]), the canned answer and [context_used]
    0.  If documents come back, it returns the payload of the generator,
    with or without sources, after setting in it [retrieved_docs_count] to
    the number of retrieved documents, [search_alpha], and [namespace] to
    the namespace of the service.  If retrieval raises, which only the print
    of its error line can make it do, [query] returns the error payload of
    that exception. *)
Theorem query_short_circuits (n : nat) (question : string) (top_k : Z)
    (alpha : float) (include_sources : bool) (custom_prompt : option string)
    (st : state W t) :
  exists r st1 new,
    with_retriever
      (HybridRetriever.retrieve HAS_HYBRID config (2 + n) question top_k alpha 20) st
    = (r, st1)
    /\ log st1 = log st ++ new
    /\ Forall (fun e => is_generator_call (entry_call e) = false) new
    /\ (aligned (self st) ->
        Forall (fun e => forall x,
                  Observe.search_namespace (entry_call e) = Some x ->
                  x = namespace (self st)) new)
    /\ match r with
       | Returned [] =>
           query HAS_HYBRID config (2 + n) question top_k alpha include_sources
             custom_prompt st = (Returned no_documents, st1)
           /\ no_documents !! "status" = Some (VStr "warning")
           /\ no_documents !! "status" <> Some (VStr "error")
           /\ no_documents !! "answer"
              = Some (VStr "I couldn't find any relevant information to answer your question.")
           /\ no_documents !! "context_used" = Some (VInt 0)
       | Returned ((_ :: _) as docs) =>
           exists result st2 final,
             (if include_sources
              then RAGGenerator.generate_with_sources (generator (self st))
                     question docs custom_prompt
              else RAGGenerator.generate_response (generator (self st))
                     question docs custom_prompt) st1 = (Returned result, st2)
             /\ query HAS_HYBRID config (2 + n) question top_k alpha include_sources
                  custom_prompt st = (Returned final, st2)
             /\ final = <["namespace" := VStr (namespace (self st))]>
                        (<["search_alpha" := VFloat alpha]>
                        (<["retrieved_docs_count" := VInt (Z.of_nat (length docs))]>
                         result))
             /\ final !! "retrieved_docs_count" = Some (VInt (Z.of_nat (length docs)))
             /\ final !! "namespace" = Some (VStr (namespace (self st)))
       | Raised e =>
           (exists before caught,
               new = before ++ [Called (PrintRetrievalError caught) (inl e)])
           /\ exists payload,
               query HAS_HYBRID config (2 + n) question top_k alpha include_sources
                 custom_prompt st = (Returned payload, st1)
               /\ payload !! "status" = Some (VStr "error")
               /\ payload !! "message" = Some (VStr (exn_msg e))
       | OutOfFuel => False
       end.
Proof.
  destruct (service_retrieve n question top_k alpha st)
    as (r & st1 & new & E & Hg & Hns & Hlog & Hend & Hnew).
  exists r, st1, new. split; [exact E|]. split; [exact Hlog|].
  split; [exact Hnew|]. split.
  { intros Haligned.
    destruct (service_searches n question top_k alpha st Haligned)
      as (new' & Hlog' & Hnew').
    rewrite E in Hlog'. simpl in Hlog'. rewrite Hlog in Hlog'.
    apply app_inv_head in Hlog'. now subst new'. }
  destruct r as [[|d ds]|e|]; [| | |exact Hend].
  - unfold query, try_except, bind. rewrite E.
    split; [reflexivity|]. repeat split; try reflexivity. discriminate.
  - unfold query, try_except, bind, getattr, gets. rewrite E, Hg.
    destruct (generate_either include_sources (generator (self st)) question
                (d :: ds) custom_prompt st1)
      as (result & st2 & Egen & Hself & _).
    exists result, st2. eexists. split; [exact Egen|].
    cbn beta iota. rewrite Egen. simpl. rewrite Hself, Hns. unfold ret.
    split; [reflexivity|]. split; [reflexivity|].
    split; [|apply lookup_insert_eq].
    rewrite lookup_insert_ne by discriminate.
    rewrite lookup_insert_ne by discriminate.
    apply lookup_insert_eq.
  - split; [exact Hend|].
    unfold query, try_except, bind. rewrite E. unfold ret.
    eexists. split; [reflexivity|]. split; reflexivity.
Qed.

End ServiceClaims.

(** ** Claims on the vector store *)

Section VectorStoreClaims.

Import Py Ext VectorStore.

Context {W : Type} `{!Outside W}.
Variable config : Config.t.

Ltac unfold_methods :=
  unfold _initialize_pinecone, bind, ret, raise, try_except, invoke, getattr,
    setattr, gets, modify.

Ltac ask :=
  match goal with
  | |- context [respond ?c ?w0] =>
      let e := fresh "e" in let v := fresh "v" in let w := fresh "w" in
      destruct (respond c w0) as [[e|v] w] eqn:?; simpl
  end.

Local Abbreviation name := (Config.PINECONE_INDEX_NAME config).
Local Abbreviation client := (mkPinecone (Config.PINECONE_API_KEY config)).
Local Abbreviation dim :=
  (if Str.contains "3-small" (Config.OPENAI_EMBEDDING_MODEL config)
   then 1536 else 3072).
Local Abbreviation resolved :=
  (truthy (Config.PINECONE_CLOUD config) && truthy (Config.PINECONE_REGION config)).

(** The last two steps of [_initialize_pinecone]. *)
Local Abbreviation open_index :=
  (bind (invoke (GetIndex client name))
     (fun _ => setattr (set_index (Some (mkIndex client name))))).

(** The state once the client is built and the indexes are listed. *)
Local Abbreviation listed_state st w2 names :=
  (State (set_pc (Some client) (self st)) w2
     (log st ++ [Called (NewPinecone (Config.PINECONE_API_KEY config)) (inr tt);
                 Called (ListIndexes client) (inr names)])).

Lemma initialize_present (st : state W t) (w1 w2 : W) (names : list string) :
  respond (NewPinecone (Config.PINECONE_API_KEY config)) (world st) = (inr tt, w1) ->
  respond (ListIndexes client) w1 = (inr names, w2) ->
  name ∈ names ->
  _initialize_pinecone config st = open_index (listed_state st w2 names).
Proof.
  intros Hnew Hlist Hin. unfold_methods. simpl. rewrite Hnew. simpl.
  rewrite Hlist. simpl.
  destruct (decide (name ∈ (list_to_set names : gset string))) as [_|Hout];
    [|exfalso; apply Hout; now apply elem_of_list_to_set].
  simpl. rewrite app_cons_assoc. reflexivity.
Qed.

Lemma initialize_absent_unresolved (st : state W t) (w1 w2 : W) (names : list string) :
  respond (NewPinecone (Config.PINECONE_API_KEY config)) (world st) = (inr tt, w1) ->
  respond (ListIndexes client) w1 = (inr names, w2) ->
  name ∉ names ->
  resolved = false ->
  _initialize_pinecone config st = (Raised not_configured, listed_state st w2 names).
Proof.
  intros Hnew Hlist Hout Hres. unfold_methods. simpl. rewrite Hnew. simpl.
  rewrite Hlist. simpl.
  destruct (decide (name ∈ (list_to_set names : gset string))) as [Hin|_];
    [exfalso; apply Hout; now apply elem_of_list_to_set in Hin|].
  apply andb_false_iff in Hres.
  destruct (truthy (Config.PINECONE_CLOUD config)),
    (truthy (Config.PINECONE_REGION config));
    simpl; rewrite ?app_cons_assoc; try reflexivity; destruct Hres; discriminate.
Qed.

Lemma initialize_absent_resolved (st : state W t) (w1 w2 : W) (names : list string) :
  respond (NewPinecone (Config.PINECONE_API_KEY config)) (world st) = (inr tt, w1) ->
  respond (ListIndexes client) w1 = (inr names, w2) ->
  name ∉ names ->
  resolved = true ->
  _initialize_pinecone config st
  = bind (invoke (CreateIndex client name dim "cosine"
                    (default "" (Config.PINECONE_CLOUD config))
                    (default "" (Config.PINECONE_REGION config))))
      (fun _ => open_index) (listed_state st w2 names).
Proof.
  intros Hnew Hlist Hout Hres. unfold_methods. simpl. rewrite Hnew. simpl.
  rewrite Hlist. simpl.
  destruct (decide (name ∈ (list_to_set names : gset string))) as [Hin|_];
    [exfalso; apply Hout; now apply elem_of_list_to_set in Hin|].
  apply andb_true_iff in Hres as [-> ->]. simpl.
  rewrite ?app_cons_assoc. reflexivity.
Qed.

Lemma initialize_leaves_listed (st st1 : state W t) :
  service_keeps_indexes config ->
  _initialize_pinecone config st = (Returned tt, st1) -> listed config (world st1).
Proof.
  intros (Hkeep & Hcreate & Hseen). unfold_methods. simpl.
  ask; [discriminate|]. ask; [discriminate|].
  destruct (decide (name ∈ (list_to_set v0 : gset string))) as [Hin|Hout]; simpl.
  - apply elem_of_list_to_set in Hin.
    ask; intros Heq; inversion Heq; subst; simpl; eauto.
  - destruct (negb _ || negb _); simpl; [discriminate|].
    ask; [discriminate|]. destruct v1.
    ask; intros Heq; inversion Heq; subst; simpl; eauto.
Qed.

Lemma initialize_listed_no_create (st : state W t) :
  service_keeps_indexes config ->
  listed config (world st) ->
  exists new,
    log (snd (_initialize_pinecone config st)) = log st ++ new
    /\ Forall (fun e => is_create_index (entry_call e) = false) new.
Proof.
  intros (Hkeep & _ & _) Hlisted. unfold_methods. simpl.
  ask; [eexists; split; [reflexivity | repeat constructor]|].
  assert (listed config w) as Hw by eauto.
  ask; [rewrite app_cons_assoc; eexists; split; [reflexivity | repeat constructor]|].
  destruct (decide (name ∈ (list_to_set v0 : gset string))) as [_|Hout];
    [|exfalso; apply Hout, elem_of_list_to_set; eauto].
  simpl. ask; rewrite !app_cons_assoc; eexists;
    (split; [reflexivity | repeat constructor]).
Qed.

(** Whatever the services do, a [CreateIndex] call is made only after a
    listing that lacks the index, and only with a cloud and a region. *)
Lemma initialize_creates_if_absent (st : state W t) :
  exists new,
    log (snd (_initialize_pinecone config st)) = log st ++ new
    /\ (Exists (fun e => is_create_index (entry_call e) = true) new ->
        exists w1 names w2,
          respond (NewPinecone (Config.PINECONE_API_KEY config)) (world st) = (inr tt, w1)
          /\ respond (ListIndexes client) w1 = (inr names, w2)
          /\ (name ∉ names)
          /\ resolved = true).
Proof.
  assert (Hno : forall l : list entry,
             forallb (fun e => negb (is_create_index (entry_call e))) l = true ->
             Exists (fun e => is_create_index (entry_call e) = true) l -> False).
  { intros l Hall Hex. apply Exists_exists in Hex as (e & Hin & He).
    rewrite forallb_forall in Hall. apply list_elem_of_In in Hin.
    specialize (Hall e Hin). rewrite He in Hall. discriminate. }
  unfold_methods. simpl.
  ask; [eexists; split; [reflexivity|]; intros Hex; exfalso;
        revert Hex; apply Hno; reflexivity|].
  ask; [rewrite app_cons_assoc; eexists; split; [reflexivity|]; intros Hex;
        exfalso; revert Hex; apply Hno; reflexivity|].
  destruct v.
  destruct (decide (name ∈ (list_to_set v0 : gset string))) as [Hin|Hout]; simpl.
  - ask; rewrite !app_cons_assoc; eexists; (split; [reflexivity|]); intros Hex;
      exfalso; revert Hex; apply Hno; reflexivity.
  - destruct (truthy (Config.PINECONE_CLOUD config)) eqn:Hcloud,
      (truthy (Config.PINECONE_REGION config)) eqn:Hregion; simpl;
      try (rewrite !app_cons_assoc; eexists; (split; [reflexivity|]); intros Hex;
           exfalso; revert Hex; apply Hno; reflexivity).
    assert (name ∉ v0) as Habsent
      by (intros Hin; apply Hout, elem_of_list_to_set; exact Hin).
    ask; [|ask]; rewrite !app_cons_assoc; eexists; (split; [reflexivity|]);
      intros _; exists w, v0, w0; auto.
Qed.

(** C8: a [CreateIndex] call is only ever made after a listing that lacks
    the index.  Once the client is built and the indexes are listed,
    [_initialize_pinecone] makes no [CreateIndex] call when the index is
    among them and goes on to open it; when the index is absent and the
    cloud or the region is missing or empty it raises the [ValueError] at
    once, with no call after the listing and nothing created; when the index
    is absent and both are set it creates the index, with the dimension of
    the embedding model and the cosine metric, and then opens it.  And if
    the service keeps its indexes, a run that follows a run that returned
    creates nothing. *)
Theorem initialize_pinecone_idempotent (st : state W t) :
  (exists new,
      log (snd (_initialize_pinecone config st)) = log st ++ new
      /\ (Exists (fun e => is_create_index (entry_call e) = true) new ->
          exists w1 names w2,
            respond (NewPinecone (Config.PINECONE_API_KEY config)) (world st) = (inr tt, w1)
            /\ respond (ListIndexes client) w1 = (inr names, w2)
            /\ (name ∉ names)
            /\ resolved = true))
  /\ (forall w1 w2 names,
      respond (NewPinecone (Config.PINECONE_API_KEY config)) (world st) = (inr tt, w1) ->
      respond (ListIndexes client) w1 = (inr names, w2) ->
      (name ∈ names ->
       _initialize_pinecone config st = open_index (listed_state st w2 names))
      /\ (name ∉ names -> resolved = false ->
          _initialize_pinecone config st
          = (Raised not_configured, listed_state st w2 names))
      /\ (name ∉ names -> resolved = true ->
          _initialize_pinecone config st
          = bind (invoke (CreateIndex client name dim "cosine"
                            (default "" (Config.PINECONE_CLOUD config))
                            (default "" (Config.PINECONE_REGION config))))
              (fun _ => open_index) (listed_state st w2 names)))
  /\ (service_keeps_indexes config ->
      forall st1,
        _initialize_pinecone config st = (Returned tt, st1) ->
        exists new,
          log (snd (_initialize_pinecone config st1)) = log st1 ++ new
          /\ Forall (fun e => is_create_index (entry_call e) = false) new).
Proof.
  split; [apply initialize_creates_if_absent | split].
  - intros w1 w2 names Hnew Hlist. split; [|split].
    + now apply initialize_present with w1.
    + now apply initialize_absent_unresolved with w1.
    + now apply initialize_absent_resolved with w1.
  - intros Hlaws st1 Hrun.
    apply initialize_listed_no_create; [exact Hlaws|].
    exact (initialize_leaves_listed st st1 Hlaws Hrun).
Qed.

End VectorStoreClaims.

(** ** The claims at the sample inputs *)

Section Witnesses.

Import Py Ext.

Example sample_config_loaded : Config.load Sample.env = Sample.config.
Proof. vm_compute. reflexivity. Qed.

(** [HybridRetriever("default")] without the hybrid capability. *)
Example dense_retriever_built :
  fst (HybridRetriever.__init__ false Sample.config "default"
         (State HybridRetriever.blank Sample.up [])) = Returned tt
  /\ self (snd (HybridRetriever.__init__ false Sample.config "default"
                  (State HybridRetriever.blank Sample.up [])))
     = Sample.dense_retriever.
Proof. split; reflexivity. Qed.

(** A query on a namespace that holds no vector. *)
Example query_empty_namespace :
  fst (RAGService.query false Sample.config 2 "What is ATP?" 5 0.5%float false None
         (State Sample.service Sample.empty_namespace []))
  = Returned RAGService.no_documents.
Proof. reflexivity. Qed.

(** A query that finds the two stored documents. *)
Example query_two_documents :
  exists result st',
    RAGService.query false Sample.config 2 "What is ATP?" 5 0.5%float true None
      (State Sample.service Sample.up []) = (Returned result, st')
    /\ result !! "status" = Some (VStr "success")
    /\ result !! "answer" = Some (VStr "An explanation.")
    /\ result !! "context_used" = Some (VInt 2)
    /\ result !! "retrieved_docs_count" = Some (VInt 2)
    /\ result !! "namespace" = Some (VStr "default").
Proof. do 2 eexists. split; [reflexivity|]. repeat split; reflexivity. Qed.

Example no_location_loaded :
  Config.load (delete "PINECONE_ENVIRONMENT" Sample.env) = Sample.config_no_location.
Proof. vm_compute. reflexivity. Qed.

(** With every dense search and the standard output down, the exception
    of the error print leaves [retrieve]. *)
Lemma retrieve_can_raise :
  HybridRetriever.retrieve false Sample.config 2 "What is ATP?" 5 0.5%float 20
    (State Sample.dense_retriever Sample.dense_broken_mute [])
  = (Raised Sample.unprintable,
     State Sample.dense_retriever Sample.dense_broken_mute
       [Called (MaxMarginalRelevanceSearch Sample.dense "What is ATP?" 5 20)
          (inl Sample.unavailable);
        Called (SimilaritySearch Sample.dense "What is ATP?" 5)
          (inl Sample.unavailable);
        Called (PrintRetrievalError Sample.unavailable) (inl Sample.unprintable)]).
Proof. reflexivity. Qed.

(** With every dense search down and the standard output up. *)
Lemma retrieve_raises_only_from_print_witness :
  fst (HybridRetriever.retrieve false Sample.config 2 "What is ATP?" 5 0.5%float 20
         (State Sample.dense_retriever Sample.dense_broken []))
  = Returned [].
Proof.
  destruct (retrieve_raises_only_from_print Sample.config false 0 "What is ATP?" 5
              0.5%float 20 (State Sample.dense_retriever Sample.dense_broken []))
    as (r & st' & new & E & Hlog & _ & Hreturns & _).
  assert (st' = snd (HybridRetriever.retrieve false Sample.config 2 "What is ATP?" 5
                       0.5%float 20
                       (State Sample.dense_retriever Sample.dense_broken [])))
    as -> by (change (2 + 0)%nat with 2%nat in E; now rewrite E).
  change (2 + 0)%nat with 2%nat in E. rewrite E. simpl in Hlog |- *.
  subst new. eapply (Hreturns [_; _]). reflexivity.
Defined.

Lemma retrieve_recurses_at_most_once_witness :
  let st' := snd (HybridRetriever._initialize_retriever true Sample.config
                    (State HybridRetriever.blank Sample.up [])) in
  is_Some (HybridRetriever.retriever (self st'))
  /\ HybridRetriever.vectorstore (self st') = None.
Proof.
  destruct (retrieve_recurses_at_most_once (W := Sample.world) Sample.config true)
    as (_ & H & _).
  exact (H (State HybridRetriever.blank Sample.up []) _ eq_refl).
Defined.

Lemma retrieve_dense_only_witness :
  fst (HybridRetriever.retrieve false Sample.config 1 "What is ATP?" 1 0.5%float 20
         (State Sample.dense_retriever Sample.mmr_broken []))
  = Returned [Sample.doc1].
Proof.
  destruct (retrieve_dense_only Sample.config 0 "What is ATP?" 1 0.5%float 20
              (State Sample.dense_retriever Sample.mmr_broken []))
    as [_ H].
  pose proof (H Sample.dense eq_refl) as Hdense. cbv zeta in Hdense.
  destruct Hdense as [Hrun _]. rewrite Hrun. reflexivity.
Defined.

(** The model answers, the standard output refuses the timing line: the
    payload has status [error]. *)
Lemma generate_response_print_failure :
  RAGGenerator.generate_response Sample.generator "What is ATP?" [Sample.doc1] None
    (State tt Sample.mute [])
  = (Returned (<["status" := VStr "error"]>
               (<["message" := VStr (exn_msg Sample.unprintable)]>
               (<["answer" := VNone]>
               (<["context_used" := VInt 0]>
               (<["question" := VStr "What is ATP?"]> ∅))))),
     State tt Sample.mute
       [Called (ChainInvoke (RAGGenerator.prompt_template Sample.generator)
                  (RAGGenerator.llm Sample.generator)
                  (RAGGenerator._prepare_context [Sample.doc1]) "What is ATP?")
          (inr "An explanation.");
        Called PrintGeneration (inl Sample.unprintable)]).
Proof. reflexivity. Qed.

Lemma generate_response_outcomes_witness :
  exists result st',
    RAGGenerator.generate_response Sample.generator "What is ATP?" [Sample.doc1] None
      (State tt Sample.llm_broken [])
    = (Returned result, st')
    /\ result !! "status" = Some (VStr "error")
    /\ result !! "message" = Some (VStr "service unavailable")
    /\ result !! "answer" = Some VNone
    /\ result !! "context_used" = Some (VInt 0).
Proof.
  destruct (generate_response_outcomes Sample.generator "What is ATP?"
              [Sample.doc1] None (State tt Sample.llm_broken []))
    as (_ & H & _).
  apply (H Sample.unavailable Sample.llm_broken); reflexivity.
Defined.

(** The context that [generate_only] composes from the empty text and hands
    to the model is not the sentinel. *)
Lemma generate_only_context_not_sentinel :
  snd (RAGService.generate_only "What is X?" "" None
         (State Sample.service Sample.up []))
  = State Sample.service Sample.up
      [Called (ChainInvoke (RAGGenerator.prompt_template Sample.generator)
                 (RAGGenerator.llm Sample.generator)
                 ("Document 1:" +:+ Str.nl +:+ Str.nl) "What is X?")
         (inr "An explanation.");
       Called PrintGeneration (inr tt)]
  /\ "Document 1:" +:+ Str.nl +:+ Str.nl <> Composer.sentinel.
Proof. split; [reflexivity | discriminate]. Qed.

Lemma generate_only_empty_context_witness :
  exists result st',
    RAGService.generate_only "What is X?" "" None (State Sample.service Sample.up [])
    = (Returned result, st')
    /\ result !! "status" = Some (VStr "success")
    /\ result !! "answer" = Some (VStr "An explanation.").
Proof.
  destruct (generate_only_empty_context "What is X?" None
              (State Sample.service Sample.up []))
    as (_ & _ & _ & _ & H).
  apply (H "An explanation." Sample.up Sample.up); reflexivity.
Defined.

(** A switch to the namespace [papers] that fails when the Pinecone client
    is built leaves the service on [papers] and the retriever with the
    vector store of [default].  The query that follows searches in
    [default] and reports [papers]. *)
Lemma query_reports_other_namespace :
  let st0 := State Sample.service Cases.pinecone_broken [] in
  let st :=
    State (RAGService.mk
             (HybridRetriever.set_namespace "papers" Sample.dense_retriever)
             Sample.generator "papers")
      Cases.pinecone_broken
      [Called (NewPinecone (Some "pc-test")) (inl Sample.unavailable)] in
  RAGService.change_namespace false Sample.config "papers" st0
  = (Raised Sample.unavailable, st)
  /\ vs_namespace Sample.dense = "default"
  /\ exists payload st',
      RAGService.query false Sample.config 2 "What is ATP?" 5 0.5%float false None st
      = (Returned payload, st')
      /\ payload !! "status" = Some (VStr "success")
      /\ payload !! "retrieved_docs_count" = Some (VInt 2)
      /\ payload !! "namespace" = Some (VStr "papers")
      /\ log st'
         = log st
           ++ [Called (MaxMarginalRelevanceSearch Sample.dense "What is ATP?" 5 20)
                 (inr [Sample.doc1; Sample.doc2]);
               Called (PrintRetrieval "What is ATP?" 5 0.5%float 20) (inr tt);
               Called (ChainInvoke (RAGGenerator.prompt_template Sample.generator)
                         (RAGGenerator.llm Sample.generator)
                         (RAGGenerator._prepare_context [Sample.doc1; Sample.doc2])
                         "What is ATP?")
                 (inr "An explanation.");
               Called PrintGeneration (inr tt)].
Proof.
  split; [reflexivity|]. split; [reflexivity|].
  do 2 eexists. split; [reflexivity|]. repeat split; reflexivity.
Qed.

Lemma sample_listed (w : Sample.world) :
  VectorStore.listed Sample.config w <-> "rag-index" ∈ Sample.indexes w.
Proof.
  unfold VectorStore.listed. simpl. split.
  - intros H. exact (H _ _ eq_refl).
  - intros H names w' Heq. inversion Heq; subst. exact H.
Qed.

Lemma sample_keeps_indexes :
  VectorStore.service_keeps_indexes (W := Sample.world) Sample.config.
Proof.
  split; [|split].
  - intros w c r w' Hw Hcall. apply sample_listed. apply sample_listed in Hw.
    destruct c; simpl in Hcall; inversion Hcall; subst; simpl; try exact Hw.
    now right.
  - intros w dimension metric cloud region w' Hcall. apply sample_listed.
    simpl in Hcall. inversion Hcall; subst; simpl. now left.
  - intros w names w' Hcall Hin. apply sample_listed.
    simpl in Hcall. inversion Hcall; subst. exact Hin.
Qed.

Lemma initialize_pinecone_idempotent_witness :
  VectorStore._initialize_pinecone Sample.config_no_location
    (State VectorStore.blank Sample.up [])
  = (Raised VectorStore.not_configured,
     State (VectorStore.set_pc (Some (mkPinecone (Some "pc-test"))) VectorStore.blank)
       Sample.up
       [Called (NewPinecone (Some "pc-test")) (inr tt);
        Called (ListIndexes (mkPinecone (Some "pc-test"))) (inr [])])
  /\ exists new,
      log (snd (VectorStore._initialize_pinecone Sample.config
                  (snd (VectorStore._initialize_pinecone Sample.config
                          (State VectorStore.blank Sample.up [])))))
      = log (snd (VectorStore._initialize_pinecone Sample.config
                    (State VectorStore.blank Sample.up []))) ++ new
      /\ Forall (fun e => is_create_index (entry_call e) = false) new.
Proof.
  split.
  - destruct (initialize_pinecone_idempotent Sample.config_no_location
                (State VectorStore.blank Sample.up [])) as (_ & H & _).
    destruct (H Sample.up Sample.up [] eq_refl eq_refl) as (_ & Hfail & _).
    apply Hfail; [apply not_elem_of_nil | reflexivity].
  - destruct (initialize_pinecone_idempotent Sample.config
                (State VectorStore.blank Sample.up [])) as (_ & _ & H).
    apply (H sample_keeps_indexes). reflexivity.
Defined.

End Witnesses.

(** * Further properties of the code *)

(** ** The composer on documents that fit, and what never reaches the prompt *)

Section ComposerMore.

Import Composer.

Lemma loop_fits (docs : list Document) :
  forall (i : nat) (used : Z) (parts : list string),
    used + Z.of_nat (list_sum (map String.length (Rendering.blocks i docs)))
    <= max_total_chars ->
    loop docs i used parts
    = (used + Z.of_nat (list_sum (map String.length (Rendering.blocks i docs))),
       parts ++ Rendering.blocks i docs).
Proof.
  induction docs as [|doc rest IH]; intros i used parts Hfit;
    cbn [loop Rendering.blocks map] in *.
  - rewrite app_nil_r. simpl. now rewrite Z.add_0_r.
  - change (list_sum (String.length (block i doc)
                      :: map String.length (Rendering.blocks (S i) rest)))
      with (String.length (block i doc)
            + list_sum (map String.length (Rendering.blocks (S i) rest)))%nat in *.
    set (tail := list_sum (map String.length (Rendering.blocks (S i) rest))) in *.
    pose proof (len_block i doc) as Hblock. unfold Str.len in Hblock.
    destruct (Z.leb_spec max_total_chars used) as [Hstop|Hgo]; [exfalso; lia|].
    cbv zeta.
    assert (chunk_of i doc used = block i doc) as ->
      by (apply trim_fits; unfold Str.len; lia).
    rewrite IH by (unfold Str.len; fold tail; lia).
    rewrite <- app_assoc. f_equal. unfold Str.len. fold tail. lia.
Qed.

(** X1: when the blocks of all the documents add up to no more than
    [max_total_chars], nothing is cut and nothing is dropped: the context is
    the blocks of the documents, numbered from 1 in their order, joined by
    newlines. *)
Theorem prepare_context_fits (d : Document) (ds : list Document) :
  Z.of_nat (list_sum (map String.length (Rendering.blocks 1 (d :: ds))))
  <= max_total_chars ->
  _prepare_context (d :: ds) = Str.join Str.nl (Rendering.blocks 1 (d :: ds)).
Proof.
  intros Hfit. unfold _prepare_context.
  rewrite loop_fits by (rewrite Z.add_0_l; exact Hfit). reflexivity.
Qed.

Lemma length_lstrip (s : string) :
  (String.length (Str.lstrip s) <= String.length s)%nat.
Proof.
  induction s as [|c s IH]; simpl; [lia|].
  destruct (Str.isspace c); simpl; lia.
Qed.

(** X2: the content rendered for one document never has more than
    [per_doc_max + 3] characters: stripped content of at most [per_doc_max]
    characters is kept whole, longer content is cut to [per_doc_max]
    characters followed by the marker. *)
Theorem doc_content_capped (doc : Document) :
  Str.len (doc_content doc) <= per_doc_max + 3
  /\ (Str.len (Str.strip (page_content doc)) <= per_doc_max ->
      doc_content doc = Str.strip (page_content doc))
  /\ (per_doc_max < Str.len (Str.strip (page_content doc)) ->
      doc_content doc
      = String.substring 0 1200 (Str.strip (page_content doc)) +:+ "..."
      /\ Str.len (doc_content doc) = per_doc_max + 3).
Proof.
  unfold doc_content.
  destruct (Z.ltb_spec per_doc_max (Str.len (Str.strip (page_content doc))))
    as [Hlong|Hshort].
  - assert (Str.len (Str.slice_to per_doc_max (Str.strip (page_content doc))
                     +:+ "...") = per_doc_max + 3) as Hlen.
    { rewrite len_app, len_slice_to by (unfold per_doc_max; lia).
      change (Str.len "...") with 3. lia. }
    split; [lia|]. split; [lia|]. intros _. split; [reflexivity | exact Hlen].
  - split; [unfold per_doc_max in *; lia|]. split; [reflexivity | lia].
Qed.

(** The test of the composer keeps a key exactly when it is none of the
    two file keys. *)
Lemma kept_key_file_keys (key : string) :
  kept_key key = bool_decide (key ∉ Rendering.file_keys).
Proof.
  unfold kept_key, Rendering.file_keys.
  destruct (String.eqb_spec key "source") as [->|Hs]; [reflexivity|].
  destruct (String.eqb_spec key "file_name") as [->|Hf]; [reflexivity|].
  symmetry. apply bool_decide_eq_true. intros H.
  apply elem_of_cons in H as [H|H]; [congruence|].
  apply elem_of_cons in H as [H|H]; [congruence|].
  inversion H.
Qed.

Lemma filter_kept_without (md : list (string * string)) :
  List.filter (fun kv => kept_key (fst kv))
    (List.filter (fun kv => bool_decide (fst kv ∉ Rendering.file_keys)) md)
  = List.filter (fun kv => kept_key (fst kv)) md.
Proof.
  induction md as [|kv md IH]; simpl; [reflexivity|].
  rewrite <- kept_key_file_keys.
  destruct (kept_key (fst kv)) eqn:E; simpl; rewrite ?E, IH; reflexivity.
Qed.

(** The text of the metadata is made of the entries that are kept. *)
Lemma metadata_str_filter (md : list (string * string)) :
  metadata_str md
  = match map (fun kv => fst kv +:+ ": " +:+ snd kv)
            (List.filter (fun kv => kept_key (fst kv)) md) with
    | [] => ""
    | metadata_parts => " (Metadata: " +:+ Str.join ", " metadata_parts +:+ ")"
    end.
Proof.
  destruct md as [|kv md]; [reflexivity|]. unfold metadata_str. cbv zeta.
  destruct (map _ (List.filter _ (kv :: md))); reflexivity.
Qed.

Lemma block_without_file_keys (i : nat) (doc : Document) :
  block i (Rendering.without_file_keys doc) = block i doc.
Proof.
  unfold block. simpl. now rewrite !metadata_str_filter, filter_kept_without.
Qed.

Lemma loop_same_blocks (docs1 : list Document) :
  forall docs2 i used parts,
    Forall2 (fun d1 d2 => forall i, block i d1 = block i d2) docs1 docs2 ->
    loop docs1 i used parts = loop docs2 i used parts.
Proof.
  induction docs1 as [|d1 rest1 IH]; intros docs2 i used parts Hsame;
    inversion Hsame as [|? d2 ? rest2 Hd Hrest]; subst; simpl; [reflexivity|].
  destruct (max_total_chars <=? used); [reflexivity|].
  unfold chunk_of. rewrite Hd. now apply IH.
Qed.

Lemma same_without_same_blocks (docs1 : list Document) :
  forall docs2,
    map Rendering.without_file_keys docs1 = map Rendering.without_file_keys docs2 ->
    Forall2 (fun d1 d2 => forall i, block i d1 = block i d2) docs1 docs2.
Proof.
  induction docs1 as [|d1 rest1 IH]; intros [|d2 rest2] Hmap;
    try discriminate; constructor.
  - intros i.
    pose proof (f_equal (hd d1) Hmap) as Hd. cbn [map hd] in Hd.
    rewrite <- (block_without_file_keys i d1), <- (block_without_file_keys i d2).
    now rewrite Hd.
  - apply IH. exact (f_equal (@tl _) Hmap).
Qed.

(** X3: the entries of the metadata under [source] and [file_name] never
    reach the prompt.  Removing them from every document leaves the
    composed context unchanged; and two lists of documents that differ only
    in these entries, in whether they are present or in their values,
    compose to the same context. *)
Theorem prepare_context_ignores_file_keys :
  (forall docs,
      _prepare_context (map Rendering.without_file_keys docs)
      = _prepare_context docs)
  /\ (forall docs1 docs2,
        map Rendering.without_file_keys docs1
        = map Rendering.without_file_keys docs2 ->
        _prepare_context docs1 = _prepare_context docs2).
Proof.
  assert (forall docs1 docs2,
             map Rendering.without_file_keys docs1
             = map Rendering.without_file_keys docs2 ->
             _prepare_context docs1 = _prepare_context docs2) as Hsame.
  { intros docs1 docs2 Hmap.
    pose proof (same_without_same_blocks docs1 docs2 Hmap) as Hblocks.
    destruct docs1 as [|d1 rest1], docs2 as [|d2 rest2]; try discriminate;
      [reflexivity|].
    unfold _prepare_context. now rewrite (loop_same_blocks _ _ _ _ _ Hblocks). }
  split; [|exact Hsame].
  intros docs. apply Hsame. rewrite map_map. apply map_ext. intros doc.
  unfold Rendering.without_file_keys. simpl. f_equal.
  induction (metadata doc) as [|kv md IH]; simpl; [reflexivity|].
  destruct (bool_decide (fst kv ∉ Rendering.file_keys)) eqn:E; simpl;
    rewrite ?E, IH; reflexivity.
Qed.

End ComposerMore.

(** ** Configuration: the legacy location and the health report *)

Section ConfigMore.

Import Py.

Lemma split_nonempty (sep : ascii) (s : string) : Str.split sep s <> [].
Proof.
  destruct s as [|c s]; simpl; [discriminate|].
  destruct (Ascii.eqb c sep); [discriminate|].
  destruct (Str.split sep s); discriminate.
Qed.

Lemma concat_cons_char (sep : string) (c : ascii) (p : string) (ps : list string) :
  String.concat sep (String c p :: ps) = String c (String.concat sep (p :: ps)).
Proof. destruct ps; reflexivity. Qed.

(** [sep.join(s.split(sep))] is [s]. *)
Lemma join_split (sep : ascii) (s : string) :
  Str.join (String sep "") (Str.split sep s) = s.
Proof.
  unfold Str.join. induction s as [|c s IH]; [reflexivity|].
  cbn [Str.split]. destruct (Ascii.eqb_spec c sep) as [->|Hne].
  - pose proof (split_nonempty sep s) as Hs.
    destruct (Str.split sep s) as [|p ps]; [congruence|].
    change (String.concat (String sep "") ("" :: p :: ps))
      with (String sep (String.concat (String sep "") (p :: ps))).
    now rewrite IH.
  - pose proof (split_nonempty sep s) as Hs.
    destruct (Str.split sep s) as [|p ps]; [congruence|].
    now rewrite concat_cons_char, IH.
Qed.

(** No piece of a split holds the separator. *)
Lemma split_pieces (sep : ascii) (s : string) :
  Forall (fun p => Str.split sep p = [p]) (Str.split sep s).
Proof.
  induction s as [|c s IH]; [repeat constructor|].
  cbn [Str.split]. destruct (Ascii.eqb c sep) eqn:E.
  - constructor; [reflexivity | exact IH].
  - pose proof (split_nonempty sep s) as Hs.
    destruct (Str.split sep s) as [|p ps]; [congruence|].
    inversion IH as [|? ? Hp Hps]; subst. constructor; [|exact Hps].
    cbn [Str.split]. now rewrite E, Hp.
Qed.

Lemma string_app_assoc (a b c : string) : (a +:+ b) +:+ c = a +:+ b +:+ c.
Proof.
  induction a as [|x a IH]; [reflexivity|].
  rewrite !app_head. now rewrite IH.
Qed.

Lemma concat_snoc (sep : string) (l : list string) (x : string) :
  l <> [] ->
  String.concat sep (l ++ [x]) = String.concat sep l +:+ sep +:+ x.
Proof.
  induction l as [|a [|b l] IH]; intros Hl; [congruence | reflexivity |].
  change (String.concat sep ((a :: b :: l) ++ [x]))
    with (a +:+ sep +:+ String.concat sep ((b :: l) ++ [x])).
  rewrite IH by discriminate.
  change (String.concat sep (a :: b :: l)) with (a +:+ sep +:+ String.concat sep (b :: l)).
  now rewrite !string_app_assoc.
Qed.

Lemma removelast_nonempty {A} (l : list A) :
  (2 <= length l)%nat -> removelast l <> [].
Proof. destruct l as [|a [|b l]]; simpl; intros H; [lia | lia | discriminate]. Qed.

(** X4: when neither [PINECONE_CLOUD] nor [PINECONE_REGION] is set and the
    legacy [PINECONE_ENVIRONMENT] holds a dash, [Config] splits it at its
    last dash: the region, a dash and the cloud spell the legacy value
    again, and the cloud holds no dash. *)
Theorem load_legacy_location (env : gmap string string) (e : string) :
  truthy (env !! "PINECONE_CLOUD") = false ->
  truthy (env !! "PINECONE_REGION") = false ->
  env !! "PINECONE_ENVIRONMENT" = Some e ->
  (2 <= length (Str.split "-"%char e))%nat ->
  exists region cloud,
    Config.PINECONE_REGION (Config.load env) = Some region
    /\ Config.PINECONE_CLOUD (Config.load env) = Some cloud
    /\ region +:+ "-" +:+ cloud = e
    /\ Str.split "-"%char cloud = [cloud].
Proof.
  intros Hcloud Hregion Hlegacy Hparts.
  assert (truthy (Some e) = true) as He.
  { destruct e; [simpl in Hparts; lia | reflexivity]. }
  assert ((2 <=? length (Str.split "-"%char e))%nat = true) as Hleb
    by now apply Nat.leb_le.
  unfold Config.load, Config.or_else.
  rewrite Hlegacy, Hcloud, Hregion, He. simpl. simpl in Hleb. rewrite Hleb. simpl.
  set (parts := Str.split "-"%char e) in *.
  exists (Str.join "-" (removelast parts)), (List.last parts "").
  split; [reflexivity|]. split; [reflexivity|].
  assert (parts <> []) as Hne by apply split_nonempty.
  pose proof (app_removelast_last "" Hne) as Hsplit.
  split.
  - pose proof (join_split "-"%char e) as Hjoin. fold parts in Hjoin.
    rewrite Hsplit in Hjoin. unfold Str.join in *.
    rewrite concat_snoc in Hjoin by now apply removelast_nonempty.
    exact Hjoin.
  - pose proof (split_pieces "-"%char e) as Hpieces. fold parts in Hpieces.
    rewrite Hsplit in Hpieces. apply Forall_app in Hpieces as [_ Hlast].
    now inversion Hlast.
Qed.

Lemma config_attr_fields (config : Config.t) :
  Main.config_attr config "OPENAI_API_KEY" = Config.OPENAI_API_KEY config
  /\ Main.config_attr config "PINECONE_API_KEY" = Config.PINECONE_API_KEY config
  /\ Main.config_attr config "PINECONE_CLOUD" = Config.PINECONE_CLOUD config
  /\ Main.config_attr config "PINECONE_REGION" = Config.PINECONE_REGION config.
Proof. repeat split; reflexivity. Qed.

(** The payload of [health_check], by the settings that are present. *)
Lemma health_check_payload (config : Config.t) :
  let ok name := truthy (Main.config_attr config name) in
  let names := ["OPENAI_API_KEY"; "PINECONE_API_KEY"; "PINECONE_CLOUD"; "PINECONE_REGION"] in
  Main.health_check config !! "status"
  = Some (VStr (if forallb ok names then "healthy" else "unhealthy"))
  /\ Main.health_check config !! "message"
     = Some (VStr (if forallb ok names then "All services are operational"
                   else "Missing environment variables: "
                        +:+ Str.join ", " (List.filter (fun v => negb (ok v)) names))).
Proof.
  intros ok names. unfold Main.health_check, Main.missing_vars.
  subst ok names. cbn [forallb List.filter].
  destruct (config_attr_fields config) as (-> & -> & -> & ->).
  destruct (truthy (Config.OPENAI_API_KEY config)),
    (truthy (Config.PINECONE_API_KEY config)),
    (truthy (Config.PINECONE_CLOUD config)),
    (truthy (Config.PINECONE_REGION config)); split; reflexivity.
Qed.

(** X5: [health_check] reports [healthy] exactly when the two API keys, the
    cloud and the region are all set and not empty; otherwise it reports
    [unhealthy] and its message names the missing ones, each once, in
    alphabetical order. *)
Theorem health_check_reports (config : Config.t) :
  let ok name := truthy (Main.config_attr config name) in
  let names := ["OPENAI_API_KEY"; "PINECONE_API_KEY"; "PINECONE_CLOUD"; "PINECONE_REGION"] in
  Main.health_check config !! "status"
  = Some (VStr (if forallb ok names then "healthy" else "unhealthy"))
  /\ Main.health_check config !! "message"
     = Some (VStr (if forallb ok names then "All services are operational"
                   else "Missing environment variables: "
                        +:+ Str.join ", " (List.filter (fun v => negb (ok v)) names))).
Proof. exact (health_check_payload config). Qed.

End ConfigMore.

(** ** Configuration and index creation together *)

Section LocationMore.

Import Py Ext.

Context {W : Type} `{!Outside W}.

Lemma load_keeps_location (env : gmap string string) :
  match env !! "PINECONE_ENVIRONMENT" with
  | Some e => (length (Str.split "-"%char e) <? 2)%nat
  | None => true
  end = true ->
  Config.PINECONE_CLOUD (Config.load env) = env !! "PINECONE_CLOUD"
  /\ Config.PINECONE_REGION (Config.load env) = env !! "PINECONE_REGION".
Proof.
  intros Hlegacy. unfold Config.load.
  destruct (env !! "PINECONE_ENVIRONMENT") as [e|]; simpl.
  - apply Nat.ltb_lt in Hlegacy.
    destruct (_ && _); simpl; [|split; reflexivity].
    destruct (Nat.leb_spec 2 (length (Str.split "-"%char e))) as [Hge|_]; [lia|].
    destruct (length (Str.split "-"%char e)) as [|[|n]]; simpl; try lia;
      split; reflexivity.
  - rewrite andb_false_r. split; reflexivity.
Qed.

(** X6: when the environment does not give both the cloud and the region,
    and the legacy [PINECONE_ENVIRONMENT] is missing, empty or without a
    dash, initialising the vector store on an index that is not listed
    raises the configuration error right after the listing: no index is
    created and none is opened. *)
Theorem unparsed_legacy_fails_fast (env : gmap string string)
    (st : state W VectorStore.t) (w1 w2 : W) (names : list string) :
  let config := Config.load env in
  truthy (env !! "PINECONE_CLOUD") && truthy (env !! "PINECONE_REGION") = false ->
  match env !! "PINECONE_ENVIRONMENT" with
  | Some e => (length (Str.split "-"%char e) <? 2)%nat
  | None => true
  end = true ->
  respond (NewPinecone (Config.PINECONE_API_KEY config)) (world st) = (inr tt, w1) ->
  respond (ListIndexes (mkPinecone (Config.PINECONE_API_KEY config))) w1
  = (inr names, w2) ->
  Config.PINECONE_INDEX_NAME config ∉ names ->
  fst (VectorStore._initialize_pinecone config st)
  = Raised VectorStore.not_configured
  /\ log (snd (VectorStore._initialize_pinecone config st))
     = log st ++ [Called (NewPinecone (Config.PINECONE_API_KEY config)) (inr tt);
                  Called (ListIndexes (mkPinecone (Config.PINECONE_API_KEY config)))
                    (inr names)]
  /\ VectorStore.index (self (snd (VectorStore._initialize_pinecone config st)))
     = VectorStore.index (self st).
Proof.
  intros config Hloc Hlegacy Hnew Hlist Hout.
  destruct (load_keeps_location env Hlegacy) as [Hcloud Hregion].
  rewrite (initialize_absent_unresolved config st w1 w2 names Hnew Hlist Hout).
  - repeat split; reflexivity.
  - subst config. now rewrite Hcloud, Hregion.
Qed.

(** X7: a configuration that [health_check] reports healthy is one with
    which a missing index is created rather than refused: after a listing
    that lacks the index, [create_index] is called with the configured name,
    cloud and region and the cosine metric. *)
Theorem healthy_config_creates_index (config : Config.t)
    (st : state W VectorStore.t) (w1 w2 : W) (names : list string) :
  Main.health_check config !! "status" = Some (VStr "healthy") ->
  respond (NewPinecone (Config.PINECONE_API_KEY config)) (world st) = (inr tt, w1) ->
  respond (ListIndexes (mkPinecone (Config.PINECONE_API_KEY config))) w1
  = (inr names, w2) ->
  Config.PINECONE_INDEX_NAME config ∉ names ->
  exists cloud region dimension r rest,
    Config.PINECONE_CLOUD config = Some cloud
    /\ Config.PINECONE_REGION config = Some region
    /\ log (snd (VectorStore._initialize_pinecone config st))
       = log st
         ++ [Called (NewPinecone (Config.PINECONE_API_KEY config)) (inr tt);
             Called (ListIndexes (mkPinecone (Config.PINECONE_API_KEY config)))
               (inr names);
             Called (CreateIndex (mkPinecone (Config.PINECONE_API_KEY config))
                       (Config.PINECONE_INDEX_NAME config) dimension "cosine"
                       cloud region) r]
         ++ rest.
Proof.
  intros Hhealthy Hnew Hlist Hout.
  destruct (health_check_payload config) as [Hstatus _].
  rewrite Hstatus in Hhealthy. cbn [forallb] in Hhealthy.
  destruct (config_attr_fields config) as (_ & _ & Ec & Er).
  rewrite Ec, Er in Hhealthy.
  destruct (truthy (Config.PINECONE_CLOUD config)) eqn:Hcloud;
    [|repeat (destruct (truthy _)); discriminate].
  destruct (truthy (Config.PINECONE_REGION config)) eqn:Hregion;
    [|repeat (destruct (truthy _)); discriminate].
  destruct (Config.PINECONE_CLOUD config) as [cloud|] eqn:Ecloud; [|discriminate].
  destruct (Config.PINECONE_REGION config) as [region|] eqn:Eregion; [|discriminate].
  exists cloud, region.
  rewrite (initialize_absent_resolved config st w1 w2 names Hnew Hlist Hout)
    by (rewrite Ecloud, Eregion; simpl in *; now rewrite Hcloud, Hregion).
  rewrite Ecloud, Eregion. unfold bind, invoke, setattr, modify. simpl.
  destruct (respond (CreateIndex _ _ _ _ _ _) w2) as [[e|[]] w3]; simpl.
  - eexists _, _, []. do 2 (split; [reflexivity|]).
    rewrite <- app_assoc. reflexivity.
  - destruct (respond (GetIndex _ _) w3) as [[e|[]] w4]; simpl;
      eexists _, _, [_]; do 2 (split; [reflexivity|]);
      rewrite <- !app_assoc; reflexivity.
Qed.

End LocationMore.

(** ** The generator with sources *)

Section GeneratorMore.

Import Py Ext RAGGenerator.

Context {W : Type} `{!Outside W} {O : Type}.

Lemma source_info_preview (doc : Document) :
  exists content md,
    source_info doc = VDict [("content", VStr content); ("metadata", md)]
    /\ Str.len content <= 203.
Proof.
  unfold source_info. do 2 eexists. split; [reflexivity|].
  destruct (Z.ltb_spec 200 (Str.len (page_content doc))) as [Hlong|Hshort]; [|lia].
  rewrite len_app, len_slice_to by lia. change (Str.len "...") with 3. lia.
Qed.

(** X8: [generate_with_sources] only decorates: it returns in the state in
    which [generate_response] returns, so the model is invoked once.  On
    success the payload is that of [generate_response] with one source per
    input document, each with a content preview of at most 203 characters;
    on failure it is the error payload of [generate_response] unchanged,
    which has no [sources] entry. *)
Theorem generate_with_sources_decorates (g : t) (question : string)
    (docs : list Document) (custom_prompt : option string) (st : state W O) :
  exists result st',
    generate_response g question docs custom_prompt st = (Returned result, st')
    /\ ((result !! "status" = Some (VStr "success")
         /\ generate_with_sources g question docs custom_prompt st
            = (Returned (<["sources" := VList (map source_info docs)]> result), st')
         /\ length (map source_info docs) = length docs
         /\ Forall (fun source =>
                      exists content md,
                        source = VDict [("content", VStr content); ("metadata", md)]
                        /\ Str.len content <= 203)
              (map source_info docs))
        \/ (result !! "status" = Some (VStr "error")
            /\ generate_with_sources g question docs custom_prompt st
               = (Returned result, st')
            /\ result !! "sources" = None)).
Proof.
  unfold generate_with_sources, generate_response, bind, ret, raise, try_except,
    invoke.
  set (context := _prepare_context docs). clearbody context.
  assert (Hsources : Forall (fun source =>
                      exists content md,
                        source = VDict [("content", VStr content); ("metadata", md)]
                        /\ Str.len content <= 203)
              (map source_info docs)).
  { apply Forall_forall. intros source Hin. apply list_elem_of_In, in_map_iff in Hin.
    destruct Hin as (doc & <- & _). apply source_info_preview. }
  destruct (truthy custom_prompt); simpl;
    repeat (match goal with
            | |- context [respond ?c ?w0] =>
                destruct (respond c w0) as [[?|?] ?]; simpl
            end);
    do 2 eexists; (split; [reflexivity|]);
    first [ left; split; [reflexivity|]; split; [reflexivity|];
            split; [apply length_map | exact Hsources]
          | right; repeat split; reflexivity ].
Qed.

End GeneratorMore.

(** ** The retriever: changing the namespace, and the hybrid strategy *)

Section RetrieverMore.

Import Py Ext HybridRetriever.

Context {W : Type} `{!Outside W}.
Variable config : Config.t.

Ltac unfold_methods :=
  unfold change_namespace, hybrid_search, dense_search, report, recover,
    _initialize_retriever,
    bind, ret, raise, try_except, invoke, getattr, setattr, gets, modify,
    out_of_fuel.

Ltac ask :=
  match goal with
  | |- context [respond ?c ?w0] =>
      let e := fresh "e" in let v := fresh "v" in let w := fresh "w" in
      destruct (respond c w0) as [[e|v] w]; simpl
  end.

Ltac in_namespace :=
  rewrite ?app_cons_assoc; eexists; (split; [reflexivity|]);
  repeat (constructor; [simpl; intros ? ?; simplify_eq; auto|]);
  constructor.

Lemma change_namespace_state (HAS_HYBRID : bool) (ns : string)
    (st st1 : state W t) :
  change_namespace HAS_HYBRID config ns st = (Returned tt, st1) ->
  namespace (self st1) = ns
  /\ (if HAS_HYBRID
      then vectorstore (self st1) = None
           /\ exists r, retriever (self st1) = Some r /\ hs_namespace r = ns
      else retriever (self st1) = None
           /\ exists vs, vectorstore (self st1) = Some vs /\ vs_namespace vs = ns).
Proof.
  unfold_methods. simpl. repeat ask; try discriminate.
  destruct HAS_HYBRID; repeat ask; try discriminate;
    intros Heq; inversion Heq; subst; clear Heq; simpl; eauto.
Qed.

(** X9: when [change_namespace] returns, the retriever carries the new
    namespace, holds exactly the strategy that [HAS_HYBRID] selects, built
    for the new namespace, and every search that a following [retrieve]
    makes runs in the new namespace. *)
Theorem change_namespace_rebinds (HAS_HYBRID : bool) (ns : string)
    (st st1 : state W t) :
  change_namespace HAS_HYBRID config ns st = (Returned tt, st1) ->
  namespace (self st1) = ns
  /\ (if HAS_HYBRID
      then vectorstore (self st1) = None
           /\ exists r, retriever (self st1) = Some r /\ hs_namespace r = ns
      else retriever (self st1) = None
           /\ exists vs, vectorstore (self st1) = Some vs /\ vs_namespace vs = ns)
  /\ forall n query top_k alpha fetch_k,
      exists new,
        log (snd (retrieve HAS_HYBRID config (S n) query top_k alpha fetch_k st1))
        = log st1 ++ new
        /\ Forall (fun e => forall x,
                     Observe.search_namespace (entry_call e) = Some x -> x = ns)
             new.
Proof.
  intros Hchange.
  destruct (change_namespace_state _ _ _ _ Hchange) as [Hns Hbound].
  split; [exact Hns|]. split; [exact Hbound|].
  intros n query top_k alpha fetch_k.
  apply settled_in_namespace.
  - destruct HAS_HYBRID.
    + destruct Hbound as (_ & r & Hr & _). left. rewrite Hr. eauto.
    + destruct Hbound as (_ & vs & Hvs & _). right. rewrite Hvs. eauto.
  - destruct HAS_HYBRID.
    + destruct Hbound as (Hvs & r & Hr & Hrns).
      split; intros ? Heq; congruence.
    + destruct Hbound as (Hr & vs & Hvs & Hvns).
      split; intros ? Heq; congruence.
Qed.

(** X10: when [change_namespace] raises, the retriever already carries the
    new namespace but still holds the strategy it had, built for the old
    one; without the hybrid capability a following [retrieve] then searches
    the old vector store. *)
Theorem change_namespace_failure (HAS_HYBRID : bool) (ns : string)
    (st st1 : state W t) (e : exn) :
  change_namespace HAS_HYBRID config ns st = (Raised e, st1) ->
  namespace (self st1) = ns
  /\ retriever (self st1) = retriever (self st)
  /\ vectorstore (self st1) = vectorstore (self st)
  /\ forall vs,
      HAS_HYBRID = false ->
      vectorstore (self st) = Some vs ->
      forall n query top_k alpha fetch_k,
      exists r rest,
        log (snd (retrieve HAS_HYBRID config (S n) query top_k alpha fetch_k st1))
        = log st1
          ++ Called (MaxMarginalRelevanceSearch vs query top_k fetch_k) r :: rest.
Proof.
  intros Hchange.
  assert (namespace (self st1) = ns
          /\ retriever (self st1) = retriever (self st)
          /\ vectorstore (self st1) = vectorstore (self st)) as (Hns & Hr & Hvs).
  { revert Hchange. destruct HAS_HYBRID; unfold_methods; simpl; repeat ask;
      intros Heq; inversion Heq; subst; simpl; auto. }
  split; [exact Hns|]. split; [exact Hr|]. split; [exact Hvs|].
  intros vs -> Hold n query top_k alpha fetch_k.
  rewrite (retrieve_dense config false n query top_k alpha fetch_k st1 vs)
    by (auto; congruence).
  unfold_methods. simpl. repeat ask; rewrite <- ?app_assoc; simpl; eauto.
Qed.

Ltac find_tail tac :=
  first [ eexists []; tac | eexists [_]; tac | eexists [_; _]; tac
        | eexists [_; _; _]; tac | eexists [_; _; _; _]; tac ].

Ltac show_ended :=
  first [ now left
        | right; find_tail ltac:(do 5 eexists; split; reflexivity)
        | find_tail ltac:(eexists; reflexivity) ].

Ltac ask_print :=
  match goal with
  | |- context [respond (PrintRetrieval ?q ?k ?a ?f) ?w0] =>
      let e := fresh "e" in let w := fresh "w" in
      destruct (respond (PrintRetrieval q k a f) w0) as [[e|[]] w]; simpl
  | |- context [respond (PrintRetrievalError ?x) ?w0] =>
      let e := fresh "e" in let w := fresh "w" in
      destruct (respond (PrintRetrievalError x) w0) as [[e|[]] w]; simpl
  end.

(** X11: with the hybrid capability and a hybrid retriever set, [retrieve]
    makes only calls of the hybrid path and prints, whatever else the
    retriever holds: no dense search is tried.  When both assignments
    succeed the search runs with the new [top_k] and [alpha]; when the
    assignment of [top_k] raises, [alpha] is not assigned either and the
    search runs with the old values.  In both cases the documents of the
    search go to the print of the timing line and are returned when it
    returns, and an exception of the search or of that print goes to the
    handler, which returns no document when its print returns.  So the
    documents that [retrieve] returns, if any, are those of the hybrid
    search, and an exception leaves it only from the print of the error
    line. *)
Theorem retrieve_hybrid_only (n : nat) (query : string) (top_k : Z)
    (alpha : float) (fetch_k : Z) (st : state W t)
    (r0 : PineconeHybridSearchRetriever) :
  retriever (self st) = Some r0 ->
  let result := retrieve true config (S n) query top_k alpha fetch_k st in
  let finish found st3 :=
    match found with
    | inr docs => try_except (report query top_k alpha fetch_k docs) recover st3
    | inl e => recover e st3
    end in
  (exists new,
      log (snd result) = log st ++ new
      /\ Forall (fun e => is_hybrid_call (entry_call e) || is_print (entry_call e)
                          = true) new
      /\ ended (fst result) new)
  /\ (forall w1 w2,
        respond (SetAttr r0 "top_k" (VInt top_k)) (world st) = (inr tt, w1) ->
        respond (SetAttr (set_top_k top_k r0) "alpha" (VFloat alpha)) w1
        = (inr tt, w2) ->
        let r2 := set_alpha alpha (set_top_k top_k r0) in
        let (found, w3) := respond (GetRelevantDocuments r2 query) w2 in
        result
        = finish found
            (State (set_retriever (Some r2) (self st)) w3
               (log st ++ [Called (SetAttr r0 "top_k" (VInt top_k)) (inr tt);
                           Called (SetAttr (set_top_k top_k r0) "alpha" (VFloat alpha))
                             (inr tt);
                           Called (GetRelevantDocuments r2 query) found])))
  /\ (forall e w1,
        respond (SetAttr r0 "top_k" (VInt top_k)) (world st) = (inl e, w1) ->
        let (found, w2) := respond (GetRelevantDocuments r0 query) w1 in
        result
        = finish found
            (State (self st) w2
               (log st ++ [Called (SetAttr r0 "top_k" (VInt top_k)) (inl e);
                           Called (GetRelevantDocuments r0 query) found]))).
Proof.
  intros Hr result finish. subst result finish.
  rewrite (retrieve_hybrid config true n query top_k alpha fetch_k st r0) by auto.
  split; [|split].
  - unfold_methods. simpl.
    repeat ask_print || ask; rewrite ?Hr; simpl; repeat (ask_print || ask);
      rewrite <- ?app_assoc; simpl; eexists; (split; [reflexivity|]);
      (split; [repeat constructor | show_ended]).
  - intros w1 w2 Htop Halpha r2. unfold_methods. simpl.
    rewrite Htop. simpl. rewrite Halpha. simpl.
    destruct (respond (GetRelevantDocuments r2 query) w2) as [[e|docs] w3] eqn:E;
      subst r2; simpl; rewrite E; simpl; rewrite <- ?app_assoc; simpl;
      destruct (self st); reflexivity.
  - intros e w1 Htop. unfold_methods. simpl. rewrite Htop. simpl. rewrite Hr.
    simpl.
    destruct (respond (GetRelevantDocuments r0 query) w1) as [[e'|docs] w2];
      simpl; rewrite <- ?app_assoc; reflexivity.
Qed.

End RetrieverMore.

(** ** The service and its endpoints *)

Section ServiceMore.

Import Py Ext RAGService.

Context {W : Type} `{!Outside W}.
Variable HAS_HYBRID : bool.
Variable config : Config.t.

(** The record that [retrieve_with_metadata] builds for a document. *)
Local Abbreviation document_record doc :=
  (VDict [("content", VStr (page_content doc));
          ("metadata", VDict (map (fun kv => (fst kv, VStr (snd kv))) (metadata doc)));
          ("score", VNone)]).

(** What [retrieve_only] returns, in terms of how [retrieve] ends. *)
Lemma retrieve_only_outcome (n : nat) (query : string) (top_k : Z)
    (alpha : float) (st : state W t) :
  exists r st' new payload,
    with_retriever
      (HybridRetriever.retrieve HAS_HYBRID config (2 + n) query top_k alpha 20) st
    = (r, st')
    /\ log st' = log st ++ new
    /\ namespace (self st') = namespace (self st)
    /\ retrieve_only HAS_HYBRID config (2 + n) query top_k alpha st
       = (Returned payload, st')
    /\ match r with
       | Returned docs =>
           answered docs new
           /\ payload !! "status" = Some (VStr "success")
           /\ payload !! "count" = Some (VInt (Z.of_nat (length docs)))
           /\ payload !! "documents"
              = Some (VList (map (fun doc => document_record doc) docs))
           /\ payload !! "namespace" = Some (VStr (namespace (self st)))
           /\ payload !! "message" = None
       | Raised e =>
           print_failed e new
           /\ payload !! "status" = Some (VStr "error")
           /\ payload !! "message" = Some (VStr (exn_msg e))
           /\ payload !! "count" = Some (VInt 0)
           /\ payload !! "documents" = Some (VList [])
       | OutOfFuel => False
       end.
Proof.
  unfold retrieve_only, HybridRetriever.retrieve_with_metadata, with_retriever,
    on_attr, try_except, bind, ret, getattr, gets.
  set (st0 := State (retriever (self st)) (world st) (log st)).
  destruct (retrieve_two_levels config HAS_HYBRID n query top_k alpha 20 st0)
    as [E (r & st' & new & E2 & Hlog & Hend & _)].
  rewrite E, E2. simpl.
  exists r. destruct r as [docs|e|]; simpl.
  - do 3 eexists. split; [reflexivity|]. split; [exact Hlog|].
    split; [reflexivity|]. split; [reflexivity|].
    rewrite length_map. split; [exact Hend|]. repeat split; reflexivity.
  - do 3 eexists. split; [reflexivity|]. split; [exact Hlog|].
    split; [reflexivity|]. split; [reflexivity|].
    split; [exact Hend|]. repeat split; reflexivity.
  - destruct Hend.
Qed.

(** X12: [retrieve_only] always returns a payload, and leaves the service on
    its namespace.  When [retrieve] returns documents, the payload has status
    [success], the records of these documents, each with score [None], their
    number as [count], the namespace of the service, and no [message]; a
    retrieval that failed and whose error line was printed shows as a count
    of 0, the documents being then none.  When [retrieve] raises, which it
    does only when the print of its error line raises, the payload has
    status [error], the text of that exception as [message], no documents
    and [count] 0. *)
Theorem retrieve_only_outcomes (n : nat) (query : string) (top_k : Z)
    (alpha : float) (st : state W t) :
  exists r st' new payload,
    with_retriever
      (HybridRetriever.retrieve HAS_HYBRID config (2 + n) query top_k alpha 20) st
    = (r, st')
    /\ log st' = log st ++ new
    /\ namespace (self st') = namespace (self st)
    /\ retrieve_only HAS_HYBRID config (2 + n) query top_k alpha st
       = (Returned payload, st')
    /\ match r with
       | Returned docs =>
           (docs = []
            \/ exists before e query' top_k' alpha' fetch_k',
                new = before
                      ++ [e; Called (PrintRetrieval query' top_k' alpha' fetch_k')
                               (inr tt)]
                /\ returned_documents e = Some docs)
           /\ payload !! "status" = Some (VStr "success")
           /\ payload !! "count" = Some (VInt (Z.of_nat (length docs)))
           /\ payload !! "documents"
              = Some (VList (map (fun doc => document_record doc) docs))
           /\ payload !! "namespace" = Some (VStr (namespace (self st)))
           /\ payload !! "message" = None
       | Raised e =>
           (exists before caught,
               new = before ++ [Called (PrintRetrievalError caught) (inl e)])
           /\ payload !! "status" = Some (VStr "error")
           /\ payload !! "message" = Some (VStr (exn_msg e))
           /\ payload !! "count" = Some (VInt 0)
           /\ payload !! "documents" = Some (VList [])
       | OutOfFuel => False
       end.
Proof. exact (retrieve_only_outcome n query top_k alpha st). Qed.

(** What [query] returns. *)
Lemma query_outcome (n : nat) (question : string) (top_k : Z)
    (alpha : float) (include_sources : bool) (custom_prompt : option string)
    (st : state W t) :
  exists payload st' status,
    query HAS_HYBRID config (2 + n) question top_k alpha include_sources
      custom_prompt st = (Returned payload, st')
    /\ namespace (self st') = namespace (self st)
    /\ payload !! "status" = Some (VStr status)
    /\ (status = "success" \/ status = "warning"
        \/ (status = "error"
            /\ exists message, payload !! "message" = Some (VStr message)))
    /\ is_Some (payload !! "answer")
    /\ is_Some (payload !! "context_used").
Proof.
  destruct (service_retrieve HAS_HYBRID config n question top_k alpha st)
    as (r & st1 & new & E & Hg & Hns & _ & Hend & _).
  unfold query, try_except, bind. rewrite E.
  destruct r as [[|d ds]|e|]; [| | |destruct Hend].
  - exists no_documents, st1, "warning". split; [reflexivity|].
    split; [exact Hns|]. split; [reflexivity|]. split; [auto|].
    split; eexists; reflexivity.
  - unfold getattr, gets.
    destruct (generate_either include_sources (generator (self st1)) question
                (d :: ds) custom_prompt st1)
      as (result & st2 & Egen & Hself & Ha & Hc & Hstatus).
    cbn beta iota. rewrite Egen. simpl. unfold ret.
    do 2 eexists.
    destruct Hstatus as [Hs|(Hs & message & Hm)].
    + exists "success". split; [reflexivity|]. simpl.
      split; [now rewrite Hself|].
      rewrite !lookup_insert_ne by discriminate. auto.
    + exists "error". split; [reflexivity|]. simpl.
      split; [now rewrite Hself|].
      rewrite !lookup_insert_ne by discriminate. eauto 8.
  - unfold ret. do 2 eexists. exists "error". split; [reflexivity|].
    split; [exact Hns|]. split; [reflexivity|].
    split; [right; right; split; [reflexivity|]; eexists; reflexivity|].
    split; eexists; reflexivity.
Qed.

(** X13: [query] never raises and keeps the namespace of the service.  Its
    payload always has a [status], which is [success], [warning] or [error],
    an [answer] entry and [context_used]; with status [error] it has a
    [message] that is a string. *)
Theorem query_always_answers (n : nat) (question : string) (top_k : Z)
    (alpha : float) (include_sources : bool) (custom_prompt : option string)
    (st : state W t) :
  exists payload st' status,
    query HAS_HYBRID config (2 + n) question top_k alpha include_sources
      custom_prompt st = (Returned payload, st')
    /\ namespace (self st') = namespace (self st)
    /\ payload !! "status" = Some (VStr status)
    /\ (status = "success" \/ status = "warning"
        \/ (status = "error"
            /\ exists message, payload !! "message" = Some (VStr message)))
    /\ is_Some (payload !! "answer")
    /\ is_Some (payload !! "context_used").
Proof.
  exact (query_outcome n question top_k alpha include_sources custom_prompt st).
Qed.

(** X14: [change_namespace] of the service assigns the namespace of the
    service before it rebuilds the retriever.  When it returns, service and
    retriever agree on the new namespace and the retriever holds exactly the
    strategy that [HAS_HYBRID] selects.  When it raises, the service already
    carries the new namespace while the retriever holds the strategy it had,
    and the check [namespace != rag_service.namespace] of the endpoints then
    finds nothing to do: the switch is not tried again. *)
Theorem service_change_namespace_outcomes (ns : string) (st : state W t) :
  match change_namespace HAS_HYBRID config ns st with
  | (Returned _, st') =>
      namespace (self st') = ns
      /\ HybridRetriever.namespace (retriever (self st')) = ns
      /\ HybridRetriever.exactly_one HAS_HYBRID (retriever (self st'))
  | (Raised e, st') =>
      namespace (self st') = ns
      /\ HybridRetriever.namespace (retriever (self st')) = ns
      /\ HybridRetriever.retriever (retriever (self st'))
         = HybridRetriever.retriever (retriever (self st))
      /\ HybridRetriever.vectorstore (retriever (self st'))
         = HybridRetriever.vectorstore (retriever (self st))
      /\ generator (self st') = generator (self st)
      /\ Main.ensure_namespace HAS_HYBRID config ns st' = (Returned tt, st')
  | (OutOfFuel, _) => False
  end.
Proof.
  unfold Main.ensure_namespace, change_namespace, with_retriever, on_attr,
    HybridRetriever.change_namespace, HybridRetriever._initialize_retriever,
    HybridRetriever.exactly_one,
    bind, ret, raise, try_except, invoke, getattr, setattr, gets, modify.
  simpl.
  destruct HAS_HYBRID;
    repeat (match goal with
            | |- context [respond ?c ?w0] =>
                destruct (respond c w0) as [[?|?] ?]; simpl
            end);
    rewrite ?String.eqb_refl; simpl; repeat split; eauto.
Qed.

End ServiceMore.

(** ** The endpoints [/query], [/retrieve] and [/generate] *)

Section EndpointMore.

Import Py Ext.

Context {W : Type} `{!Outside W}.
Variable HAS_HYBRID : bool.
Variable config : Config.t.

(** With the service on the namespace that the endpoints ask for, the check
    of the namespace does nothing. *)
Lemma ensure_namespace_same (st : state W RAGService.t) :
  RAGService.namespace (self st) = "default" ->
  Main.ensure_namespace HAS_HYBRID config "default" st = (Returned tt, st).
Proof.
  intros Hns. unfold Main.ensure_namespace, bind, getattr, gets.
  rewrite Hns. reflexivity.
Qed.

(** X15: [POST /query] on the module's service, whose namespace is the
    default one: the service is asked once, with [top_k] 5, [alpha] 0.5 and
    no sources.  A payload with status [success] or [warning] is the response;
    a payload with status [error] becomes the error 400 whose detail is the
    payload's [message].  The endpoint never answers 500, nothing escapes
    it, and the service stays on the default namespace. *)
Theorem query_endpoint_responses (n : nat) (question : string)
    (st : state W RAGService.t) :
  RAGService.namespace (self st) = "default" ->
  exists payload st',
    RAGService.query HAS_HYBRID config (2 + n) question 5 0.5 false None st
    = (Returned payload, st')
    /\ RAGService.namespace (self st') = "default"
    /\ ((Main.query HAS_HYBRID config (2 + n) question st
         = (Returned (inr payload), st')
         /\ (payload !! "status" = Some (VStr "success")
             \/ payload !! "status" = Some (VStr "warning")))
        \/ (exists message,
              Main.query HAS_HYBRID config (2 + n) question st
              = (Returned (inl (Main.HTTPException 400 (VStr message))), st')
              /\ payload !! "status" = Some (VStr "error")
              /\ payload !! "message" = Some (VStr message))).
Proof.
  intros Hns.
  destruct (query_outcome HAS_HYBRID config n question 5 0.5 false None st)
    as (payload & st' & status & E & Hns' & Hstatus & Hcases & _).
  exists payload, st'. split; [exact E|]. split; [congruence|].
  unfold Main.query, Main.guarded, try_except, bind.
  rewrite (ensure_namespace_same st Hns), E.
  unfold Main.reply_or_400. rewrite Hstatus.
  destruct Hcases as [->|[->|(-> & message & Hm)]]; simpl.
  - left. auto.
  - left. auto.
  - right. exists message. rewrite Hm. auto.
Qed.

(** X16: [POST /retrieve] on the module's service, whose namespace is the
    default one, asks [retrieve_only] once, with [top_k] 5 and [alpha] 0.5.
    When [retrieve] returns, the response is the payload of [retrieve_only],
    whose status is [success], with the number of the documents as [count]:
    so a retrieval that failed and whose error line was printed is answered
    with 200 and a count of 0.  When [retrieve] raises, which it does only
    when the print of its error line raises, the payload has status [error]
    and the response is the error 400 whose detail is the text of that
    exception.  The endpoint never answers 500, nothing escapes it, and the
    service stays on the default namespace. *)
Theorem retrieve_endpoint_responses (n : nat) (query : string)
    (st : state W RAGService.t) :
  RAGService.namespace (self st) = "default" ->
  exists r st' new payload,
    RAGService.with_retriever
      (HybridRetriever.retrieve HAS_HYBRID config (2 + n) query 5 0.5 20) st
    = (r, st')
    /\ log st' = log st ++ new
    /\ RAGService.retrieve_only HAS_HYBRID config (2 + n) query 5 0.5 st
       = (Returned payload, st')
    /\ RAGService.namespace (self st') = "default"
    /\ match r with
       | Returned docs =>
           Main.retrieve HAS_HYBRID config (2 + n) query st
           = (Returned (inr payload), st')
           /\ payload !! "status" = Some (VStr "success")
           /\ payload !! "count" = Some (VInt (Z.of_nat (length docs)))
           /\ payload !! "namespace" = Some (VStr "default")
       | Raised e =>
           (exists before caught,
               new = before ++ [Called (PrintRetrievalError caught) (inl e)])
           /\ Main.retrieve HAS_HYBRID config (2 + n) query st
              = (Returned (inl (Main.HTTPException 400 (VStr (exn_msg e)))), st')
           /\ payload !! "status" = Some (VStr "error")
       | OutOfFuel => False
       end.
Proof.
  intros Hns.
  destruct (retrieve_only_outcome HAS_HYBRID config n query 5 0.5 st)
    as (r & st' & new & payload & Eret & Hlog & Hns' & E & Hcases).
  exists r, st', new, payload. split; [exact Eret|]. split; [exact Hlog|].
  split; [exact E|]. split; [congruence|].
  unfold Main.retrieve, Main.guarded, try_except, bind.
  rewrite (ensure_namespace_same st Hns), E.
  unfold Main.reply_or_400.
  destruct r as [docs|e|]; [| |exact Hcases].
  - destruct Hcases as (_ & Hstatus & Hcount & _ & Hpns & _).
    rewrite Hstatus. simpl. split; [reflexivity|]. split; [reflexivity|].
    split; [exact Hcount|]. rewrite Hpns. congruence.
  - destruct Hcases as (Hprint & Hstatus & Hm & _).
    rewrite Hstatus. simpl. rewrite Hm. auto.
Qed.

(** X17: [POST /generate] answers with the payload of [generate_only], of
    status [success] and carrying the answer of the model, when the model
    answered and the print of the timing line returned: these are then the
    last two calls of the log.  Otherwise a call of the generator raised,
    the model invocation or that print among them; it is the last entry of
    the log, and the response is the error 400 whose detail is the text of
    that exception.  The endpoint never answers 500. *)
Theorem generate_endpoint_responses (question context : string)
    (custom_prompt : option string) (st : state W RAGService.t) :
  exists payload st',
    RAGService.generate_only question context custom_prompt st
    = (Returned payload, st')
    /\ ((exists before prompt content,
            log st' = before
                      ++ [Called (ChainInvoke prompt
                                    (RAGGenerator.llm (RAGService.generator (self st)))
                                    (RAGGenerator._prepare_context
                                       [mkDocument context []]) question)
                            (inr content);
                          Called PrintGeneration (inr tt)]
            /\ Main.generate question context custom_prompt st
               = (Returned (inr payload), st')
            /\ payload !! "status" = Some (VStr "success")
            /\ payload !! "answer" = Some (VStr content)
            /\ payload !! "context_provided" = Some (VBool true))
        \/ (exists before c e,
              log st' = before ++ [Called c (inl e)]
              /\ Main.generate question context custom_prompt st
                 = (Returned (inl (Main.HTTPException 400 (VStr (exn_msg e)))), st')
              /\ payload !! "status" = Some (VStr "error"))).
Proof.
  destruct (generate_only_outcome question context custom_prompt st)
    as (result & st' & E & Egen).
  destruct (generate_response_outcome (RAGService.generator (self st)) question
              [mkDocument context []] custom_prompt st)
    as (result' & st'' & Egen' & Hgen).
  rewrite Egen in Egen'. inversion Egen'; subst result' st''.
  do 2 eexists. split; [exact E|].
  unfold Main.generate, Main.guarded, try_except, bind. rewrite E.
  unfold Main.reply_or_400.
  destruct Hgen as [(before & prompt & content & Hlog & Hs & Ha & _)
                   |(before & c & e & Hlog & Hs & Hm & _)];
    rewrite !lookup_insert_ne by discriminate; rewrite Hs; simpl.
  - left. exists before, prompt, content. split; [exact Hlog|].
    split; [reflexivity|]. split; [reflexivity|]. split; [exact Ha|].
    apply lookup_insert_eq.
  - right. exists before, c, e.
    rewrite ?lookup_insert_ne by discriminate. rewrite Hm. auto.
Qed.

End EndpointMore.

(** ** Ingestion: text, statistics and deletion *)

Section IngestionMore.

Import Py Sys.

Context {W : Type} `{!Outside W}.
Variable config : Config.t.
Variable splitext_ext : string -> string.
Variable basename : string -> string.
Variable join : string -> string -> string.

Ltac unfold_ingestion :=
  unfold IngestionService.ingest_text, IngestionService.ingest_file,
    IngestionService.get_vector_store_stats, IngestionService.delete_namespace,
    IngestionService.with_processor, IngestionService.with_store,
    VectorStoreIO.add_documents, VectorStoreIO.delete_namespace,
    VectorStoreIO.get_stats, DocumentProcessor.process_text,
    lift, on_attr, invoke, getattr, setattr, Ext.invoke, Ext.getattr,
    bind, ret, raise, try_except, gets, modify.

Ltac ask :=
  match goal with
  | |- context [respond ?c ?w0] =>
      let e := fresh "e" in let v := fresh "v" in let w := fresh "w" in
      destruct (respond c w0) as [[e|v] w]; simpl
  | |- context [Ext.respond ?c ?w0] =>
      let e := fresh "e" in let v := fresh "v" in let w := fresh "w" in
      destruct (Ext.respond c w0) as [[e|v] w]; simpl
  end.

(** The text handed to the splitter, as a call of this layer. *)
Lemma lift_process_text (sp : Ext.RecursiveCharacterTextSplitter) (text : string)
    (metadata : option (list (string * string)))
    (st : state W DocumentProcessor.t) :
  DocumentProcessor.text_splitter (self st) = Some sp ->
  lift (DocumentProcessor.process_text text metadata) st
  = let c := Lib (Ext.SplitDocuments sp [mkDocument text (default [] metadata)]) in
    let (r, w') := respond c (world st) in
    (match r with inl e => Raised e | inr chunks => Returned chunks end,
     State (self st) w' (log st ++ [Performed c r])).
Proof.
  intros Hsp. unfold_ingestion. simpl. rewrite Hsp.
  unfold Ext.respond, library. cbn [Ext.world Ext.self Ext.log].
  destruct (respond _ (world st)) as [[e|chunks] w']; reflexivity.
Qed.

(** X18: [ingest_text] never raises.  Its payload carries the namespace
    asked for.  With status [success], the text went to the splitter as one
    document, and the chunks that the splitter returned, all of them, were
    written under that namespace by the last call made; [chunks_processed]
    is their number.  Otherwise the status is [error], [chunks_processed] is
    0, the message is a string, and no write succeeded. *)
Theorem ingest_text_outcomes (text : string)
    (metadata : option (list (string * string))) (namespace : string)
    (st : state W IngestionService.t) :
  exists payload st' new,
    IngestionService.ingest_text config text metadata namespace st
    = (Returned payload, st')
    /\ log st' = log st ++ new
    /\ payload !! "namespace" = Some (VStr namespace)
    /\ ((exists sp chunks,
           DocumentProcessor.text_splitter
             (IngestionService.document_processor (self st)) = Some sp
           /\ new = [Performed
                       (Lib (Ext.SplitDocuments sp
                               [mkDocument text (default [] metadata)]))
                       (inr chunks);
                     Performed
                       (FromDocuments chunks
                          (VectorStore.embeddings
                             (IngestionService.vector_store (self st)))
                          (Config.PINECONE_INDEX_NAME config) namespace)
                       (inr tt)]
           /\ payload !! "status" = Some (VStr "success")
           /\ payload !! "chunks_processed"
              = Some (VInt (Z.of_nat (length chunks)))
           /\ payload !! "message"
              = Some (VStr ("Successfully ingested "
                            +:+ Str.of_nat (length chunks) +:+ " chunks")))
        \/ (payload !! "status" = Some (VStr "error")
            /\ payload !! "chunks_processed" = Some (VInt 0)
            /\ (exists message, payload !! "message" = Some (VStr message))
            /\ Forall (fun e => is_write (entry_call e) && succeeded e = false)
                 new)).
Proof.
  unfold_ingestion. cbn [Ext.self Ext.world Ext.log self world log].
  destruct (DocumentProcessor.text_splitter
              (IngestionService.document_processor (self st))) as [sp|] eqn:Hsp;
    simpl.
  - unfold Ext.respond, library.
    destruct (respond _ (world st)) as [[e|chunks] w1]; simpl.
    + do 3 eexists. split; [reflexivity|]. split; [reflexivity|].
      split; [reflexivity|]. right.
      split; [reflexivity|]. split; [reflexivity|]. split; [eauto|].
      repeat constructor.
    + destruct (respond (FromDocuments _ _ _ _) w1) as [[e|[]] w2]; simpl.
      * do 3 eexists. split; [reflexivity|].
        split; [rewrite <- app_assoc; reflexivity|].
        split; [reflexivity|]. right.
        split; [reflexivity|]. split; [reflexivity|]. split; [eauto|].
        repeat constructor.
      * do 3 eexists. split; [reflexivity|].
        split; [rewrite <- app_assoc; reflexivity|].
        split; [reflexivity|]. left. exists sp, chunks.
        repeat split; reflexivity.
  - do 3 eexists. split; [reflexivity|].
    split; [reflexivity|].
    split; [reflexivity|]. right.
    split; [reflexivity|]. split; [reflexivity|]. split; [eauto|]. constructor.
Qed.

(** X19: [POST /ingest/text] never answers 400.  Its handler for
    [Exception] has no clause for [HTTPException] before it, so the error
    400 raised for a payload with status [error] is caught and answered as
    500, with the text of that error 400 as detail.  An empty namespace
    stands for [default]; the metadata handed on is the fixed
    [source: api:text]. *)
Theorem ingest_text_endpoint_never_400 (http_str : Main.http_error -> string)
    (text namespace : string) (st : state W IngestionService.t) :
  let target := if String.eqb namespace "" then "default" else namespace in
  exists payload st',
    IngestionService.ingest_text config text (Some [("source", "api:text")])
      target st = (Returned payload, st')
    /\ ((payload !! "status" = Some (VStr "success")
         /\ Main.ingest_text config http_str text namespace st
            = (Returned (inr payload), st'))
        \/ (exists message,
              payload !! "status" = Some (VStr "error")
              /\ payload !! "message" = Some (VStr message)
              /\ Main.ingest_text config http_str text namespace st
                 = (Returned
                      (inl (Main.HTTPException 500
                              (VStr (http_str
                                       (Main.HTTPException 400 (VStr message)))))),
                    st'))).
Proof.
  intros target. subst target.
  unfold Main.ingest_text, Main.caught, Main.reply_or_400. simpl.
  destruct (String.eqb namespace ""); simpl;
    unfold_ingestion; cbn [Ext.self Ext.world Ext.log self world log];
    (destruct (DocumentProcessor.text_splitter
                 (IngestionService.document_processor (self st))) as [sp|];
     simpl; [unfold Ext.respond, library|]);
    repeat ask; do 2 eexists; (split; [reflexivity|]);
    first [ left; split; reflexivity
          | right; eexists; repeat split; reflexivity ].
Qed.

(** X20: [DELETE /namespace/{namespace}] makes at most one call, the
    deletion of that namespace on the index of the vector store, and leaves
    the service as it is.  When that call returns, the answer is the success
    payload, which names the namespace.  When it raises, the answer is the
    error 400 whose detail is the text of the exception that the call
    raised.  When no index is set, no call is made and the detail is the text
    of the [AttributeError].  It never answers 500. *)
Theorem delete_namespace_endpoint (namespace : string)
    (st : state W IngestionService.t) :
  exists st' new,
    log st' = log st ++ new
    /\ self st' = self st
    /\ ((exists index,
           VectorStore.index (IngestionService.vector_store (self st)) = Some index
           /\ new = [Performed (Delete index namespace) (inr tt)]
           /\ Main.delete_namespace namespace st
              = (Returned
                   (inr (<["status" := VStr "success"]>
                         (<["message" := VStr ("Successfully deleted namespace: "
                                               +:+ namespace)]> ∅))),
                 st'))
        \/ (exists index e,
              VectorStore.index (IngestionService.vector_store (self st)) = Some index
              /\ new = [Performed (Delete index namespace) (inl e)]
              /\ Main.delete_namespace namespace st
                 = (Returned (inl (Main.HTTPException 400 (VStr (exn_msg e)))), st'))
        \/ (VectorStore.index (IngestionService.vector_store (self st)) = None
            /\ new = []
            /\ Main.delete_namespace namespace st
               = (Returned
                    (inl (Main.HTTPException 400
                            (VStr (exn_msg HybridRetriever.AttributeError)))),
                  st'))).
Proof.
  unfold Main.delete_namespace, Main.guarded, Main.reply_or_400.
  unfold_ingestion. simpl.
  destruct (VectorStore.index (IngestionService.vector_store (self st)))
    as [index|] eqn:Hindex; simpl.
  - destruct (respond (Delete index namespace) (world st)) as [[e|[]] w1] eqn:E;
      simpl;
      [exists (State (IngestionService.set_vector_store
                        (IngestionService.vector_store (self st)) (self st)) w1
                 (log st ++ [Performed (Delete index namespace) (inl e)])),
         [Performed (Delete index namespace) (inl e)]
      |exists (State (IngestionService.set_vector_store
                        (IngestionService.vector_store (self st)) (self st)) w1
                 (log st ++ [Performed (Delete index namespace) (inr tt)])),
         [Performed (Delete index namespace) (inr tt)]];
      (split; [reflexivity|]);
      (split; [simpl; destruct (self st); reflexivity|]).
    + right. left. exists index, e. repeat split; reflexivity.
    + left. exists index. repeat split; reflexivity.
  - exists (State (self st) (world st) (log st)), [].
    split; [simpl; symmetry; apply app_nil_r|]. split; [reflexivity|].
    right. right. split; [reflexivity|]. split; [reflexivity|].
    destruct st as [[dp vs] w l]; reflexivity.
Qed.

(** X21: [GET /stats] makes at most one call, the statistics of the index
    of the vector store, and leaves the service as it is.  When that call
    returns, the answer is the payload of status [success] that holds what
    it returned under [stats].  When it raises, the answer is the error 400
    whose detail is the text of the exception that the call raised.  When no
    index is set, no call is made and the detail is the text of the
    [AttributeError].  It never answers 500. *)
Theorem get_stats_endpoint (st : state W IngestionService.t) :
  exists st' new,
    log st' = log st ++ new
    /\ self st' = self st
    /\ ((exists index stats,
           VectorStore.index (IngestionService.vector_store (self st)) = Some index
           /\ new = [Performed (DescribeIndexStats index) (inr stats)]
           /\ Main.get_stats st
              = (Returned
                   (inr (<["status" := VStr "success"]> (<["stats" := stats]> ∅))),
                 st'))
        \/ (exists index e,
              VectorStore.index (IngestionService.vector_store (self st)) = Some index
              /\ new = [Performed (DescribeIndexStats index) (inl e)]
              /\ Main.get_stats st
                 = (Returned (inl (Main.HTTPException 400 (VStr (exn_msg e)))), st'))
        \/ (VectorStore.index (IngestionService.vector_store (self st)) = None
            /\ new = []
            /\ Main.get_stats st
               = (Returned
                    (inl (Main.HTTPException 400
                            (VStr (exn_msg HybridRetriever.AttributeError)))),
                  st'))).
Proof.
  unfold Main.get_stats, Main.guarded, Main.reply_or_400.
  unfold_ingestion. simpl.
  destruct (VectorStore.index (IngestionService.vector_store (self st)))
    as [index|] eqn:Hindex; simpl.
  - destruct (respond (DescribeIndexStats index) (world st)) as [[e|stats] w1];
      simpl;
      [exists (State (IngestionService.set_vector_store
                        (IngestionService.vector_store (self st)) (self st)) w1
                 (log st ++ [Performed (DescribeIndexStats index) (inl e)])),
         [Performed (DescribeIndexStats index) (inl e)]
      |exists (State (IngestionService.set_vector_store
                        (IngestionService.vector_store (self st)) (self st)) w1
                 (log st ++ [Performed (DescribeIndexStats index) (inr stats)])),
         [Performed (DescribeIndexStats index) (inr stats)]];
      (split; [reflexivity|]);
      (split; [simpl; destruct (self st); reflexivity|]).
    + right. left. exists index, e. repeat split; reflexivity.
    + left. exists index, stats. repeat split; reflexivity.
  - exists (State (self st) (world st) (log st)), [].
    split; [simpl; symmetry; apply app_nil_r|]. split; [reflexivity|].
    right. right. split; [reflexivity|]. split; [reflexivity|].
    destruct st as [[dp vs] w l]; reflexivity.
Qed.

End IngestionMore.

(** ** Files: what [process_file] reads and what it hands on *)

Section FilesMore.

Import Py Sys DocumentFiles.

Context {W : Type} `{!Outside W}.
Variable splitext_ext : string -> string.
Variable basename : string -> string.

Ltac unfold_files :=
  unfold process_file, import_or, DocumentProcessor.process_text,
    lift, invoke, getattr, Ext.invoke, Ext.getattr,
    bind, ret, raise, try_except, gets.

Lemma dict_get_set_eq (key value : string) (d : list (string * string)) :
  dict_get key (dict_set key value d) = Some value.
Proof.
  induction d as [|[k v] d IH]; simpl.
  - now rewrite String.eqb_refl.
  - destruct (String.eqb k key) eqn:E; simpl; rewrite E; [reflexivity | exact IH].
Qed.

Lemma dict_get_set_ne (key other value : string) (d : list (string * string)) :
  other <> key ->
  dict_get other (dict_set key value d) = dict_get other d.
Proof.
  intros Hne. induction d as [|[k v] d IH]; simpl.
  - destruct (String.eqb_spec key other); [congruence | reflexivity].
  - destruct (String.eqb_spec k key) as [->|Hk]; simpl.
    + destruct (String.eqb_spec key other); [congruence | reflexivity].
    + now rewrite IH.
Qed.

(** Assigning a key that a filter on the keys drops does not change what
    the filter keeps. *)
Lemma filter_dropped_set (keep : string -> bool) (key value : string)
    (d : list (string * string)) :
  keep key = false ->
  List.filter (fun kv => keep (fst kv)) (dict_set key value d)
  = List.filter (fun kv => keep (fst kv)) d.
Proof.
  intros Hkey. induction d as [|[k v] d IH]; simpl.
  - now rewrite Hkey.
  - destruct (String.eqb_spec k key) as [->|Hk]; simpl.
    + now rewrite Hkey.
    + now rewrite IH.
Qed.

Ltac project_document := cbn [metadata page_content].

Lemma filter_file_keys_set (key value : string) (d : list (string * string)) :
  key ∈ Rendering.file_keys ->
  List.filter (fun kv => bool_decide (fst kv ∉ Rendering.file_keys))
    (dict_set key value d)
  = List.filter (fun kv => bool_decide (fst kv ∉ Rendering.file_keys)) d.
Proof.
  intros Hkey.
  pose (keep := fun key : string => bool_decide (key ∉ Rendering.file_keys)).
  apply (filter_dropped_set keep). apply bool_decide_eq_false. tauto.
Qed.

(** X22: [process_file] reads nothing from a file it rejects.  For a path
    that does not exist it raises [FileNotFoundError]; for a path whose
    extension, in lower case, is none of [.txt], [.md], [.pdf] and [.docx]
    it raises [ValueError] naming that extension.  In both cases the check
    of existence is the only call made. *)
Theorem process_file_rejects_unread (file_path : string)
    (metadata : option (list (string * string)))
    (st : state W DocumentProcessor.t) (found : bool) (w1 : W) :
  respond (PathExists file_path) (world st) = (inr found, w1) ->
  found = false
  \/ lower (splitext_ext file_path) ∉ [".txt"; ".md"; ".pdf"; ".docx"] ->
  process_file splitext_ext basename file_path metadata st
  = (Raised (if found
             then ValueError ("Unsupported file extension: "
                              +:+ lower (splitext_ext file_path))
             else FileNotFoundError ("File not found: " +:+ file_path)),
     State (self st) w1 (log st ++ [Performed (PathExists file_path) (inr found)])).
Proof.
  intros Hexists Hreject. unfold_files. rewrite Hexists. simpl.
  destruct found; simpl; [|reflexivity].
  destruct Hreject as [|Hext]; [discriminate|].
  set (ext := lower (splitext_ext file_path)) in *.
  assert (String.eqb ext ".txt" = false /\ String.eqb ext ".md" = false
          /\ String.eqb ext ".pdf" = false /\ String.eqb ext ".docx" = false)
    as (-> & -> & -> & ->).
  { repeat split; apply String.eqb_neq; intros ->; apply Hext;
      repeat first [apply list_elem_of_here | apply list_elem_of_further]. }
  reflexivity.
Qed.

(** X23: for a text file, [process_file] hands the splitter one document:
    the text read, with the given metadata in which [source] is the path
    and [file_name] its base name, whatever the caller gave for these two
    keys; the other keys are as given.  These two keys are the ones that
    the prompt composer drops.  What the splitter returns or raises is the
    outcome. *)
Theorem process_file_text (file_path text : string)
    (metadata : option (list (string * string)))
    (st : state W DocumentProcessor.t)
    (sp : Ext.RecursiveCharacterTextSplitter) (w1 w2 : W) :
  DocumentProcessor.text_splitter (self st) = Some sp ->
  respond (PathExists file_path) (world st) = (inr true, w1) ->
  lower (splitext_ext file_path) = ".txt" \/ lower (splitext_ext file_path) = ".md" ->
  respond (ReadText file_path) w1 = (inr text, w2) ->
  exists md,
    dict_get "source" md = Some file_path
    /\ dict_get "file_name" md = Some (basename file_path)
    /\ (forall key, key <> "source" -> key <> "file_name" ->
        dict_get key md = dict_get key (default [] metadata))
    /\ Rendering.without_file_keys (mkDocument text md)
       = Rendering.without_file_keys (mkDocument text (default [] metadata))
    /\ let c := Lib (Ext.SplitDocuments sp [mkDocument text md]) in
       let (r, w3) := respond c w2 in
       process_file splitext_ext basename file_path metadata st
       = (match r with inl e => Raised e | inr chunks => Returned chunks end,
          State (self st) w3
            (log st ++ [Performed (PathExists file_path) (inr true);
                        Performed (ReadText file_path) (inr text);
                        Performed c r])).
Proof.
  intros Hsp Hexists Hext Hread.
  exists (dict_set "file_name" (basename file_path)
            (dict_set "source" file_path (default [] metadata))).
  split; [rewrite dict_get_set_ne by discriminate; apply dict_get_set_eq|].
  split; [apply dict_get_set_eq|].
  split; [intros key H1 H2; now rewrite !dict_get_set_ne by assumption|].
  split.
  { unfold Rendering.without_file_keys. project_document. f_equal.
    etransitivity; apply filter_file_keys_set;
      repeat first [apply list_elem_of_here | apply list_elem_of_further]. }
  unfold_files. rewrite Hexists. simpl.
  assert (String.eqb (lower (splitext_ext file_path)) ".txt"
          || String.eqb (lower (splitext_ext file_path)) ".md" = true) as ->.
  { destruct Hext as [-> | ->]; reflexivity. }
  cbn [world self log]. rewrite Hread. simpl. rewrite Hsp.
  unfold Ext.respond, library. simpl.
  destruct (respond _ w2) as [[e|chunks] w3]; simpl; rewrite <- !app_assoc;
    reflexivity.
Qed.

(** The loop over the pages returns, and writes nothing. *)
Lemma extract_pages_run (pages : list PdfPage) :
  forall (pages_text : list string) (st : state W DocumentProcessor.t),
  exists texts st' new,
    extract_pages pages pages_text st = (Returned texts, st')
    /\ self st' = self st
    /\ log st' = log st ++ new
    /\ Forall (fun e => is_write (entry_call e) = false) new.
Proof.
  induction pages as [|page rest IH]; intros pages_text st.
  - exists pages_text, st, []. cbn. rewrite app_nil_r. auto.
  - cbn [extract_pages]. unfold bind at 1. unfold try_except, bind, invoke, ret.
    destruct (respond (ExtractText page) (world st)) as [[e|text] w1]; simpl;
      match goal with
      | |- context [extract_pages rest ?acc ?st1] =>
          destruct (IH acc st1) as (texts & st' & new & -> & Hself & Hlog & Hnew)
      end;
      exists texts, st'; eexists; (split; [reflexivity|]);
      (split; [exact Hself|]); simpl in Hlog; rewrite Hlog, <- app_assoc;
      (split; [reflexivity|]); (constructor; [reflexivity | exact Hnew]).
Qed.

(** X24: the loop over the pages of a PDF never raises, leaves the
    processor as it is, and makes one extraction per page, in the order of
    the pages, and no other call.  It adds one text per page, in that order:
    the text that the extraction returned, and the empty text for a page
    whose extraction returned [None] or raised. *)
Theorem extract_pages_one_text_per_page (pages : list PdfPage) :
  forall (pages_text : list string) (st : state W DocumentProcessor.t),
  exists (replies : list (exn + option string)) (st' : state W DocumentProcessor.t),
    length replies = length pages
    /\ extract_pages pages pages_text st
       = (Returned (pages_text ++ map Observe.page_text replies), st')
    /\ log st'
       = log st ++ zip_with (fun page (r : exn + option string) =>
                       Performed (ExtractText page) r)
                     pages replies
    /\ self st' = self st.
Proof.
  induction pages as [|page rest IH]; intros pages_text st.
  - exists [], st. cbn. rewrite !app_nil_r. auto.
  - cbn [extract_pages]. unfold bind at 1. unfold try_except, bind, invoke, ret.
    destruct (respond (ExtractText page) (world st)) as [r w1] eqn:E.
    assert (exists replies st',
               length replies = length rest
               /\ extract_pages rest (pages_text ++ [Observe.page_text r])
                    (State (self st) w1 (log st ++ [Performed (ExtractText page) r]))
                  = (Returned ((pages_text ++ [Observe.page_text r])
                               ++ map Observe.page_text replies), st')
               /\ log st'
                  = (log st ++ [Performed (ExtractText page) r])
                    ++ zip_with (fun page (r : exn + option string) =>
                       Performed (ExtractText page) r)
                         rest replies
               /\ self st' = self st)
      as (replies & st' & Hlen & Hrun & Hlog & Hself)
      by exact (IH (pages_text ++ [Observe.page_text r])
                  (State (self st) w1 (log st ++ [Performed (ExtractText page) r]))).
    exists (r :: replies), st'.
    split; [simpl; now rewrite Hlen|].
    rewrite <- app_assoc in Hrun, Hlog. simpl in Hrun, Hlog.
    split; [|split; [exact Hlog | exact Hself]].
    destruct r as [e|[text|]]; simpl in *; try exact Hrun.
    destruct text; exact Hrun.
Qed.

(** [process_file] ends, and writes nothing. *)
Lemma process_file_run (file_path : string)
    (metadata : option (list (string * string)))
    (st : state W DocumentProcessor.t) :
  exists r st' new,
    process_file splitext_ext basename file_path metadata st = (r, st')
    /\ r <> OutOfFuel
    /\ self st' = self st
    /\ log st' = log st ++ new
    /\ Forall (fun e => is_write (entry_call e) = false) new.
Proof.
  assert (Hsplit : forall text md (st1 : state W DocumentProcessor.t) new1,
             log st1 = log st ++ new1 ->
             self st1 = self st ->
             Forall (fun e => is_write (entry_call e) = false) new1 ->
             exists r st' new,
               lift (DocumentProcessor.process_text text md) st1 = (r, st')
               /\ r <> OutOfFuel
               /\ self st' = self st
               /\ log st' = log st ++ new
               /\ Forall (fun e => is_write (entry_call e) = false) new).
  { intros text md st1 new1 Hlog Hself Hnew1.
    unfold DocumentProcessor.process_text, lift, Ext.invoke, Ext.getattr,
      bind, ret, raise, gets.
    cbn [Ext.self Ext.world Ext.log].
    destruct (DocumentProcessor.text_splitter (self st1)) as [sp|]; simpl.
    - unfold Ext.respond, library.
      destruct (respond _ (world st1)) as [[e|chunks] w']; simpl;
        do 3 eexists; (split; [reflexivity|]); (split; [discriminate|]);
        (split; [exact Hself|]); simpl; rewrite Hlog, <- app_assoc;
        (split; [reflexivity|]); apply Forall_app; split; auto;
        repeat constructor.
    - do 3 eexists. split; [reflexivity|]. split; [discriminate|].
      split; [exact Hself|]. simpl. rewrite app_nil_r, Hlog.
      split; [reflexivity | exact Hnew1]. }
  unfold process_file. unfold bind at 1. unfold invoke at 1.
  destruct (respond (PathExists file_path) (world st)) as [[e|found] w1]; simpl.
  { do 3 eexists. split; [reflexivity|]. split; [discriminate|].
    split; [reflexivity|]. split; [reflexivity|]. repeat constructor. }
  destruct found; simpl.
  2:{ unfold raise. do 3 eexists. split; [reflexivity|]. split; [discriminate|].
      split; [reflexivity|]. split; [reflexivity|]. repeat constructor. }
  set (ext := lower (splitext_ext file_path)).
  set (md := Some (dict_set "file_name" (basename file_path)
                     (dict_set "source" file_path (default [] metadata)))).
  unfold bind at 1.
  destruct (String.eqb ext ".txt" || String.eqb ext ".md").
  { unfold invoke at 1. cbn [world self log].
    destruct (respond (ReadText file_path) w1) as [[e|text] w2]; simpl.
    - do 3 eexists. split; [reflexivity|]. split; [discriminate|].
      split; [reflexivity|]. rewrite <- app_assoc.
      split; [reflexivity|]. repeat constructor.
    - eapply Hsplit; [simpl; rewrite <- app_assoc; reflexivity | reflexivity|].
      repeat constructor. }
  destruct (String.eqb ext ".pdf").
  { unfold import_or, try_except, bind, invoke, raise. cbn [world self log].
    destruct (respond ImportPypdf w1) as [[e|[]] w2]; simpl.
    - destruct (is_import_error e); do 3 eexists; (split; [reflexivity|]);
        (split; [discriminate|]); (split; [reflexivity|]); rewrite <- app_assoc;
        (split; [reflexivity|]); repeat constructor.
    - destruct (respond (PdfReader file_path) w2) as [[e|pages] w3]; simpl.
      + do 3 eexists. split; [reflexivity|]. split; [discriminate|].
        split; [reflexivity|]. rewrite <- !app_assoc.
        split; [reflexivity|]. repeat constructor.
      + match goal with
        | |- context [extract_pages pages [] ?st1] =>
            destruct (extract_pages_run pages [] st1)
              as (texts & st2 & new & -> & Hself & Hlog & Hnew)
        end.
        unfold ret. eapply Hsplit; [|exact Hself|].
        * rewrite Hlog. simpl. rewrite <- !app_assoc. reflexivity.
        * repeat (constructor; [reflexivity|]). exact Hnew. }
  destruct (String.eqb ext ".docx").
  { unfold import_or, try_except, bind, invoke, raise, ret. cbn [world self log].
    destruct (respond ImportDocx w1) as [[e|[]] w2]; simpl.
    - destruct (is_import_error e); do 3 eexists; (split; [reflexivity|]);
        (split; [discriminate|]); (split; [reflexivity|]); rewrite <- app_assoc;
        (split; [reflexivity|]); repeat constructor.
    - destruct (respond (DocxDocument file_path) w2) as [[e|texts] w3]; simpl.
      + do 3 eexists. split; [reflexivity|]. split; [discriminate|].
        split; [reflexivity|]. rewrite <- !app_assoc.
        split; [reflexivity|]. repeat constructor.
      + eapply Hsplit; [simpl; rewrite <- !app_assoc; reflexivity | reflexivity|].
        repeat constructor. }
  unfold raise. do 3 eexists. split; [reflexivity|]. split; [discriminate|].
  split; [reflexivity|]. split; [reflexivity|]. repeat constructor.
Qed.

End FilesMore.

(** ** Files and directories through the ingestion service *)

Section DirectoryMore.

Import Py Sys IngestionService.

Context {W : Type} `{!Outside W}.
Variable config : Config.t.
Variable splitext_ext : string -> string.
Variable basename : string -> string.
Variable join : string -> string -> string.

(** X25: [ingest_file] never raises and leaves the service as it is.  It
    first runs [process_file] on the path, which writes nothing.  When this
    returns chunks, exactly these chunks are written under the namespace, by
    one call, the last one made; if that call returns, the payload has
    status [success], the path in its message, and the number of these
    chunks as [chunks_processed].  When [process_file] or the write raises,
    the payload has status [error], the text of that exception as message
    and [chunks_processed] 0.  Both payloads carry the path and the
    namespace. *)
Theorem ingest_file_outcomes (file_path : string)
    (metadata : option (list (string * string))) (namespace : string)
    (st : state W t) :
  let failed (e : exn) : gmap string pyval :=
    <["status" := VStr "error"]>
    (<["message" := VStr (exn_msg e)]>
    (<["chunks_processed" := VInt 0]>
    (<["file_path" := VStr file_path]>
    (<["namespace" := VStr namespace]> ∅)))) in
  exists r st1 read,
    DocumentFiles.process_file splitext_ext basename file_path metadata
      (State (document_processor (self st)) (world st) (log st)) = (r, st1)
    /\ log st1 = log st ++ read
    /\ Forall (fun e => is_write (entry_call e) = false) read
    /\ match r with
       | Returned chunks =>
           let c := FromDocuments chunks
                      (VectorStore.embeddings (vector_store (self st)))
                      (Config.PINECONE_INDEX_NAME config) namespace in
           let (written, w2) := respond c (world st1) in
           ingest_file config splitext_ext basename file_path metadata namespace st
           = (Returned
                match written with
                | inr _ =>
                    <["status" := VStr "success"]>
                    (<["message" := VStr ("Successfully ingested file: "
                                          +:+ file_path)]>
                    (<["chunks_processed" := VInt (Z.of_nat (length chunks))]>
                    (<["file_path" := VStr file_path]>
                    (<["namespace" := VStr namespace]> ∅))))
                | inl e => failed e
                end,
              State (self st) w2 (log st ++ read ++ [Performed c written]))
       | Raised e =>
           ingest_file config splitext_ext basename file_path metadata namespace st
           = (Returned (failed e), State (self st) (world st1) (log st ++ read))
       | OutOfFuel => False
       end.
Proof.
  intros failed. subst failed.
  unfold ingest_file, with_processor, with_store, VectorStoreIO.add_documents,
    on_attr, try_except, bind, getattr, gets, ret.
  destruct (process_file_run splitext_ext basename file_path metadata
              (State (document_processor (self st)) (world st) (log st)))
    as (r & st1 & read & E & Hr & Hself & Hlog & Hread).
  simpl in Hlog, Hself. rewrite E.
  exists r, st1, read. split; [reflexivity|]. split; [exact Hlog|].
  split; [exact Hread|].
  destruct r as [chunks|e|]; [| |congruence]; simpl.
  - unfold invoke. simpl. rewrite Hself.
    replace (vector_store (set_document_processor (document_processor (self st))
                             (self st)))
      with (vector_store (self st)) by (destruct (self st); reflexivity).
    destruct (respond (FromDocuments _ _ _ _) (world st1)) as [[e|[]] w2]; simpl;
      rewrite Hlog, <- app_assoc; destruct (self st); reflexivity.
  - rewrite Hself, Hlog. destruct (self st); reflexivity.
Qed.

(** What the loop of [ingest_directory] relies on. *)
Lemma ingest_file_result (file_path : string)
    (metadata : option (list (string * string))) (namespace : string)
    (st : state W t) :
  exists payload st',
    ingest_file config splitext_ext basename file_path metadata namespace st
    = (Returned payload, st')
    /\ payload !! "file_path" = Some (VStr file_path)
    /\ ((payload !! "status" = Some (VStr "success")
         /\ exists n, payload !! "chunks_processed" = Some (VInt n))
        \/ (payload !! "status" = Some (VStr "error")
            /\ payload !! "chunks_processed" = Some (VInt 0)
            /\ exists message, payload !! "message" = Some (VStr message))).
Proof.
  unfold ingest_file, with_processor, with_store, VectorStoreIO.add_documents,
    on_attr, try_except, bind, getattr, gets, ret.
  destruct (process_file_run splitext_ext basename file_path metadata
              (State (document_processor (self st)) (world st) (log st)))
    as (r & st1 & new & -> & Hr & _).
  destruct r as [chunks|e|]; [| |congruence]; simpl.
  - unfold invoke. simpl.
    destruct (respond (FromDocuments _ _ _ _) (world st1)) as [[e|[]] w2]; simpl;
      do 2 eexists; (split; [reflexivity|]); (split; [reflexivity|]);
      [right | left]; repeat split; eauto.
  - do 2 eexists. split; [reflexivity|]. split; [reflexivity|].
    right. repeat split; eauto.
Qed.

(** A result of [ingest_file], as the loop sees it. *)
Local Abbreviation counted result :=
  (result !! "status" = Some (VStr "success")
   \/ (result !! "status" = Some (VStr "error")
       /\ Observe.chunks_processed result = 0)).

Local Abbreviation total results :=
  (foldr Z.add 0 (map Observe.chunks_processed results)).

Local Abbreviation each paths namespace st :=
  (Observe.ingest_each config splitext_ext basename paths namespace st).

Lemma total_app (a b : list (gmap string pyval)) :
  total (a ++ b) = total a + total b.
Proof.
  induction a as [|x a IH]; simpl; [reflexivity|]. rewrite IH. lia.
Qed.

(** Running [ingest_file] over two lists of paths in turn. *)
Lemma ingest_each_app (namespace : string) (a b : list string) :
  forall st : state W t,
  each (a ++ b) namespace st
  = let (ra, sa) := each a namespace st in
    let (rb, sb) := each b namespace sa in
    (ra ++ rb, sb).
Proof.
  induction a as [|path a IH]; intros st; simpl.
  - destruct (each b namespace st). reflexivity.
  - destruct (ingest_file_result path None namespace st)
      as (payload & st1 & -> & _).
    rewrite IH. destruct (each a namespace st1) as [ra sa].
    destruct (each b namespace sa). reflexivity.
Qed.

Lemma ingest_match_step (root file namespace : string)
    (results : list (gmap string pyval)) (total_chunks : Z) (st : state W t) :
  exists result st',
    ingest_match config splitext_ext basename join root file namespace
      (results, total_chunks) st
    = (Returned (None, (results ++ [result],
                        total_chunks + Observe.chunks_processed result)), st')
    /\ result !! "file_path" = Some (VStr (join root file))
    /\ counted result
    /\ ingest_file config splitext_ext basename (join root file) None namespace st
       = (Returned result, st').
Proof.
  unfold ingest_match, bind.
  destruct (ingest_file_result (join root file) None namespace st)
    as (result & st' & -> & Hpath & Hstatus).
  exists result, st'. unfold Observe.chunks_processed.
  destruct Hstatus as [(Hs & n & Hn)|(Hs & Hn & _)]; rewrite Hs, ?Hn; simpl;
    unfold ret; rewrite ?Z.add_0_r; auto 8.
Qed.

Lemma ingest_files_loop (file_extensions : list string) (root namespace : string)
    (files : list string) :
  forall (results : list (gmap string pyval)) (total_chunks : Z) (st : state W t),
  exists added st',
    ingest_files config splitext_ext basename join file_extensions root files
      namespace (results, total_chunks) st
    = (Returned (None, (results ++ added, total_chunks + total added)), st')
    /\ map (fun result => result !! "file_path") added
       = map (fun path => Some (VStr path))
           (map (join root) (List.filter (matches file_extensions) files))
    /\ Forall (fun result => counted result) added
    /\ each (map (join root) (List.filter (matches file_extensions) files))
         namespace st = (added, st').
Proof.
  induction files as [|file rest IH]; intros results total_chunks st.
  - exists [], st. cbn. rewrite app_nil_r, Z.add_0_r. auto.
  - cbn [ingest_files List.filter].
    destruct (matches file_extensions file).
    + unfold bind.
      destruct (ingest_match_step root file namespace results total_chunks st)
        as (result & st1 & -> & Hpath & Hcounted & Hfile).
      destruct (IH (results ++ [result])
                  (total_chunks + Observe.chunks_processed result) st1)
        as (added & st' & -> & Hpaths & Hadded & Heach).
      exists (result :: added), st'.
      rewrite <- app_assoc. simpl. rewrite Z.add_assoc.
      split; [reflexivity|]. split; [now rewrite Hpath, Hpaths|].
      split; [constructor; assumption|].
      rewrite Hfile, Heach. reflexivity.
    + apply IH.
Qed.

Lemma ingest_walk_loop (file_extensions : list string) (namespace : string)
    (triples : list (string * list string * list string)) :
  forall (results : list (gmap string pyval)) (total_chunks : Z) (st : state W t),
  exists added st',
    ingest_walk config splitext_ext basename join file_extensions triples
      namespace (results, total_chunks) st
    = (Returned (None, (results ++ added, total_chunks + total added)), st')
    /\ map (fun result => result !! "file_path") added
       = map (fun path => Some (VStr path))
           (Observe.matching join file_extensions triples)
    /\ Forall (fun result => counted result) added
    /\ each (Observe.matching join file_extensions triples) namespace st
       = (added, st').
Proof.
  induction triples as [|[[root dirs] files] rest IH];
    intros results total_chunks st.
  - exists [], st. cbn. rewrite app_nil_r, Z.add_0_r. auto.
  - cbn [ingest_walk Observe.matching flat_map]. unfold bind.
    destruct (ingest_files_loop file_extensions root namespace files results
                total_chunks st)
      as (added1 & st1 & -> & Hpaths1 & Hadded1 & Heach1).
    destruct (IH (results ++ added1) (total_chunks + total added1) st1)
      as (added2 & st' & -> & Hpaths2 & Hadded2 & Heach2).
    exists (added1 ++ added2), st'.
    rewrite <- app_assoc, total_app, Z.add_assoc.
    split; [reflexivity|]. split.
    + rewrite !map_app, Hpaths1. f_equal. exact Hpaths2.
    + split; [apply Forall_app; auto|].
      rewrite ingest_each_app, Heach1. unfold Observe.matching in Heach2.
      rewrite Heach2. reflexivity.
Qed.


End DirectoryMore.

(** ** The endpoints [/ingest/directory] and [/ingest/file] *)

Section IngestionEndpointMore.

Import Py Sys.

Context {W : Type} `{!Outside W}.
Variable config : Config.t.
Variable splitext_ext : string -> string.
Variable basename : string -> string.
Variable join : string -> string -> string.

Lemma ingest_directory_status (directory_path : string)
    (file_extensions : list string) (namespace : string)
    (st : state W IngestionService.t) :
  let (r, w1) := respond (Walk directory_path) (world st) in
  exists report st',
    IngestionService.ingest_directory config splitext_ext basename join
      directory_path file_extensions namespace st = (Returned report, st')
    /\ match r with
       | inl e =>
           IngestionService.fields report !! "status" = Some (VStr "error")
           /\ IngestionService.fields report !! "message" = Some (VStr (exn_msg e))
       | inr _ =>
           IngestionService.fields report !! "status" = Some (VStr "success")
       end.
Proof.
  unfold IngestionService.ingest_directory, try_except, bind, invoke.
  destruct (respond (Walk directory_path) (world st)) as [[e|triples] w1]; simpl.
  - do 2 eexists. split; [reflexivity|]. split; reflexivity.
  - match goal with
    | |- context [IngestionService.ingest_walk _ _ _ _ _ _ _ _ ?st1] =>
        destruct (ingest_walk_loop config splitext_ext basename join
                    file_extensions namespace triples [] 0 st1)
          as (added & st' & -> & _)
    end.
    simpl. unfold ret. do 2 eexists. split; reflexivity.
Qed.

(** X27: [POST /ingest/directory] first checks that the directory exists.
    If it does not, the answer is 400 and nothing else is called.  If it
    does, the extensions are the pieces of [file_extensions] between commas,
    stripped, and the answer is the report of [ingest_directory] whenever
    the walk returns, whatever happened to the files, and 400 with the text
    of the exception when the walk raises.  Only a failing check of
    existence is answered with 500. *)
Theorem ingest_directory_endpoint (directory_path file_extensions namespace : string)
    (st : state W IngestionService.t) :
  let extensions := map Str.strip (Str.split ","%char file_extensions) in
  let (found, w1) := respond (PathExists directory_path) (world st) in
  let st1 := State (self st) w1
               (log st ++ [Performed (PathExists directory_path) found]) in
  match found with
  | inl e =>
      Main.ingest_directory config splitext_ext basename join directory_path
        file_extensions namespace st
      = (Returned (inl (Main.HTTPException 500 (VStr (exn_msg e)))), st1)
  | inr false =>
      Main.ingest_directory config splitext_ext basename join directory_path
        file_extensions namespace st
      = (Returned (inl (Main.HTTPException 400
                          (VStr ("Directory not found: " +:+ directory_path)))),
         st1)
  | inr true =>
      let (r, w2) := respond (Walk directory_path) w1 in
      exists report st',
        IngestionService.ingest_directory config splitext_ext basename join
          directory_path extensions namespace st1 = (Returned report, st')
        /\ Main.ingest_directory config splitext_ext basename join directory_path
             file_extensions namespace st
           = (Returned (match r with
                        | inl e => inl (Main.HTTPException 400 (VStr (exn_msg e)))
                        | inr _ => inr report
                        end), st')
  end.
Proof.
  intros extensions. subst extensions. cbv zeta.
  destruct (respond (PathExists directory_path) (world st)) as [[e|[|]] w1]
    eqn:Hexists.
  - unfold Main.ingest_directory, Main.guarded, try_except, bind, invoke.
    rewrite Hexists. reflexivity.
  - pose proof (ingest_directory_status directory_path
                  (map Str.strip (Str.split ","%char file_extensions)) namespace
                  (State (self st) w1
                     (log st ++ [Performed (PathExists directory_path) (inr true)])))
      as Hstatus.
    cbn [world] in Hstatus.
    destruct (respond (Walk directory_path) w1) as [[e|triples] w2];
      destruct Hstatus as (report & st' & Hrun & Hfields);
      exists report, st'; (split; [exact Hrun|]);
      unfold Main.ingest_directory, Main.guarded, try_except, bind, invoke;
      rewrite Hexists; cbn beta iota zeta; cbn [negb];
      match goal with
      | |- context [IngestionService.ingest_directory ?c ?s ?b ?j ?d ?x ?n ?st0] =>
          replace (IngestionService.ingest_directory c s b j d x n st0)
            with (Returned report, st') by (symmetry; exact Hrun)
      end;
      unfold Main.report_or_400.
    + destruct Hfields as [-> ->]. reflexivity.
    + rewrite Hfields. reflexivity.
  - unfold Main.ingest_directory, Main.guarded, try_except, bind, invoke.
    rewrite Hexists. reflexivity.
Qed.

Lemma substring_end (s : string) : String.substring (String.length s) 0 s = "".
Proof. induction s as [|c s IH]; [reflexivity | exact IH]. Qed.

(** [s.endswith("")] holds for every string. *)
Lemma endswith_empty (s : string) : Str.endswith s "" = true.
Proof.
  unfold Str.endswith. simpl. rewrite Nat.sub_0_r, substring_end. reflexivity.
Qed.

(** X28: an empty piece among the extensions matches every file.  When
    [file_extensions] has a piece between commas that is empty or blank (a
    trailing comma, or the empty string), every file of the walk is taken
    for ingestion, whatever its name. *)
Theorem blank_extension_takes_every_file (file_extensions : string)
    (triples : list (string * list string * list string)) :
  Exists (fun piece => Str.strip piece = "") (Str.split ","%char file_extensions) ->
  Observe.matching join (map Str.strip (Str.split ","%char file_extensions)) triples
  = flat_map (fun triple => map (join (fst (fst triple))) (snd triple)) triples.
Proof.
  intros Hblank.
  assert (forall file,
             IngestionService.matches
               (map Str.strip (Str.split ","%char file_extensions)) file = true)
    as Hall.
  { intros file. unfold IngestionService.matches. apply existsb_exists.
    apply Exists_exists in Hblank as (piece & Hin & Hstrip).
    exists "". split; [|apply endswith_empty].
    rewrite <- Hstrip. apply in_map. now apply list_elem_of_In. }
  unfold Observe.matching.
  induction triples as [|[[root dirs] files] rest IH]; [reflexivity|].
  cbn [flat_map fst snd]. rewrite IH. f_equal. f_equal.
  clear IH. induction files as [|file files IH]; [reflexivity|].
  cbn [List.filter]. rewrite Hall. now rewrite IH.
Qed.

(** What [ingest_file] gives the endpoint. *)
Lemma ingest_file_answer (file_path : string)
    (metadata : option (list (string * string))) (namespace : string)
    (st : state W IngestionService.t) :
  exists payload st' answer,
    IngestionService.ingest_file config splitext_ext basename file_path metadata
      namespace st = (Returned payload, st')
    /\ (forall S (s : S),
          Main.reply_or_400 ["success"] payload s = (Returned answer, s))
    /\ ((payload !! "status" = Some (VStr "success") /\ answer = inr payload)
        \/ (exists message,
              payload !! "status" = Some (VStr "error")
              /\ payload !! "message" = Some (VStr message)
              /\ answer = inl (Main.HTTPException 400 (VStr message)))).
Proof.
  destruct (ingest_file_result config splitext_ext basename file_path metadata
              namespace st)
    as (payload & st' & Hrun & _ & Hcases).
  exists payload, st'.
  destruct Hcases as [(Hs & _)|(Hs & _ & message & Hm)].
  - exists (inr payload). split; [exact Hrun|].
    split; [intros S s; unfold Main.reply_or_400; rewrite Hs; reflexivity|].
    left. auto.
  - exists (inl (Main.HTTPException 400 (VStr message))). split; [exact Hrun|].
    split; [intros S s; unfold Main.reply_or_400; rewrite Hs, Hm; reflexivity|].
    right. eauto.
Qed.

(** X29: [POST /ingest/file].  A file name that ends with none of the four
    suffixes is answered with 400 before anything is called.  When reading
    the upload raises, the temporary file is closed and the answer is 500:
    no call removes the file.  When the upload has been written and the file
    closed, the file is ingested under its temporary path, with the base
    name of the upload as [title], in the namespace [default]; the removal
    of the temporary file is the last call, whatever ingestion gave, and the
    answer is the payload on success, 400 with its message otherwise, and
    500 when the removal raises. *)
Theorem ingest_file_endpoint (filename : string)
    (st : state W IngestionService.t) :
  (Main.supported filename = false ->
   Main.ingest_file config splitext_ext basename filename st
   = (Returned
        (inl (Main.HTTPException 400
                (VStr "Only .txt, .md, .pdf and .docx files are supported"))),
      st))
  /\ (forall tmp e w1 w2,
        Main.supported filename = true ->
        respond (NamedTemporaryFile (splitext_ext filename)) (world st)
        = (inr tmp, w1) ->
        respond (UploadRead filename) w1 = (inl e, w2) ->
        let (closed, w3) := respond (TempClose tmp) w2 in
        Main.ingest_file config splitext_ext basename filename st
        = (Returned
             (inl (Main.HTTPException 500
                     (VStr (exn_msg match closed with
                                    | inl e' => e'
                                    | inr _ => e
                                    end)))),
           State (self st) w3
             (log st
              ++ [Performed (NamedTemporaryFile (splitext_ext filename)) (inr tmp);
                  Performed (UploadRead filename) (inl e);
                  Performed (TempClose tmp) closed])))
  /\ (forall tmp content w1 w2 w3 w4,
        Main.supported filename = true ->
        respond (NamedTemporaryFile (splitext_ext filename)) (world st)
        = (inr tmp, w1) ->
        respond (UploadRead filename) w1 = (inr content, w2) ->
        respond (TempWrite tmp content) w2 = (inr tt, w3) ->
        respond (TempClose tmp) w3 = (inr tt, w4) ->
        let st4 :=
          State (self st) w4
            (log st
             ++ [Performed (NamedTemporaryFile (splitext_ext filename)) (inr tmp);
                 Performed (UploadRead filename) (inr content);
                 Performed (TempWrite tmp content) (inr tt);
                 Performed (TempClose tmp) (inr tt)]) in
        exists payload st5 answer,
          IngestionService.ingest_file config splitext_ext basename tmp
            (Some [("title", basename filename)]) "default" st4
          = (Returned payload, st5)
          /\ ((payload !! "status" = Some (VStr "success") /\ answer = inr payload)
              \/ (exists message,
                    payload !! "status" = Some (VStr "error")
                    /\ payload !! "message" = Some (VStr message)
                    /\ answer = inl (Main.HTTPException 400 (VStr message))))
          /\ let (r, w6) := respond (Unlink tmp) (world st5) in
             Main.ingest_file config splitext_ext basename filename st
             = (Returned
                  match r with
                  | inl e => inl (Main.HTTPException 500 (VStr (exn_msg e)))
                  | inr _ => answer
                  end,
                State (self st5) w6 (log st5 ++ [Performed (Unlink tmp) r]))).
Proof.
  split; [|split].
  - intros Hname. unfold Main.ingest_file, Main.guarded, try_except.
    rewrite Hname. reflexivity.
  - intros tmp e w1 w2 Hname Htmp Hread.
    destruct (respond (TempClose tmp) w2) as [closed w3] eqn:Hclose.
    unfold Main.ingest_file, Main.guarded, Main.try_finally, try_except, bind,
      invoke.
    rewrite Hname. cbn [negb]. rewrite Htmp. cbn [world self log].
    rewrite Hread. cbn [world self log]. rewrite Hclose.
    destruct closed as [e'|[]]; cbn; rewrite <- !app_assoc; reflexivity.
  - intros tmp content w1 w2 w3 w4 Hname Htmp Hread Hwrite Hclose st4.
    destruct (ingest_file_answer tmp (Some [("title", basename filename)])
                "default" st4)
      as (payload & st5 & answer & Hrun & Hreply & Hcases).
    exists payload, st5, answer. split; [exact Hrun|]. split; [exact Hcases|].
    destruct (respond (Unlink tmp) (world st5)) as [r w6] eqn:Hunlink.
    unfold Main.ingest_file, Main.guarded, try_except.
    rewrite Hname. cbn [negb]. cbv zeta.
    unfold bind at 1. unfold invoke at 1. rewrite Htmp.
    unfold bind at 1. unfold Main.try_finally at 1.
    unfold bind at 1. unfold invoke at 1. cbn [world self log]. rewrite Hread.
    unfold invoke at 1. cbn [world self log]. rewrite Hwrite.
    unfold invoke at 1. cbn [world self log]. rewrite Hclose.
    rewrite <- !app_assoc. cbn [app].
    unfold Main.try_finally, bind.
    match goal with
    | |- context [IngestionService.ingest_file ?c ?s ?b ?p ?m ?n ?st0] =>
        replace (IngestionService.ingest_file c s b p m n st0)
          with (Returned payload, st5) by (symmetry; exact Hrun)
    end.
    rewrite Hreply. unfold invoke. rewrite Hunlink.
    destruct r as [e|[]]; reflexivity.
Qed.

End IngestionEndpointMore.

(** ** The further properties at the sample inputs *)

Section MoreWitnesses.

Import Py Ext.

(** Two short documents are rendered whole. *)
Lemma prepare_context_fits_witness :
  Composer._prepare_context [Sample.doc1; Sample.doc2]
  = Str.join Str.nl (Rendering.blocks 1 [Sample.doc1; Sample.doc2]).
Proof.
  apply (prepare_context_fits Sample.doc1 [Sample.doc2]).
  vm_compute. discriminate.
Defined.

(** A content of 1201 letters is cut to 1200 and the marker. *)
Lemma doc_content_capped_witness :
  Str.len (Composer.doc_content Cases.long_doc) = 1203.
Proof.
  destruct (doc_content_capped Cases.long_doc) as (_ & _ & H).
  apply H. vm_compute. reflexivity.
Defined.

(** The legacy location of the sample environment. *)
Lemma load_legacy_location_witness :
  exists region cloud,
    Config.PINECONE_REGION (Config.load Sample.env) = Some region
    /\ Config.PINECONE_CLOUD (Config.load Sample.env) = Some cloud
    /\ region +:+ "-" +:+ cloud = "us-east-1-aws"
    /\ Str.split "-"%char cloud = [cloud].
Proof.
  apply (load_legacy_location Sample.env "us-east-1-aws").
  - vm_compute. reflexivity.
  - vm_compute. reflexivity.
  - vm_compute. reflexivity.
  - vm_compute. lia.
Defined.

(** With no location in the environment, the vector store is refused. *)
Lemma unparsed_legacy_fails_fast_witness :
  fst (VectorStore._initialize_pinecone (Config.load Cases.env_no_location)
         (State VectorStore.blank Sample.up []))
  = Raised VectorStore.not_configured.
Proof.
  apply (unparsed_legacy_fails_fast Cases.env_no_location
           (State VectorStore.blank Sample.up []) Sample.up Sample.up []).
  - vm_compute. reflexivity.
  - vm_compute. reflexivity.
  - vm_compute. reflexivity.
  - vm_compute. reflexivity.
  - apply not_elem_of_nil.
Defined.

(** The sample configuration is healthy, and its index gets created. *)
Lemma healthy_config_creates_index_witness :
  exists cloud region dimension r rest,
    Config.PINECONE_CLOUD Sample.config = Some cloud
    /\ Config.PINECONE_REGION Sample.config = Some region
    /\ log (snd (VectorStore._initialize_pinecone Sample.config
                   (State VectorStore.blank Sample.up [])))
       = []
         ++ [Called (NewPinecone (Some "pc-test")) (inr tt);
             Called (ListIndexes (mkPinecone (Some "pc-test"))) (inr []);
             Called (CreateIndex (mkPinecone (Some "pc-test")) "rag-index" dimension
                       "cosine" cloud region) r]
         ++ rest.
Proof.
  apply (healthy_config_creates_index Sample.config
           (State VectorStore.blank Sample.up []) Sample.up Sample.up []).
  - vm_compute. reflexivity.
  - reflexivity.
  - reflexivity.
  - apply not_elem_of_nil.
Defined.

(** The dense retriever moved to the namespace [papers]. *)
Lemma change_namespace_rebinds_witness :
  let st1 := snd (HybridRetriever.change_namespace false Sample.config "papers"
                    (State Sample.dense_retriever Sample.up [])) in
  HybridRetriever.namespace (self st1) = "papers"
  /\ HybridRetriever.retriever (self st1) = None
  /\ exists vs,
      HybridRetriever.vectorstore (self st1) = Some vs /\ vs_namespace vs = "papers".
Proof.
  assert (HybridRetriever.change_namespace false Sample.config "papers"
            (State Sample.dense_retriever Sample.up [])
          = (Returned tt,
             snd (HybridRetriever.change_namespace false Sample.config "papers"
                    (State Sample.dense_retriever Sample.up [])))) as E
    by (vm_compute; reflexivity).
  destruct (change_namespace_rebinds Sample.config false "papers" _ _ E)
    as (Hns & Hbound & _).
  split; [exact Hns | exact Hbound].
Defined.

(** The same move with the Pinecone client down: the old vector store stays. *)
Lemma change_namespace_failure_witness :
  let st1 := snd (HybridRetriever.change_namespace false Sample.config "papers"
                    (State Sample.dense_retriever Cases.pinecone_broken [])) in
  HybridRetriever.namespace (self st1) = "papers"
  /\ HybridRetriever.vectorstore (self st1) = Some Sample.dense.
Proof.
  assert (HybridRetriever.change_namespace false Sample.config "papers"
            (State Sample.dense_retriever Cases.pinecone_broken [])
          = (Raised Sample.unavailable,
             snd (HybridRetriever.change_namespace false Sample.config "papers"
                    (State Sample.dense_retriever Cases.pinecone_broken [])))) as E
    by (vm_compute; reflexivity).
  destruct (change_namespace_failure Sample.config false "papers" _ _ _ E)
    as (Hns & _ & Hvs & _).
  split; [exact Hns | exact Hvs].
Defined.

(** A hybrid retrieval of one document. *)
Lemma retrieve_hybrid_only_witness :
  fst (HybridRetriever.retrieve true Sample.config 1 "What is ATP?" 1 0.25%float 20
         (State Cases.hybrid_retriever Sample.up []))
  = Returned [Sample.doc1].
Proof.
  destruct (retrieve_hybrid_only Sample.config 0 "What is ATP?" 1 0.25%float 20
              (State Cases.hybrid_retriever Sample.up []) Cases.hybrid eq_refl)
    as (_ & H & _).
  specialize (H Sample.up Sample.up eq_refl eq_refl).
  set (result := HybridRetriever.retrieve _ _ _ _ _ _ _ _) in *. clearbody result.
  simpl in H. rewrite H. reflexivity.
Defined.

(** [POST /query] on the sample service. *)
Lemma query_endpoint_responses_witness :
  exists payload st',
    Main.query false Sample.config 2 "What is ATP?" (State Sample.service Sample.up [])
    = (Returned (inr payload), st')
    /\ payload !! "status" = Some (VStr "success").
Proof.
  destruct (query_endpoint_responses false Sample.config 0 "What is ATP?"
              (State Sample.service Sample.up []) eq_refl)
    as (payload & st' & E & _ & Hcases).
  assert (payload !! "status" = Some (VStr "success")) as Hstatus.
  { transitivity
      (match fst (RAGService.query false Sample.config 2 "What is ATP?" 5 0.5%float
                    false None (State Sample.service Sample.up []))
       with
       | Returned p => p !! "status"
       | _ => None
       end).
    - change (2 + 0)%nat with 2%nat in E. rewrite E. reflexivity.
    - vm_compute. reflexivity. }
  destruct Hcases as [[Hq _]|(message & _ & Hs & _)].
  - exists payload, st'. split; [exact Hq | exact Hstatus].
  - rewrite Hstatus in Hs. discriminate Hs.
Defined.

(** [POST /retrieve] with every dense search down: the answer is 200, with
    no document. *)
Lemma retrieve_endpoint_responses_witness :
  exists payload st',
    Main.retrieve false Sample.config 2 "What is ATP?"
      (State Sample.service Sample.dense_broken [])
    = (Returned (inr payload), st')
    /\ payload !! "status" = Some (VStr "success")
    /\ payload !! "count" = Some (VInt 0)
    /\ payload !! "namespace" = Some (VStr "default").
Proof.
  destruct (retrieve_endpoint_responses false Sample.config 0 "What is ATP?"
              (State Sample.service Sample.dense_broken []) eq_refl)
    as (r & st' & new & payload & Eret & _ & _ & _ & Hcases).
  assert (r = Returned []) as ->.
  { transitivity
      (fst (RAGService.with_retriever
              (HybridRetriever.retrieve false Sample.config 2 "What is ATP?" 5
                 0.5%float 20)
              (State Sample.service Sample.dense_broken []))).
    - change (2 + 0)%nat with 2%nat in Eret. rewrite Eret. reflexivity.
    - reflexivity. }
  destruct Hcases as (Hq & Hs & Hc & Hns).
  exists payload, st'. split; [exact Hq|]. split; [exact Hs|].
  split; [exact Hc | exact Hns].
Defined.

(** The same with the standard output down as well: the exception of the
    print of the error line is answered as the error 400. *)
Example retrieve_endpoint_print_failure :
  fst (Main.retrieve false Sample.config 2 "What is ATP?"
         (State Sample.service Sample.dense_broken_mute []))
  = Returned (inl (Main.HTTPException 400 (VStr (exn_msg Sample.unprintable)))).
Proof. reflexivity. Qed.

(** A file with an extension that is not supported. *)
Lemma process_file_rejects_unread_witness :
  fst (DocumentFiles.process_file Cases.splitext_ext Cases.basename "notes/data.csv"
         None (Sys.State Cases.processor Cases.notes []))
  = Raised (ValueError "Unsupported file extension: .csv").
Proof.
  rewrite (process_file_rejects_unread Cases.splitext_ext Cases.basename
             "notes/data.csv" None (Sys.State Cases.processor Cases.notes [])
             true Cases.notes).
  - reflexivity.
  - vm_compute. reflexivity.
  - right.
    assert (DocumentFiles.lower (Cases.splitext_ext "notes/data.csv") = ".csv")
      as -> by (vm_compute; reflexivity).
    repeat (apply not_elem_of_cons; split; [discriminate|]).
    apply not_elem_of_nil.
Defined.

(** A text file, with a [source] given by the caller. *)
Lemma process_file_text_witness :
  exists md,
    DocumentFiles.dict_get "source" md = Some "notes/cell.txt"
    /\ DocumentFiles.dict_get "file_name" md = Some "cell.txt"
    /\ fst (DocumentFiles.process_file Cases.splitext_ext Cases.basename
              "notes/cell.txt" (Some [("source", "elsewhere")])
              (Sys.State Cases.processor Cases.notes []))
       = Returned [mkDocument "Cells divide." md].
Proof.
  destruct (process_file_text Cases.splitext_ext Cases.basename "notes/cell.txt"
              "Cells divide." (Some [("source", "elsewhere")])
              (Sys.State Cases.processor Cases.notes []) Cases.splitter
              Cases.notes Cases.notes)
    as (md & Hsource & Hname & _ & _ & Hrun).
  - reflexivity.
  - vm_compute. reflexivity.
  - left. vm_compute. reflexivity.
  - vm_compute. reflexivity.
  - exists md. split; [exact Hsource|]. split; [exact Hname|].
    simpl in Hrun. rewrite Hrun. reflexivity.
Defined.

(** A trailing comma in the extensions. *)
Lemma blank_extension_takes_every_file_witness :
  Observe.matching Cases.join (map Str.strip (Str.split ","%char ".txt,"))
    [("notes", [], ["cell.txt"; "data.csv"])]
  = ["notes/cell.txt"; "notes/data.csv"].
Proof.
  rewrite (blank_extension_takes_every_file Cases.join ".txt,").
  - reflexivity.
  - apply Exists_cons_tl, Exists_cons_hd. reflexivity.
Defined.

(** The directory of the sample site, taken for [.txt] and [.csv]: both
    files get a result, the second one an error, and the status is
    [success]. *)
Example ingest_directory_notes :
  exists report st',
    IngestionService.ingest_directory Sample.config Cases.splitext_ext Cases.basename
      Cases.join "notes" [".txt"; ".csv"] "default"
      (Sys.State Cases.ingestion Cases.notes [])
    = (Returned report, st')
    /\ IngestionService.fields report !! "status" = Some (VStr "success")
    /\ IngestionService.fields report !! "total_chunks" = Some (VInt 1)
    /\ map (fun result => result !! "status") (IngestionService.file_results report)
       = [Some (VStr "success"); Some (VStr "error")]
    /\ map (fun result => result !! "message") (IngestionService.file_results report)
       = [Some (VStr "Successfully ingested file: notes/cell.txt");
          Some (VStr "Unsupported file extension: .csv")].
Proof. do 2 eexists. split; [vm_compute; reflexivity|]. repeat split; vm_compute; reflexivity. Qed.

(** An upload to [POST /ingest/file] on the sample site. *)
Example ingest_file_upload :
  exists payload st',
    Main.ingest_file Sample.config Cases.splitext_ext Cases.basename "cell.txt"
      (Sys.State Cases.ingestion Cases.notes [])
    = (Returned (inr payload), st')
    /\ payload !! "file_path" = Some (VStr "/tmp/upload.txt")
    /\ map Sys.entry_call (Sys.log st')
       = [Sys.NamedTemporaryFile ".txt"; Sys.UploadRead "cell.txt";
          Sys.TempWrite "/tmp/upload.txt" "Cells divide.";
          Sys.TempClose "/tmp/upload.txt"; Sys.PathExists "/tmp/upload.txt";
          Sys.ReadText "/tmp/upload.txt";
          Sys.Lib (Ext.SplitDocuments Cases.splitter
                     [mkDocument "Cells divide."
                        [("title", "cell.txt"); ("source", "/tmp/upload.txt");
                         ("file_name", "upload.txt")]]);
          Sys.FromDocuments
            [mkDocument "Cells divide."
               [("title", "cell.txt"); ("source", "/tmp/upload.txt");
                ("file_name", "upload.txt")]]
            (Some Sample.embeddings) "rag-index" "default";
          Sys.Unlink "/tmp/upload.txt"].
Proof. do 2 eexists. split; [vm_compute; reflexivity|]. split; vm_compute; reflexivity. Qed.

End MoreWitnesses.
